(** * The workflow execution core of LangBot, embedded in Rocq

    The development follows the Python package [langbot.pkg.workflow]
    (entities, nodes, executor, serializer, manager) and the workflow
    persistence service.  Each Python function becomes a Rocq function of
    the same name; mutable objects are threaded explicitly; a raised
    exception is the [Raise] branch of the result type [res].

    Conventions of the embedding.
    - Python values that flow through node outputs, trigger data and YAML
      documents are the type [value] (None, bool, int, str, list, dict with
      string keys).  Floating point numbers are not represented; the one
      place that converts to float (the ordering clauses of the condition
      node) asks the [World].
    - A dict is an association list with unique keys in insertion order
      ([dict_get], [dict_set]); iteration order is the list order.
    - The executor compares the fields annotated with an enum type with
      members of the enum, so the workflows, nodes and contexts it is
      modelled on ([Entities]) hold members there: [node.type] is a
      [NodeType], [workflow.status] a [WorkflowStatus], the trigger of a
      context a [WorkflowTriggerType].  The entity constructors store
      the value strings instead ([use_enum_values]); the serializer,
      where the two meet, is modelled on objects that say for each such
      field what it holds ([Objects]).
    - A node configuration is an object of one of the configuration
      classes, read by attribute ([config.content]) through the field
      table [config_fields], or a plain dict, which is what answers
      [config.get("tool_id")].
    - Everything outside the package (HTTP, the clock, [json], [float])
      is a field of the record [World]; a fresh uuid is an argument of the
      constructor that draws one. *)

From Stdlib Require Import String Ascii ZArith List Bool Lia DecimalString.
From stdpp Require Import gmap strings list.
Import ListNotations.
Local Open Scope Z_scope.
Set Warnings "-register-all".
Set Default Proof Using "Type".

(** ** Python values *)

Module Py.

Inductive value : Type :=
| VNone
| VBool (b : bool)
| VInt (z : Z)
| VStr (s : string)
| VList (l : list value)
| VDict (d : list (string * value)).

Definition dict := list (string * value).

(** Exceptions, by class; [exn_str] is [str(e)]. *)
Inductive exn : Type :=
| ValueError (msg : string)
| TypeError (msg : string)
| AttributeError (msg : string)
| KeyError (msg : string)
| IndexError (msg : string)
| RuntimeError (msg : string).

Definition exn_str (e : exn) : string :=
  match e with
  | ValueError m | TypeError m | AttributeError m
  | KeyError m | IndexError m | RuntimeError m => m
  end.

(** The result of a call that may raise. *)
Inductive res (A : Type) : Type :=
| Ok (a : A)
| Raise (e : exn).
Arguments Ok {A} a.
Arguments Raise {A} e.

#[global] Instance res_ret : MRet res := fun A a => Ok a.
#[global] Instance res_bind : MBind res := fun A B k m =>
  match m with
  | Ok a => k a
  | Raise e => Raise e
  end.

(** [dict.get(k)], [k in d], [d[k] = v]. *)
Fixpoint dict_get {A} (k : string) (d : list (string * A)) : option A :=
  match d with
  | [] => None
  | (k', v) :: d' => if String.eqb k k' then Some v else dict_get k d'
  end.

Definition dict_mem {A} (k : string) (d : list (string * A)) : bool :=
  match dict_get k d with Some _ => true | None => false end.

Fixpoint dict_set {A} (k : string) (v : A) (d : list (string * A))
  : list (string * A) :=
  match d with
  | [] => [(k, v)]
  | (k', v') :: d' =>
      if String.eqb k k' then (k, v) :: d' else (k', v') :: dict_set k v d'
  end.

Definition dict_get_default {A} (k : string) (default : A)
  (d : list (string * A)) : A :=
  match dict_get k d with Some v => v | None => default end.

(** [bool(v)] *)
Definition truthy (v : value) : bool :=
  match v with
  | VNone => false
  | VBool b => b
  | VInt z => negb (z =? 0)
  | VStr s => negb (String.eqb s "")
  | VList l => match l with [] => false | _ => true end
  | VDict d => match d with [] => false | _ => true end
  end.

Definition truthy_str (s : option string) : bool :=
  match s with Some s => negb (String.eqb s "") | None => false end.

Definition truthy_int (z : option Z) : bool :=
  match z with Some z => negb (z =? 0) | None => false end.

Definition opt_str (s : option string) : value :=
  match s with Some s => VStr s | None => VNone end.

Definition opt_int (z : option Z) : value :=
  match z with Some z => VInt z | None => VNone end.

(** [a == b]: a bool compares as the int it is, dicts compare without
    regard to order. *)
Fixpoint py_eq (a b : value) : bool :=
  match a, b with
  | VNone, VNone => true
  | VBool x, VBool y => Bool.eqb x y
  | VBool x, VInt y => (if x then 1 else 0) =? y
  | VInt x, VBool y => x =? (if y then 1 else 0)
  | VInt x, VInt y => x =? y
  | VStr x, VStr y => String.eqb x y
  | VList x, VList y =>
      (fix go (l1 l2 : list value) : bool :=
         match l1, l2 with
         | [], [] => true
         | u :: l1', w :: l2' => py_eq u w && go l1' l2'
         | _, _ => false
         end) x y
  | VDict x, VDict y =>
      (length x =? length y)%nat &&
      (fix go (l1 : list (string * value)) : bool :=
         match l1 with
         | [] => true
         | (k, u) :: l1' =>
             match dict_get k y with
             | Some w => py_eq u w && go l1'
             | None => false
             end
         end) x
  | _, _ => false
  end.

(** Decimal text of an integer, [str(n)]. *)
Definition str_of_Z (z : Z) : string := NilZero.string_of_int (Z.to_int z).

Definition concat_sep (sep : string) (l : list string) : string :=
  String.concat sep l.

(** [repr(v)] and [str(v)].  The text of a string inside a container is
    written between single quotes without escapes, which is what Python
    prints for strings free of quotes, backslashes and control
    characters. *)
Fixpoint py_repr (v : value) : string :=
  match v with
  | VNone => "None"
  | VBool true => "True"
  | VBool false => "False"
  | VInt z => str_of_Z z
  | VStr s => "'" +:+ s +:+ "'"
  | VList l => "[" +:+ concat_sep ", " (map py_repr l) +:+ "]"
  | VDict d =>
      "{" +:+ concat_sep ", "
               (map (fun kv => "'" +:+ fst kv +:+ "': " +:+ py_repr (snd kv)) d)
          +:+ "}"
  end.

Definition py_str (v : value) : string :=
  match v with
  | VStr s => s
  | _ => py_repr v
  end.

(** [type(v).__name__] *)
Definition type_name (v : value) : string :=
  match v with
  | VNone => "NoneType"
  | VBool _ => "bool"
  | VInt _ => "int"
  | VStr _ => "str"
  | VList _ => "list"
  | VDict _ => "dict"
  end.

(** *** Strings *)

(** [s.replace(old, new)] for a non-empty [old]: scan left to right; at
    an occurrence emit [new] and skip the rest of the occurrence. *)
Fixpoint replace_from (old new : string) (skip : nat) (s : string) : string :=
  match s with
  | EmptyString => EmptyString
  | String c rest =>
      match skip with
      | S k => replace_from old new k rest
      | O =>
          if String.prefix old s
          then new +:+ replace_from old new (String.length old - 1) rest
          else String c (replace_from old new 0 rest)
      end
  end.

(** With an empty [old] Python puts [new] before every character and at
    the end. *)
Fixpoint interleave (new s : string) : string :=
  match s with
  | EmptyString => new
  | String c rest => new +:+ String c (interleave new rest)
  end.

Definition replace (old new s : string) : string :=
  match old with
  | EmptyString => interleave new s
  | _ => replace_from old new 0 s
  end.

(** [old in s] *)
Fixpoint occurs (old s : string) : bool :=
  String.prefix old s ||
  match s with
  | EmptyString => false
  | String _ rest => occurs old rest
  end.

Definition startswith (s pre : string) : bool := String.prefix pre s.

(** [c.isspace()] for a character below 256: the ASCII whitespace and
    the separators 0x1c to 0x1f, next line (0x85) and no-break space
    (0xa0).  [str.split()] splits on these. *)
Definition is_space (c : ascii) : bool :=
  let n := nat_of_ascii c in
  ((9 <=? n) && (n <=? 13) || (28 <=? n) && (n <=? 32)
   || (n =? 133) || (n =? 160))%nat.

Fixpoint lstrip (s : string) : string :=
  match s with
  | EmptyString => EmptyString
  | String c rest => if is_space c then lstrip rest else s
  end.

Fixpoint take_word (s : string) : string :=
  match s with
  | EmptyString => EmptyString
  | String c rest => if is_space c then EmptyString else String c (take_word rest)
  end.

(** [s.split()[0]]: the first whitespace-separated word; IndexError when
    there is none. *)
Definition first_word (s : string) : res string :=
  match take_word (lstrip s) with
  | EmptyString => Raise (IndexError "list index out of range")
  | w => Ok w
  end.

Definition lower_ascii (c : ascii) : ascii :=
  let n := nat_of_ascii c in
  if ((65 <=? n) && (n <=? 90))%nat then ascii_of_nat (n + 32) else c.

Fixpoint lower (s : string) : string :=
  match s with
  | EmptyString => EmptyString
  | String c rest => String (lower_ascii c) (lower rest)
  end.

(** [s.split(sep)] for a one-character separator. *)
Fixpoint split_on (sep : ascii) (s : string) : list string :=
  match s with
  | EmptyString => [EmptyString]
  | String c rest =>
      if Ascii.eqb c sep then EmptyString :: split_on sep rest
      else match split_on sep rest with
           | [] => [String c EmptyString]
           | w :: ws => String c w :: ws
           end
  end.

Definition is_digit (c : ascii) : bool :=
  let n := nat_of_ascii c in ((48 <=? n) && (n <=? 57))%nat.

Fixpoint all_digits (s : string) : bool :=
  match s with
  | EmptyString => true
  | String c rest => is_digit c && all_digits rest
  end.

(** [s.isdigit()] *)
Definition isdigit (s : string) : bool :=
  match s with EmptyString => false | _ => all_digits s end.

(** [int(s)] for a string of digits. *)
Fixpoint digits_value (acc : nat) (s : string) : nat :=
  match s with
  | EmptyString => acc
  | String c rest => digits_value (10 * acc + (nat_of_ascii c - 48)) rest
  end.

End Py.
Export Py.

(** ** entities.py *)

Module Entities.

Inductive WorkflowTriggerType : Type :=
| PERSON_MESSAGE | GROUP_MESSAGE | SCHEDULED | MANUAL | API.

Inductive NodeType : Type :=
| EVENT_START | SCHEDULE_START
| CONDITION | BRANCH | LOOP
| HTTP_REQUEST | BINARY_STORAGE | FILE_STORAGE | JSON_PROCESSOR
| REPLY_MESSAGE | TOOL_ACTION
| SET_VARIABLE | GET_VARIABLE
| CHAT_COMMAND_BRANCH
| END.

Inductive NodeStatus : Type :=
| PENDING | RUNNING | SUCCESS | FAILED | SKIPPED | CANCELLED.

Inductive WorkflowStatus : Type :=
| DRAFT | ACTIVE | INACTIVE | ARCHIVED.

#[global] Instance WorkflowTriggerType_eq_dec : EqDecision WorkflowTriggerType.
Proof. solve_decision. Defined.
#[global] Instance NodeType_eq_dec : EqDecision NodeType.
Proof. solve_decision. Defined.
#[global] Instance NodeStatus_eq_dec : EqDecision NodeStatus.
Proof. solve_decision. Defined.
#[global] Instance WorkflowStatus_eq_dec : EqDecision WorkflowStatus.
Proof. solve_decision. Defined.

(** The [.value] of each member. *)
Definition trigger_value (t : WorkflowTriggerType) : string :=
  match t with
  | PERSON_MESSAGE => "person_message"
  | GROUP_MESSAGE => "group_message"
  | SCHEDULED => "scheduled"
  | MANUAL => "manual"
  | API => "api"
  end.

Definition node_type_value (t : NodeType) : string :=
  match t with
  | EVENT_START => "event_start"
  | SCHEDULE_START => "schedule_start"
  | CONDITION => "condition"
  | BRANCH => "branch"
  | LOOP => "loop"
  | HTTP_REQUEST => "http_request"
  | BINARY_STORAGE => "binary_storage"
  | FILE_STORAGE => "file_storage"
  | JSON_PROCESSOR => "json_processor"
  | REPLY_MESSAGE => "reply_message"
  | TOOL_ACTION => "tool_action"
  | SET_VARIABLE => "set_variable"
  | GET_VARIABLE => "get_variable"
  | CHAT_COMMAND_BRANCH => "chat_command_branch"
  | END => "end"
  end.

Definition status_value (s : WorkflowStatus) : string :=
  match s with
  | DRAFT => "draft"
  | ACTIVE => "active"
  | INACTIVE => "inactive"
  | ARCHIVED => "archived"
  end.

(** The enum constructors [WorkflowTriggerType(s)], [NodeType(s)] and
    [WorkflowStatus(s)]: the member with that value, else ValueError. *)
Definition all_triggers : list WorkflowTriggerType :=
  [PERSON_MESSAGE; GROUP_MESSAGE; SCHEDULED; MANUAL; API].

Definition all_node_types : list NodeType :=
  [EVENT_START; SCHEDULE_START; CONDITION; BRANCH; LOOP; HTTP_REQUEST;
   BINARY_STORAGE; FILE_STORAGE; JSON_PROCESSOR; REPLY_MESSAGE; TOOL_ACTION;
   SET_VARIABLE; GET_VARIABLE; CHAT_COMMAND_BRANCH; END].

Definition all_statuses : list WorkflowStatus :=
  [DRAFT; ACTIVE; INACTIVE; ARCHIVED].

Definition enum_of_value {E} (members : list E) (val : E -> string)
  (what : string) (v : value) : res E :=
  match v with
  | VStr s =>
      match List.find (fun m => String.eqb (val m) s) members with
      | Some m => Ok m
      | None => Raise (ValueError ("'" +:+ s +:+ "' is not a valid " +:+ what))
      end
  | _ => Raise (ValueError (py_repr v +:+ " is not a valid " +:+ what))
  end.

Definition trigger_of_value := enum_of_value all_triggers trigger_value "WorkflowTriggerType".
Definition node_type_of_value := enum_of_value all_node_types node_type_value "NodeType".
Definition status_of_value := enum_of_value all_statuses status_value "WorkflowStatus".

(** What a field annotated with an enum class, or with [str] where a
    member is handed in, holds: the member itself or a string.
    [Workflow], [WorkflowNode] and [WorkflowContext] set
    [use_enum_values], so their constructors store the value of the
    member they are given; the member is in such a field after an
    assignment, which is not validated. *)
Inductive held (E : Type) : Type :=
| Member (e : E)
| Stored (s : string).
Arguments Member {E} e.
Arguments Stored {E} s.

#[global] Instance held_eq_dec {E} `{EqDecision E} : EqDecision (held E).
Proof. solve_decision. Defined.

(** [h.value] *)
Definition value_of_held {E} (val : E -> string) (h : held E) : res string :=
  match h with
  | Member e => Ok (val e)
  | Stored _ => Raise (AttributeError "'str' object has no attribute 'value'")
  end.

(** The text in the field: the value of the member, or the string. *)
Definition held_text {E} (val : E -> string) (h : held E) : string :=
  match h with
  | Member e => val e
  | Stored s => s
  end.

(** [bool(h)]: a member is truthy, a string unless it is empty. *)
Definition held_truthy {E} (h : held E) : bool :=
  match h with
  | Member _ => true
  | Stored s => negb (String.eqb s "")
  end.

Record EdgeCondition : Type := {
  ec_type : string;
  ec_field : option string;
  ec_value : value;
  ec_operator : option string
}.

Record WorkflowEdge : Type := {
  edge_id : string;
  source : string;
  target : string;
  condition : option EdgeCondition;
  label : option string
}.

(** The configuration classes.  Every one extends [NodeConfig], whose
    three fields are the first three of the record below; the payload
    says which class the object is, and [extra] holds the fields the
    class does not declare ([extra="allow"]).  [trigger_type] of
    [EventStartConfig] is declared [str] and is handed a member by the
    deserializer, so it is a [held] field.

    [node.config] is declared as a union of these classes, and a
    validated node holds an object of one of them.  The handlers that
    start with [config = self.node.config or {}] and go on with
    [config.get(...)] take it for a dict; [PlainDict] is a [config]
    that is one, put there by an assignment.  For a plain dict the
    other fields of the record are not read. *)
Inductive ConfigPayload : Type :=
| EventStartConfig (trigger_type : held WorkflowTriggerType) (filters : value)
| ScheduleStartConfig (cron_expression : string) (timezone : option string)
| HttpRequestConfig (method url : string) (headers body auth : value)
| JsonProcessorConfig (operation : string) (path : option string) (val : value)
| ReplyMessageConfig (content : string) (reply_to : option string)
                     (components : value)
| VariableConfig (variable_name : string) (val default : value)
| ConditionConfig (conditions : list EdgeCondition)
                  (default_branch : option string)
| ToolActionConfig (tool_id : string) (parameters : value)
| BaseConfig
| PlainDict (items : dict).

Record NodeConfig : Type := {
  timeout : option Z;
  retry : option Z;
  error_handler : option string;
  payload : ConfigPayload;
  extra : dict
}.

Definition condition_fields (c : EdgeCondition) : dict :=
  [("type", VStr (ec_type c)); ("field", opt_str (ec_field c));
   ("value", ec_value c); ("operator", opt_str (ec_operator c))].

Definition payload_fields (p : ConfigPayload) : dict :=
  match p with
  | EventStartConfig t f =>
      [("trigger_type", VStr (held_text trigger_value t)); ("filters", f)]
  | ScheduleStartConfig c tz =>
      [("cron_expression", VStr c); ("timezone", opt_str tz)]
  | HttpRequestConfig m u h b a =>
      [("method", VStr m); ("url", VStr u); ("headers", h); ("body", b);
       ("auth", a)]
  | JsonProcessorConfig o p v =>
      [("operation", VStr o); ("path", opt_str p); ("value", v)]
  | ReplyMessageConfig c r cs =>
      [("content", VStr c); ("reply_to", opt_str r); ("components", cs)]
  | VariableConfig n v d =>
      [("variable_name", VStr n); ("value", v); ("default", d)]
  | ConditionConfig cs d =>
      [("conditions", VList (map (fun c => VDict (condition_fields c)) cs));
       ("default_branch", opt_str d)]
  | ToolActionConfig t p =>
      [("tool_id", VStr t); ("parameters", p)]
  | BaseConfig => []
  | PlainDict _ => []
  end.

(** [type(config).__name__] *)
Definition class_name (p : ConfigPayload) : string :=
  match p with
  | EventStartConfig _ _ => "EventStartConfig"
  | ScheduleStartConfig _ _ => "ScheduleStartConfig"
  | HttpRequestConfig _ _ _ _ _ => "HttpRequestConfig"
  | JsonProcessorConfig _ _ _ => "JsonProcessorConfig"
  | ReplyMessageConfig _ _ _ => "ReplyMessageConfig"
  | VariableConfig _ _ _ => "VariableConfig"
  | ConditionConfig _ _ => "ConditionConfig"
  | ToolActionConfig _ _ => "ToolActionConfig"
  | BaseConfig => "NodeConfig"
  | PlainDict _ => "dict"
  end.

(** The attributes of a configuration that the package reads by name:
    the declared fields of its class, then the undeclared ones.  A dict
    has none of them (its own attributes are its methods, and no name
    the package reads is one). *)
Definition config_fields (c : NodeConfig) : dict :=
  match payload c with
  | PlainDict _ => []
  | p =>
      [("timeout", opt_int (timeout c)); ("retry", opt_int (retry c));
       ("error_handler", opt_str (error_handler c))]
      ++ payload_fields p ++ extra c
  end.

(** [hasattr(config, name)], [config.name], and [config.name] under a
    [hasattr] that answered. *)
Definition config_hasattr (c : NodeConfig) (name : string) : bool :=
  dict_mem name (config_fields c).

Definition config_attr (c : NodeConfig) (name : string) : res value :=
  match dict_get name (config_fields c) with
  | Some v => Ok v
  | None => Raise (AttributeError ("config has no attribute '" +:+ name +:+ "'"))
  end.

Definition config_read (c : NodeConfig) (name : string) : value :=
  dict_get_default name VNone (config_fields c).

(** [config.get(name, default)] and [config.get(name)], where [config]
    is [self.node.config or {}].  A dict answers.  An object of a
    configuration class is truthy and has no attribute [get]: the
    classes declare no such field and [BaseModel] has no such method,
    so the lookup raises AttributeError; when an undeclared field is
    named get the lookup finds its value, which cannot be called. *)
Definition config_get_default (c : NodeConfig) (name : string) (d : value)
  : res value :=
  match payload c with
  | PlainDict items => Ok (dict_get_default name d items)
  | p =>
      match dict_get "get" (extra c) with
      | Some v =>
          Raise (TypeError ("'" +:+ type_name v +:+ "' object is not callable"))
      | None =>
          Raise (AttributeError
                   ("'" +:+ class_name p +:+ "' object has no attribute 'get'"))
      end
  end.

Definition config_get (c : NodeConfig) (name : string) : res value :=
  config_get_default c name VNone.

(** [bool(config)]: an object of a configuration class is truthy, a dict
    unless it is empty. *)
Definition config_truthy (c : NodeConfig) : bool :=
  match payload c with
  | PlainDict [] => false
  | _ => true
  end.

(** [getattr(node.config, 'error_handler', 'stop')]: the field
    [NodeConfig] declares, which every configuration object has and
    which is None unless set; a dict has no such attribute. *)
Definition config_error_handler (c : NodeConfig) : option string :=
  match payload c with
  | PlainDict _ => Some "stop"%string
  | _ => error_handler c
  end.

Record WorkflowNode : Type := {
  node_id : string;
  type : NodeType;
  name : string;
  description : option string;
  position : value;
  config : NodeConfig;
  status : option NodeStatus;
  error : option string
}.

Record WorkflowVariable : Type := {
  var_name : string;
  var_value : value;
  var_type : value;
  var_scope : value
}.

(** The execution context.  [ctx_extra] holds attributes set on the object
    beyond its declared fields; [messages_sent] is read from there by the
    executor. *)
Record WorkflowContext : Type := {
  workflow_id : string;
  execution_id : string;
  trigger : WorkflowTriggerType;
  trigger_data : dict;
  variables : list (string * WorkflowVariable);
  node_outputs : dict;
  current_node : option string;
  executed_nodes : list string;
  started_at : string;
  errors : list value;
  ctx_extra : dict
}.

Record Workflow : Type := {
  wf_id : string;
  wf_name : string;
  wf_description : option string;
  nodes : list WorkflowNode;
  edges : list WorkflowEdge;
  wf_status : WorkflowStatus;
  trigger_types : list WorkflowTriggerType;
  wf_variables : option (list (string * dict));
  version : Z;
  created_at : string;
  updated_at : string;
  created_by : option string;
  bot_id : option string;
  tags : list string;
  category : option string;
  wf_extra : dict
}.

Record WorkflowExecutionResult : Type := {
  r_execution_id : string;
  r_workflow_id : string;
  r_status : NodeStatus;
  r_started_at : string;
  r_completed_at : string;
  outputs : dict;
  final_variables : dict;
  r_executed_nodes : list string;
  skipped_nodes : list string;
  r_errors : list value;
  messages_sent : value
}.

End Entities.
Export Entities.

(** ** What the package calls outside itself *)

Inductive HttpOutcome : Type :=
| HttpResponse (status : Z) (headers : value) (body : string)
| HttpFailure (e : exn).

Record World : Type := {
  (** [datetime.now()], as ISO text *)
  now : string;
  (** [session.request(method, url, headers, data, timeout)] *)
  http : value -> value -> value -> value -> value -> HttpOutcome;
  (** [float(a) > float(b)] and [float(a) < float(b)] *)
  float_gt : value -> value -> res bool;
  float_lt : value -> value -> res bool;
  (** [json.dumps], [json.loads] *)
  json_dumps : value -> res string;
  json_loads : string -> res value;
  (** whether the validation of a field declared [str] takes an enum
      member and stores its value, as releases of pydantic that coerce
      do, or refuses it *)
  str_takes_member : bool
}.

(** ** nodes/builtin: the node handlers

    A handler's [execute(context)] returns [(status, output)] and may
    mutate the context it is given, so here it returns the context too.
    A [Raise] leaves the context as it was: no handler writes to the
    context before a statement that can raise out of it. *)

Definition HandlerReturn : Type := (NodeStatus * value * WorkflowContext)%type.
Definition Handler : Type :=
  World -> WorkflowNode -> WorkflowContext -> res HandlerReturn.

(** The token [f"{{{{{var_name}}}}}"]. *)
Definition token (var_name : string) : string := "{{" +:+ var_name +:+ "}}".

(** [for var_name, var in context.variables.items():
       content = content.replace(token, str(var.value))] *)
Definition substitute_variables (vars : list (string * WorkflowVariable))
  (content : string) : string :=
  fold_left (fun acc kv => replace (token (fst kv)) (py_str (var_value (snd kv))) acc)
            vars content.

Definition no_attribute (v : value) (attr : string) : exn :=
  AttributeError ("'" +:+ type_name v +:+ "' object has no attribute '" +:+ attr +:+ "'").

(** The same loop over a value that need not be a string: [.replace] is
    looked up only if the loop runs. *)
Definition substitute_value (vars : list (string * WorkflowVariable))
  (v : value) : res value :=
  match vars, v with
  | [], _ => Ok v
  | _, VStr s => Ok (VStr (substitute_variables vars s))
  | _, _ => Raise (no_attribute v "replace")
  end.

Module EventStartNode.
Definition execute : Handler := fun w node ctx =>
  Ok (SUCCESS, VDict (trigger_data ctx), ctx).
End EventStartNode.

Module ReplyMessageNode.
Definition execute : Handler := fun w node ctx =>
  content ← config_attr (config node) "content";
  content ← substitute_value (variables ctx) content;
  Ok (SUCCESS, VDict [("message_sent", VBool true); ("content", content)], ctx).
End ReplyMessageNode.

Module ConditionNode.

(** An element of [config.conditions].  The field [ConditionConfig]
    declares holds [EdgeCondition] objects; a list kept under that name
    among the undeclared fields of another class holds plain values. *)
Inductive clause : Type :=
| Object (c : EdgeCondition)
| Plain (item : value).

(** [condition[key]].  An [EdgeCondition] is a model object and has no
    [__getitem__]. *)
Definition clause_of (condition : clause) (key : string) : res value :=
  match condition with
  | Object _ => Raise (TypeError "'EdgeCondition' object is not subscriptable")
  | Plain (VDict d) =>
      match dict_get key d with
      | Some v => Ok v
      | None => Raise (KeyError ("'" +:+ key +:+ "'"))
      end
  | Plain item =>
      Raise (TypeError ("'" +:+ type_name item +:+ "' object is not subscriptable"))
  end.

(** The body of the loop, in the order Python evaluates it:
    [prev_output.get] is looked up before [condition['field']]. *)
Definition evaluate_clause (w : World) (prev_output : value)
  (condition : clause) : res bool :=
  match prev_output with
  | VDict d =>
      field ← clause_of condition "field";
      let field_value := match field with
                         | VStr f => dict_get_default f VNone d
                         | _ => VNone
                         end in
      operator ← clause_of condition "operator";
      compare_value ← clause_of condition "value";
      if py_eq operator (VStr "equals") then
        Ok (String.eqb (py_str field_value) (py_str compare_value))
      else if py_eq operator (VStr "not_equals") then
        Ok (negb (String.eqb (py_str field_value) (py_str compare_value)))
      else if py_eq operator (VStr "contains") then
        Ok (occurs (py_str compare_value) (py_str field_value))
      else if py_eq operator (VStr "greater_than") then
        float_gt w field_value compare_value
      else if py_eq operator (VStr "less_than") then
        float_lt w field_value compare_value
      else Ok false
  | _ => Raise (no_attribute prev_output "get")
  end.

Fixpoint evaluate_clauses (w : World) (prev_output : value)
  (conditions : list clause) : res (list bool) :=
  match conditions with
  | [] => Ok []
  | condition :: rest =>
      r ← evaluate_clause w prev_output condition;
      rs ← evaluate_clauses w prev_output rest;
      Ok (r :: rs)
  end.

Definition execute : Handler := fun w node ctx =>
  conditions ← config_attr (config node) "conditions";
  let logic :=
    if config_hasattr (config node) "logic"
    then config_read (config node) "logic" else VStr "and" in
  let prev_output :=
    dict_get_default (node_id node) (VDict []) (node_outputs ctx) in
  results ←
    match payload (config node), conditions with
    | ConditionConfig cs _, _ => evaluate_clauses w prev_output (map Object cs)
    | _, VList items => evaluate_clauses w prev_output (map Plain items)
    | _, (VStr "" | VDict []) => Ok []
    | _, _ => Raise (TypeError "conditions cannot be iterated as clauses")
    end;
  let final_result :=
    if py_eq logic (VStr "and")
    then match results with [] => false | _ => forallb id results end
    else match results with [] => false | _ => existsb id results end in
  Ok (SUCCESS, VDict [("result", VBool final_result)], ctx).

End ConditionNode.

Module HttpRequestNode.

(** The substitution loop over url and body. *)
Fixpoint substitute_url_body (vars : list (string * WorkflowVariable))
  (url body : value) : res (value * value) :=
  match vars with
  | [] => Ok (url, body)
  | (var_name, var) :: rest =>
      url' ← match url with
             | VStr u => Ok (VStr (replace (token var_name) (py_str (var_value var)) u))
             | _ => Raise (no_attribute url "replace")
             end;
      body' ← (if truthy body then
                 match body with
                 | VStr b => Ok (VStr (replace (token var_name) (py_str (var_value var)) b))
                 | _ => Raise (no_attribute body "replace")
                 end
               else Ok body);
      substitute_url_body rest url' body'
  end.

Definition execute : Handler := fun w node ctx =>
  let cfg := config node in
  method ← config_attr cfg "method";
  url ← config_attr cfg "url";
  let headers := if config_hasattr cfg "headers"
                 then config_read cfg "headers" else VDict [] in
  let body := if config_hasattr cfg "body"
              then config_read cfg "body" else VNone in
  let timeout := if config_hasattr cfg "timeout"
                 then config_read cfg "timeout" else VInt 30 in
  '(url, body) ← substitute_url_body (variables ctx) url body;
  match http w method url headers body timeout with
  | HttpResponse status hs text =>
      Ok (SUCCESS,
          VDict [("status", VInt status); ("headers", hs); ("body", VStr text)],
          ctx)
  | HttpFailure e => Ok (FAILED, VDict [("error", VStr (exn_str e))], ctx)
  end.

End HttpRequestNode.

Module ChatCommandBranchNode.
Definition execute : Handler := fun w node ctx =>
  command_prefix ← config_get_default (config node) "command_prefix" (VStr "/");
  let message_content := dict_get_default "content" (VStr "") (trigger_data ctx) in
  match message_content with
  | VStr content =>
      match command_prefix with
      | VStr prefix =>
          if startswith content prefix then
            command ← first_word content;
            Ok (SUCCESS,
                VDict [("type", VStr "command"); ("command", VStr command);
                       ("branch", VStr "command")], ctx)
          else
            Ok (SUCCESS,
                VDict [("type", VStr "chat"); ("content", message_content);
                       ("branch", VStr "chat")], ctx)
      | _ => Raise (TypeError "startswith first arg must be str or a tuple of str")
      end
  | _ => Raise (no_attribute message_content "startswith")
  end.
End ChatCommandBranchNode.

Module ScheduleStartNode.
Definition execute : Handler := fun w node ctx =>
  cron_expression ←
    config_get_default (config node) "cron_expression" (VStr "0 * * * *");
  timezone ← config_get_default (config node) "timezone" (VStr "UTC");
  Ok (SUCCESS,
      VDict [("triggered_at", VStr (now w));
             ("cron_expression", cron_expression);
             ("timezone", timezone)],
      ctx).
End ScheduleStartNode.

Module EndNode.
Definition execute : Handler := fun w node ctx =>
  Ok (SUCCESS,
      VDict [("completed", VBool true); ("completed_at", VStr (now w))], ctx).
End EndNode.

Module ToolActionNode.
Definition execute : Handler := fun w node ctx =>
  tool_id ← config_get (config node) "tool_id";
  if negb (truthy tool_id) then
    Ok (FAILED, VDict [("error", VStr "Tool ID is required")], ctx)
  else
    parameters ← config_get_default (config node) "parameters" (VDict []);
    Ok (SUCCESS,
        VDict [("tool_id", tool_id); ("parameters", parameters);
               ("result", VStr "Tool execution placeholder")], ctx).
End ToolActionNode.

(** [context.executed_nodes[-1]] when the list is not empty. *)
Definition last_executed (ctx : WorkflowContext) : option string :=
  List.last (map Some (executed_nodes ctx)) None.

Definition set_variables (vars : list (string * WorkflowVariable))
  (ctx : WorkflowContext) : WorkflowContext :=
  {| workflow_id := workflow_id ctx; execution_id := execution_id ctx;
     trigger := trigger ctx; trigger_data := trigger_data ctx;
     variables := vars; node_outputs := node_outputs ctx;
     current_node := current_node ctx; executed_nodes := executed_nodes ctx;
     started_at := started_at ctx; errors := errors ctx;
     ctx_extra := ctx_extra ctx |}.

Definition set_node_outputs (outs : dict) (ctx : WorkflowContext)
  : WorkflowContext :=
  {| workflow_id := workflow_id ctx; execution_id := execution_id ctx;
     trigger := trigger ctx; trigger_data := trigger_data ctx;
     variables := variables ctx; node_outputs := outs;
     current_node := current_node ctx; executed_nodes := executed_nodes ctx;
     started_at := started_at ctx; errors := errors ctx;
     ctx_extra := ctx_extra ctx |}.

Module SetVariableNode.
Definition execute : Handler := fun w node ctx =>
  variable_name ← config_get (config node) "variable_name";
  if negb (truthy variable_name) then
    Ok (FAILED, VDict [("error", VStr "Variable name is required")], ctx)
  else
    v ← config_get (config node) "value";
    let v := match v, last_executed ctx with
             | VNone, Some last_node_id =>
                 dict_get_default last_node_id VNone (node_outputs ctx)
             | _, _ => v
             end in
    match variable_name with
    | VStr n =>
        let var := {| var_name := n; var_value := v;
                      var_type := VStr (match v with
                                        | VNone => "None"
                                        | _ => type_name v
                                        end);
                      var_scope := VStr "workflow" |} in
        Ok (SUCCESS, VDict [("variable", variable_name); ("value", v)],
            set_variables (dict_set n var (variables ctx)) ctx)
    | _ => Raise (ValueError "validation error for WorkflowVariable: name")
    end.
End SetVariableNode.

Module GetVariableNode.
Definition execute : Handler := fun w node ctx =>
  variable_name ← config_get (config node) "variable_name";
  if negb (truthy variable_name) then
    Ok (FAILED, VDict [("error", VStr "Variable name is required")], ctx)
  else
    var ← match variable_name with
          | VStr n => Ok (dict_get n (variables ctx))
          | VList _ | VDict _ =>
              Raise (TypeError ("unhashable type: '" +:+ type_name variable_name +:+ "'"))
          | _ => Ok None
          end;
    v ← match var with
        | Some var => Ok (var_value var)
        | None => config_get (config node) "default"
        end;
    Ok (SUCCESS, VDict [("variable", variable_name); ("value", v)], ctx).
End GetVariableNode.

Module JsonProcessorNode.

(** [_get_input_data]: the output of the node executed last.  When that
    output is stored, the object returned is the one held in
    [node_outputs], so the writes of [_set_value] show there; sharing of
    that object with any other slot is not tracked. *)
Definition _get_input_data (ctx : WorkflowContext) : value :=
  match last_executed ctx with
  | Some last_node_id =>
      dict_get_default last_node_id (VDict []) (node_outputs ctx)
  | None => VDict []
  end.

Fixpoint walk (parts : list string) (v : value) : res value :=
  match parts with
  | [] => Ok v
  | part :: rest =>
      match v with
      | VDict d => walk rest (dict_get_default part VNone d)
      | VList l =>
          if isdigit part then
            match nth_error l (digits_value 0 part) with
            | Some x => walk rest x
            | None => Raise (IndexError "list index out of range")
            end
          else Ok VNone
      | _ => Ok VNone
      end
  end.

Definition path_parts (path : value) : res (list string) :=
  match path with
  | VStr p => Ok (split_on "." p)
  | _ => Raise (no_attribute path "split")
  end.

Definition _extract_value (node : WorkflowNode) (ctx : WorkflowContext)
  : res value :=
  path ← config_get_default (config node) "path" (VStr "");
  if negb (truthy path) then
    Ok (VDict [("error", VStr "Path is required for extract operation")])
  else
    parts ← path_parts path;
    v ← walk parts (_get_input_data ctx);
    Ok (VDict [("value", v); ("path", path)]).

Definition not_assignable (cur : value) : exn :=
  match cur with
  | VList _ => TypeError "list indices must be integers or slices, not str"
  | _ => TypeError ("'" +:+ type_name cur +:+ "' object does not support item assignment")
  end.

(** The loop of [_set_value] from [current] on: the container after the
    writes, and the exception that stopped them if any. *)
Fixpoint set_in (parts : list string) (last : string) (v : value)
  (current : value) : value * option exn :=
  match parts with
  | [] =>
      match current with
      | VDict d => (VDict (dict_set last v d), None)
      | _ => (current, Some (not_assignable current))
      end
  | part :: rest =>
      match current with
      | VDict d =>
          let d1 := if dict_mem part d then d else dict_set part (VDict []) d in
          let '(child, e) := set_in rest last v (dict_get_default part VNone d1) in
          (VDict (dict_set part child d1), e)
      | VList l =>
          (current, Some (TypeError "list indices must be integers or slices, not str"))
      | VStr s =>
          (current,
           Some (if occurs part s
                 then TypeError "string indices must be integers"
                 else not_assignable current))
      | _ =>
          (current,
           Some (TypeError ("argument of type '" +:+ type_name current +:+ "' is not iterable")))
      end
  end.

(** The statements of [_set_value] after the two reads of the
    configuration. *)
Definition set_path (path v : value) (ctx : WorkflowContext)
  : res value * WorkflowContext :=
  if negb (truthy path) then
    (Ok (VDict [("error", VStr "Path is required for set operation")]), ctx)
  else
    let input_data := _get_input_data ctx in
    let stored :=
      match last_executed ctx, input_data with
      | Some last_node_id, VDict _ =>
          if dict_mem last_node_id (node_outputs ctx)
          then Some last_node_id else None
      | _, _ => None
      end in
    let input_data := match input_data with VDict _ => input_data | _ => VDict [] end in
    match path_parts path with
    | Raise e => (Raise e, ctx)
    | Ok parts =>
        let '(input_data', e) :=
          set_in (removelast parts) (List.last parts "") v input_data in
        let ctx' :=
          match stored with
          | Some last_node_id =>
              set_node_outputs (dict_set last_node_id input_data' (node_outputs ctx)) ctx
          | None => ctx
          end in
        match e with
        | Some e => (Raise e, ctx')
        | None => (Ok (VDict [("result", input_data')]), ctx')
        end
    end.

Definition _set_value (node : WorkflowNode) (ctx : WorkflowContext)
  : res value * WorkflowContext :=
  match config_get_default (config node) "path" (VStr "") with
  | Raise e => (Raise e, ctx)
  | Ok path =>
      match config_get (config node) "value" with
      | Raise e => (Raise e, ctx)
      | Ok v => set_path path v ctx
      end
  end.

Definition _serialize (w : World) (ctx : WorkflowContext) : res value :=
  s ← json_dumps w (_get_input_data ctx);
  Ok (VDict [("json_string", VStr s)]).

Definition _deserialize (w : World) (ctx : WorkflowContext) : res value :=
  match _get_input_data ctx with
  | VStr s => v ← json_loads w s; Ok (VDict [("data", v)])
  | input_data => Ok (VDict [("data", input_data)])
  end.

Definition execute : Handler := fun w node ctx =>
  operation ← config_get_default (config node) "operation" (VStr "extract");
  match operation with
  | VStr op =>
      let operation := lower op in
      let '(result, ctx') :=
        if String.eqb operation "extract" then (Some (_extract_value node ctx), ctx)
        else if String.eqb operation "set" then
          let '(r, ctx') := _set_value node ctx in (Some r, ctx')
        else if String.eqb operation "serialize" then (Some (_serialize w ctx), ctx)
        else if String.eqb operation "deserialize" then (Some (_deserialize w ctx), ctx)
        else (None, ctx) in
      match result with
      | None =>
          Ok (FAILED, VDict [("error", VStr ("Unknown operation: " +:+ operation))], ctx')
      | Some (Ok result) => Ok (SUCCESS, result, ctx')
      | Some (Raise e) => Ok (FAILED, VDict [("error", VStr (exn_str e))], ctx')
      end
  | other => Raise (no_attribute other "lower")
  end.

End JsonProcessorNode.

(** ** nodes/__init__.py *)

Definition NODE_REGISTRY : list (string * Handler) :=
  [("event_start", EventStartNode.execute);
   ("reply_message", ReplyMessageNode.execute);
   ("condition", ConditionNode.execute);
   ("http_request", HttpRequestNode.execute);
   ("schedule_start", ScheduleStartNode.execute);
   ("json_processor", JsonProcessorNode.execute);
   ("set_variable", SetVariableNode.execute);
   ("get_variable", GetVariableNode.execute);
   ("chat_command_branch", ChatCommandBranchNode.execute);
   ("tool_action", ToolActionNode.execute);
   ("end", EndNode.execute)].

Definition type_mapping : list (string * string) :=
  [("EVENT_START", "event_start");
   ("SCHEDULE_START", "schedule_start");
   ("HTTP_REQUEST", "http_request");
   ("JSON_PROCESSOR", "json_processor");
   ("REPLY_MESSAGE", "reply_message");
   ("SET_VARIABLE", "set_variable");
   ("GET_VARIABLE", "get_variable");
   ("CONDITION", "condition");
   ("CHAT_COMMAND_BRANCH", "chat_command_branch");
   ("TOOL_ACTION", "tool_action");
   ("END", "end")].

(** [create_node]: the handler class for the node's type, wrapped.  A type
    without an entry in the registry raises ValueError. *)
Definition create_node (node : WorkflowNode) : res Handler :=
  let node_type := node_type_value (type node) in
  let node_type :=
    match dict_get node_type type_mapping with
    | Some mapped => mapped
    | None => lower node_type
    end in
  match dict_get node_type NODE_REGISTRY with
  | Some node_class => Ok node_class
  | None => Raise (ValueError ("Unknown node type: " +:+ node_type))
  end.

Module NodeWrapper.
(** [run]: call the handler, keep its status and output on the wrapper,
    store the output under the node's id and return the output.  The
    status goes nowhere else: the wrapper is dropped by the caller. *)
Definition run (node_instance : Handler) (w : World) (node : WorkflowNode)
  (ctx : WorkflowContext) : res (value * WorkflowContext) :=
  '(status, output, ctx') ← node_instance w node ctx;
  Ok (output,
      set_node_outputs (dict_set (node_id node) output (node_outputs ctx')) ctx').
End NodeWrapper.

(** ** executor.py *)

Module WorkflowExecutor.

Record t : Type := {
  workflow : Workflow;
  self_execution_id : string;
  node_map : gmap string WorkflowNode;
  edge_map : gmap string (list WorkflowEdge);
  reverse_edge_map : gmap string (list WorkflowEdge)
}.

(** One turn of the loop in [__init__]: create the list under the key if
    there is none, then append the edge to it. *)
Definition add_edge (key : WorkflowEdge -> string)
  (m : gmap string (list WorkflowEdge)) (e : WorkflowEdge)
  : gmap string (list WorkflowEdge) :=
  <[ key e := default [] (m !! key e) ++ [e] ]> m.

(** [WorkflowExecutor(workflow)]; the fresh uuid is an argument. *)
Definition __init__ (wf : Workflow) (uuid : string) : t :=
  {| workflow := wf;
     self_execution_id := uuid;
     node_map := foldl (fun m n => <[ node_id n := n ]> m) ∅ (nodes wf);
     edge_map := foldl (add_edge source) ∅ (edges wf);
     reverse_edge_map := foldl (add_edge target) ∅ (edges wf) |}.

(** The state of [_execute_from_nodes]: its three locals and the context. *)
Record LoopState : Type := {
  queue : list WorkflowNode;
  executed : gset string;
  skipped : gset string;
  context : WorkflowContext
}.

Definition set_current_node (n : string) (ctx : WorkflowContext)
  : WorkflowContext :=
  {| workflow_id := workflow_id ctx; execution_id := execution_id ctx;
     trigger := trigger ctx; trigger_data := trigger_data ctx;
     variables := variables ctx; node_outputs := node_outputs ctx;
     current_node := Some n; executed_nodes := executed_nodes ctx;
     started_at := started_at ctx; errors := errors ctx;
     ctx_extra := ctx_extra ctx |}.

Definition append_executed (n : string) (ctx : WorkflowContext)
  : WorkflowContext :=
  {| workflow_id := workflow_id ctx; execution_id := execution_id ctx;
     trigger := trigger ctx; trigger_data := trigger_data ctx;
     variables := variables ctx; node_outputs := node_outputs ctx;
     current_node := current_node ctx;
     executed_nodes := executed_nodes ctx ++ [n];
     started_at := started_at ctx; errors := errors ctx;
     ctx_extra := ctx_extra ctx |}.

Definition append_error (entry : value) (ctx : WorkflowContext)
  : WorkflowContext :=
  {| workflow_id := workflow_id ctx; execution_id := execution_id ctx;
     trigger := trigger ctx; trigger_data := trigger_data ctx;
     variables := variables ctx; node_outputs := node_outputs ctx;
     current_node := current_node ctx; executed_nodes := executed_nodes ctx;
     started_at := started_at ctx; errors := errors ctx ++ [entry];
     ctx_extra := ctx_extra ctx |}.

(** [_find_start_nodes].  An event start node matches when its
    configuration has a [trigger_type] equal to the trigger of the
    context, a member: the declared field of [EventStartConfig] holding
    that member. *)
Definition _find_start_nodes (self : t) (ctx : WorkflowContext)
  : list WorkflowNode :=
  List.filter
    (fun node =>
       match type node with
       | EVENT_START =>
           match payload (config node) with
           | EventStartConfig trigger_type _ =>
               bool_decide (trigger_type = Member (trigger ctx))
           | _ => false
           end
       | SCHEDULE_START => bool_decide (trigger ctx = SCHEDULED)
       | _ => false
       end)
    (nodes (workflow self)).

Definition _are_dependencies_satisfied (self : t) (node : WorkflowNode)
  (executed : gset string) : bool :=
  let incoming_edges := default [] (reverse_edge_map self !! node_id node) in
  match incoming_edges with
  | [] => true
  | _ => forallb (fun edge => bool_decide (source edge ∈ executed)) incoming_edges
  end.

Definition _evaluate_edge_condition (condition : EdgeCondition)
  (node_output : value) : res bool :=
  match node_output with
  | VDict d =>
      let field_value :=
        match ec_field condition with
        | Some f => dict_get_default f VNone d
        | None => VNone
        end in
      let expected_value := ec_value condition in
      match ec_operator condition with
      | Some "equals"%string => Ok (py_eq field_value expected_value)
      | Some "not_equals"%string => Ok (negb (py_eq field_value expected_value))
      | Some "contains"%string =>
          match expected_value with
          | VStr e => Ok (occurs e (py_str field_value))
          | _ => Raise (TypeError
                   ("'in <string>' requires string as left operand, not "
                    +:+ type_name expected_value))
          end
      | _ => Ok (py_eq field_value expected_value)
      end
  | _ => Raise (no_attribute node_output "get")
  end.

(** [e.label == branch or (not e.label and branch == "default")] *)
Definition follows_branch (branch : value) (e : WorkflowEdge) : bool :=
  py_eq (opt_str (label e)) branch
  || (negb (truthy_str (label e)) && py_eq branch (VStr "default")).

(** The edges to follow after a node that returned [result]. *)
Definition next_edges_of (self : t) (node : WorkflowNode) (result : value)
  : res (list WorkflowEdge) :=
  let outgoing := default [] (edge_map self !! node_id node) in
  match type node with
  | CONDITION =>
      match result with
      | VDict d =>
          let branch := dict_get_default "branch" VNone d in
          Ok (List.filter (follows_branch branch) outgoing)
      | _ => Raise (no_attribute result "get")
      end
  | _ => Ok outgoing
  end.

(** [for edge in next_edges: ...]: the queue after the appends, and the
    exception that ended the loop if one was raised. *)
Fixpoint enqueue (self : t) (next_edges : list WorkflowEdge) (result : value)
  (q : list WorkflowNode) : list WorkflowNode * option exn :=
  match next_edges with
  | [] => (q, None)
  | edge :: rest =>
      match node_map self !! target edge with
      | None => enqueue self rest result q
      | Some next_node =>
          match condition edge with
          | Some c =>
              match _evaluate_edge_condition c result with
              | Raise e => (q, Some e)
              | Ok false => enqueue self rest result q
              | Ok true => enqueue self rest result (q ++ [next_node])
              end
          | None => enqueue self rest result (q ++ [next_node])
          end
      end
  end.

(** The body of the [try]: the state it leaves, and the exception it
    raised if any. *)
Definition try_node (w : World) (self : t) (node : WorkflowNode) (st : LoopState)
  : LoopState * option exn :=
  let ctx := set_current_node (node_id node) (context st) in
  let st0 := {| queue := queue st; executed := executed st;
                skipped := skipped st; context := ctx |} in
  match create_node node with
  | Raise e => (st0, Some e)
  | Ok node_instance =>
      match NodeWrapper.run node_instance w node ctx with
      | Raise e => (st0, Some e)
      | Ok (result, ctx) =>
          let executed' := {[ node_id node ]} ∪ executed st in
          let ctx := append_executed (node_id node) ctx in
          match next_edges_of self node result with
          | Raise e =>
              ({| queue := queue st; executed := executed';
                  skipped := skipped st; context := ctx |}, Some e)
          | Ok next_edges =>
              let '(q, e) := enqueue self next_edges result (queue st) in
              ({| queue := q; executed := executed';
                  skipped := skipped st; context := ctx |}, e)
          end
      end
  end.

Inductive Step : Type :=
| Drained (st : LoopState)
| Next (st : LoopState)
| Escaped (e : exn) (st : LoopState).

(** The [except] clause: record the error, then stop, skip or go on.
    [getattr(node.config, 'error_handler', 'stop')] reads the field
    [NodeConfig] declares, which exists on every configuration object
    and is None unless set, so the fallback 'stop' of [getattr] is taken
    for a plain dict only: a node whose configuration object sets no
    policy neither stops nor skips. *)
Definition handle_error (w : World) (self : t) (node : WorkflowNode) (e : exn)
  (st : LoopState) : Step :=
  let ctx := append_error
               (VDict [("node_id", VStr (node_id node));
                       ("error", VStr (exn_str e));
                       ("timestamp", VStr (now w))]) (context st) in
  match config_error_handler (config node) with
  | Some "stop"%string =>
      Escaped e {| queue := queue st; executed := executed st;
                   skipped := skipped st; context := ctx |}
  | Some "skip"%string =>
      Next {| queue :=
                queue st ++
                omap (fun edge => node_map self !! target edge)
                     (default [] (edge_map self !! node_id node));
              executed := executed st;
              skipped := {[ node_id node ]} ∪ skipped st;
              context := ctx |}
  | _ =>
      Next {| queue := queue st; executed := executed st;
              skipped := skipped st; context := ctx |}
  end.

(** One iteration of [while queue:]. *)
Definition step (w : World) (self : t) (st : LoopState) : Step :=
  match queue st with
  | [] => Drained st
  | node :: q =>
      let st := {| queue := q; executed := executed st;
                   skipped := skipped st; context := context st |} in
      if bool_decide (node_id node ∈ executed st)
         || bool_decide (node_id node ∈ skipped st)
      then Next st
      else if negb (_are_dependencies_satisfied self node (executed st))
      then Next {| queue := q ++ [node]; executed := executed st;
                   skipped := skipped st; context := context st |}
      else
        match try_node w self node st with
        | (st', None) => Next st'
        | (st', Some e) => handle_error w self node e st'
        end
  end.

(** [_execute_from_nodes], run for at most [fuel] iterations; [None] when
    the loop is still running after that many. *)
Fixpoint iterate (w : World) (self : t) (fuel : nat) (st : LoopState)
  : option (LoopState * option exn) :=
  match fuel with
  | O => None
  | S fuel' =>
      match step w self st with
      | Drained st' => Some (st', None)
      | Escaped e st' => Some (st', Some e)
      | Next st' => iterate w self fuel' st'
      end
  end.

Definition _execute_from_nodes (w : World) (self : t) (fuel : nat)
  (start : list WorkflowNode) (ctx : WorkflowContext)
  : option (LoopState * option exn) :=
  iterate w self fuel
    {| queue := start; executed := ∅; skipped := ∅; context := ctx |}.

(** The variable pool of a fresh context. *)
Definition initial_variables (defs : option (list (string * dict)))
  : list (string * WorkflowVariable) :=
  match defs with
  | Some defs =>
      fold_left
        (fun vars kv =>
           let '(var_name, var_def) := kv in
           dict_set var_name
             {| var_name := var_name;
                var_value := dict_get_default "default" VNone var_def;
                var_type := dict_get_default "type" (VStr "Any") var_def;
                var_scope := dict_get_default "scope" (VStr "workflow") var_def |}
             vars)
        defs []
  | None => []
  end.

Definition build_result (self : t) (w : World) (st : NodeStatus)
  (ctx : WorkflowContext) : WorkflowExecutionResult :=
  {| r_execution_id := self_execution_id self;
     r_workflow_id := wf_id (workflow self);
     r_status := st;
     r_started_at := started_at ctx;
     r_completed_at := now w;
     outputs := node_outputs ctx;
     final_variables := map (fun kv => (fst kv, var_value (snd kv))) (variables ctx);
     r_executed_nodes := executed_nodes ctx;
     skipped_nodes := [];
     r_errors := errors ctx;
     messages_sent := dict_get_default "messages_sent" (VList []) (ctx_extra ctx) |}.

(** The context [execute] starts from. *)
Definition initial_context (w : World) (self : t)
  (trigger_type : WorkflowTriggerType) (trigger_data : option dict)
  : WorkflowContext :=
  {| workflow_id := wf_id (workflow self);
     execution_id := self_execution_id self;
     trigger := trigger_type;
     trigger_data := default [] trigger_data;
     variables := initial_variables (wf_variables (workflow self));
     node_outputs := [];
     current_node := None;
     executed_nodes := [];
     started_at := now w;
     errors := [];
     ctx_extra := [] |}.

(** The result built in the [except] clause of [execute]. *)
Definition failed_result (w : World) (self : t) (e : exn)
  (ctx : WorkflowContext) : WorkflowExecutionResult :=
  build_result self w FAILED
    (append_error (VDict [("error", VStr (exn_str e));
                          ("timestamp", VStr (now w))]) ctx).

(** [execute(trigger_type, trigger_data)].  [None]: the traversal did not
    end within [fuel] iterations.  [Some (Raise _)]: the exception left
    [execute].  [Some (Ok r)]: [r] was returned. *)
Definition execute (w : World) (self : t) (fuel : nat)
  (trigger_type : WorkflowTriggerType) (trigger_data : option dict)
  : option (res WorkflowExecutionResult) :=
  if negb (bool_decide (wf_status (workflow self) = ACTIVE)) then
    Some (Raise (ValueError ("Workflow is not active: "
                             +:+ status_value (wf_status (workflow self)))))
  else
    let ctx := initial_context w self trigger_type trigger_data in
    match _find_start_nodes self ctx with
    | [] =>
        Some (Ok (failed_result w self
                    (ValueError "No start nodes found in workflow") ctx))
    | start_nodes =>
        match _execute_from_nodes w self fuel start_nodes ctx with
        | None => None
        | Some (st, None) => Some (Ok (build_result self w SUCCESS (context st)))
        | Some (st, Some e) => Some (Ok (failed_result w self e (context st)))
        end
    end.

End WorkflowExecutor.

(** ** serializer.py

    A YAML document is the tree [yaml.safe_load] returns for it, a
    [value]; [yaml.dump] and [yaml.safe_load] are inverse on such trees,
    so [to_yaml]/[from_yaml] are [to_dict]/[from_dict] here.  A datetime
    is represented by its ISO-8601 text.  Validation by the entity
    constructors accepts a value of the declared type and raises for any
    other; coercions between types are not modelled, except the one the
    deserializer relies on, an enum member handed to the [str] field of
    [EventStartConfig], which the [World] decides.

    The serializer reads [.value] from the fields annotated with an
    enum class, and the deserializer builds its result with the
    constructors, which store the value strings there: the two sides
    meet on what these fields hold, so the serializer is modelled over
    the objects of [Objects], which say it for each such field. *)

Definition validation_error (field : string) : exn :=
  ValueError ("validation error: " +:+ field).

Definition as_str (field : string) (v : value) : res string :=
  match v with VStr s => Ok s | _ => Raise (validation_error field) end.

Definition as_opt_str (field : string) (v : value) : res (option string) :=
  match v with
  | VNone => Ok None
  | VStr s => Ok (Some s)
  | _ => Raise (validation_error field)
  end.

Definition as_int (field : string) (v : value) : res Z :=
  match v with VInt z => Ok z | _ => Raise (validation_error field) end.

Definition as_opt_int (field : string) (v : value) : res (option Z) :=
  match v with
  | VNone => Ok None
  | VInt z => Ok (Some z)
  | _ => Raise (validation_error field)
  end.

Fixpoint mapM {A B} (f : A -> res B) (l : list A) : res (list B) :=
  match l with
  | [] => Ok []
  | x :: rest => y ← f x; ys ← mapM f rest; Ok (y :: ys)
  end.

Definition as_list (field : string) (v : value) : res (list value) :=
  match v with VList l => Ok l | _ => Raise (validation_error field) end.

Definition as_dict (v : value) : res dict :=
  match v with VDict d => Ok d | _ => Raise (no_attribute v "get") end.

Definition as_variables (v : value) : res (option (list (string * dict))) :=
  match v with
  | VNone => Ok None
  | VDict d =>
      defs ← mapM (fun kv =>
                     match snd kv with
                     | VDict def => Ok (fst kv, def)
                     | _ => Raise (validation_error "variables")
                     end) d;
      Ok (Some defs)
  | _ => Raise (validation_error "variables")
  end.

(** [d[k]] *)
Definition subscript (k : string) (d : dict) : res value :=
  match dict_get k d with
  | Some v => Ok v
  | None => Raise (KeyError ("'" +:+ k +:+ "'"))
  end.

Module Objects.

Record WorkflowNode : Type := {
  node_id : string;
  type : held NodeType;
  name : string;
  description : option string;
  position : value;
  config : NodeConfig;
  status : option (held NodeStatus);
  error : option string
}.

Record Workflow : Type := {
  wf_id : string;
  wf_name : string;
  wf_description : option string;
  nodes : list WorkflowNode;
  edges : list WorkflowEdge;
  wf_status : held WorkflowStatus;
  trigger_types : list (held WorkflowTriggerType);
  wf_variables : option (list (string * dict));
  version : Z;
  created_at : string;
  updated_at : string;
  created_by : option string;
  bot_id : option string;
  tags : list string;
  category : option string;
  wf_extra : dict
}.

(** The objects the executor is modelled on, whose enum fields all hold
    members. *)
Definition node_of_members (n : Entities.WorkflowNode) : WorkflowNode :=
  {| node_id := Entities.node_id n;
     type := Member (Entities.type n);
     name := Entities.name n;
     description := Entities.description n;
     position := Entities.position n;
     config := Entities.config n;
     status := Member <$> Entities.status n;
     error := Entities.error n |}.

Definition of_members (wf : Entities.Workflow) : Workflow :=
  {| wf_id := Entities.wf_id wf;
     wf_name := Entities.wf_name wf;
     wf_description := Entities.wf_description wf;
     nodes := map node_of_members (Entities.nodes wf);
     edges := Entities.edges wf;
     wf_status := Member (Entities.wf_status wf);
     trigger_types := map Member (Entities.trigger_types wf);
     wf_variables := Entities.wf_variables wf;
     version := Entities.version wf;
     created_at := Entities.created_at wf;
     updated_at := Entities.updated_at wf;
     created_by := Entities.created_by wf;
     bot_id := Entities.bot_id wf;
     tags := Entities.tags wf;
     category := Entities.category wf;
     wf_extra := Entities.wf_extra wf |}.

End Objects.

Module WorkflowSerializer.
Import Objects.

Definition _condition_to_dict (condition : EdgeCondition) : value :=
  VDict [("type", VStr (ec_type condition));
         ("field", opt_str (ec_field condition));
         ("value", ec_value condition);
         ("operator", opt_str (ec_operator condition))].

(** [if cond: d[k] = v] *)
Definition set_if (cond : bool) (k : string) (v : value) (d : dict) : dict :=
  if cond then dict_set k v d else d.

(** [if hasattr(config, k) and config.k: d[k] = config.k] *)
Definition set_if_attr (config : NodeConfig) (k : string) (d : dict) : dict :=
  set_if (config_hasattr config k && truthy (config_read config k))
         k (config_read config k) d.

(** [[_condition_to_dict(c) for c in config.conditions]]: the declared
    field holds [EdgeCondition] objects; a list kept among the undeclared
    fields holds plain values, which have no attribute [type]. *)
Definition conditions_to_dicts (config : NodeConfig) : res value :=
  match payload config with
  | ConditionConfig cs _ => Ok (VList (map _condition_to_dict cs))
  | _ =>
      conds ← config_attr config "conditions";
      match conds with
      | VList [] | VStr "" | VDict [] => Ok (VList [])
      | VList (c :: _) => Raise (no_attribute c "type")
      | VStr _ | VDict _ => Raise (no_attribute (VStr "") "type")
      | _ => Raise (TypeError ("'" +:+ type_name conds +:+ "' object is not iterable"))
      end
  end.

(** [node_type == NodeType.X] holds of a field that holds the member X,
    and of no string. *)
Definition _config_to_dict (node_type : held NodeType) (config : NodeConfig)
  : res dict :=
  let d := [] in
  let d := set_if_attr config "timeout" d in
  let d := set_if_attr config "retry" d in
  let d := set_if_attr config "error_handler" d in
  match node_type with
  | Member EVENT_START =>
      match payload config with
      | EventStartConfig trigger_type filters =>
          t ← value_of_held trigger_value trigger_type;
          let d := dict_set "trigger_type" (VStr t) d in
          Ok (set_if (truthy filters) "filters" filters d)
      | _ =>
          v ← config_attr config "trigger_type";
          Raise (no_attribute v "value")
      end
  | Member SCHEDULE_START =>
      cron ← config_attr config "cron_expression";
      tz ← config_attr config "timezone";
      Ok (dict_set "timezone" tz (dict_set "cron_expression" cron d))
  | Member HTTP_REQUEST =>
      method ← config_attr config "method";
      url ← config_attr config "url";
      let d := dict_set "url" url (dict_set "method" method d) in
      headers ← config_attr config "headers";
      let d := set_if (truthy headers) "headers" headers d in
      body ← config_attr config "body";
      let d := set_if (negb (py_eq body VNone)) "body" body d in
      auth ← config_attr config "auth";
      Ok (set_if (truthy auth) "auth" auth d)
  | Member JSON_PROCESSOR =>
      operation ← config_attr config "operation";
      let d := dict_set "operation" operation d in
      path ← config_attr config "path";
      let d := set_if (truthy path) "path" path d in
      v ← config_attr config "value";
      Ok (set_if (negb (py_eq v VNone)) "value" v d)
  | Member REPLY_MESSAGE =>
      content ← config_attr config "content";
      let d := dict_set "content" content d in
      reply_to ← config_attr config "reply_to";
      let d := set_if (truthy reply_to) "reply_to" reply_to d in
      components ← config_attr config "components";
      Ok (set_if (truthy components) "components" components d)
  | Member SET_VARIABLE | Member GET_VARIABLE =>
      variable_name ← config_attr config "variable_name";
      let d := dict_set "variable_name" variable_name d in
      let d := set_if (config_hasattr config "value"
                       && negb (py_eq (config_read config "value") VNone))
                      "value" (config_read config "value") d in
      Ok (set_if (config_hasattr config "default"
                  && negb (py_eq (config_read config "default") VNone))
                 "default" (config_read config "default") d)
  | Member CONDITION =>
      conds ← conditions_to_dicts config;
      let d := dict_set "conditions" conds d in
      default_branch ← config_attr config "default_branch";
      Ok (set_if (truthy default_branch) "default_branch" default_branch d)
  | Member TOOL_ACTION =>
      tool_id ← config_attr config "tool_id";
      let d := dict_set "tool_id" tool_id d in
      parameters ← config_attr config "parameters";
      Ok (set_if (truthy parameters) "parameters" parameters d)
  | _ => Ok d
  end.

Definition _node_to_dict (node : WorkflowNode) : res value :=
  ty ← value_of_held node_type_value (type node);
  let d := [("id", VStr (node_id node));
            ("type", VStr ty);
            ("name", VStr (name node));
            ("description", opt_str (description node))] in
  let d := set_if (truthy (position node)) "position" (position node) d in
  if config_truthy (config node) then
    c ← _config_to_dict (type node) (config node);
    Ok (VDict (dict_set "config" (VDict c) d))
  else Ok (VDict d).

Definition _edge_to_dict (edge : WorkflowEdge) : value :=
  let d := [("id", VStr (edge_id edge));
            ("source", VStr (source edge));
            ("target", VStr (target edge))] in
  let d := set_if (truthy_str (label edge)) "label" (opt_str (label edge)) d in
  VDict (match condition edge with
         | Some c => dict_set "condition" (_condition_to_dict c) d
         | None => d
         end).

Definition variables_value (vars : option (list (string * dict))) : value :=
  match vars with
  | None => VNone
  | Some defs => VDict (map (fun kv => (fst kv, VDict (snd kv))) defs)
  end.

(** The entries of the dict are evaluated in the order they are
    written: the status, then the trigger types, then the nodes. *)
Definition to_dict (workflow : Workflow) : res value :=
  status ← (if held_truthy (wf_status workflow)
            then value_of_held status_value (wf_status workflow)
            else Ok "draft"%string);
  triggers ← mapM (value_of_held trigger_value) (trigger_types workflow);
  ns ← mapM _node_to_dict (nodes workflow);
  Ok (VDict
        [("workflow",
          VDict
            [("id", VStr (wf_id workflow));
             ("name", VStr (wf_name workflow));
             ("description", opt_str (wf_description workflow));
             ("version", VInt (version workflow));
             ("status", VStr status);
             ("trigger_types", VList (map VStr triggers));
             ("bot_id", opt_str (bot_id workflow));
             ("tags", VList (map VStr (tags workflow)));
             ("category", opt_str (category workflow));
             ("variables", variables_value (wf_variables workflow));
             ("nodes", VList ns);
             ("edges", VList (map _edge_to_dict (edges workflow)));
             ("metadata",
              VDict [("created_at", VStr (created_at workflow));
                     ("updated_at", VStr (updated_at workflow));
                     ("created_by", opt_str (created_by workflow))])])]).

Definition to_yaml (workflow : Workflow) : res value := to_dict workflow.

End WorkflowSerializer.

Module WorkflowDeserializer.
Import Objects.

Definition _dict_to_condition (cond_data : value) : res EdgeCondition :=
  match cond_data with
  | VDict d =>
      ty ← subscript "type" d;
      ty ← as_str "type" ty;
      field ← as_opt_str "field" (dict_get_default "field" VNone d);
      operator ← as_opt_str "operator" (dict_get_default "operator" VNone d);
      Ok {| ec_type := ty; ec_field := field;
            ec_value := dict_get_default "value" VNone d;
            ec_operator := operator |}
  | _ => Raise (TypeError ("'" +:+ type_name cond_data +:+ "' object is not subscriptable"))
  end.

Definition _dict_to_edge (edge_data : value) : res WorkflowEdge :=
  d ← as_dict edge_data;
  cond ← match dict_get "condition" d with
         | Some c => c ← _dict_to_condition c; Ok (Some c)
         | None => Ok None
         end;
  id ← subscript "id" d;
  src ← subscript "source" d;
  tgt ← subscript "target" d;
  id ← as_str "id" id;
  src ← as_str "source" src;
  tgt ← as_str "target" tgt;
  lbl ← as_opt_str "label" (dict_get_default "label" VNone d);
  Ok {| edge_id := id; source := src; target := tgt;
        condition := cond; label := lbl |}.

(** [EventStartConfig(trigger_type=member, ...)]: the field is declared
    [str]; it ends up holding the member's value or the call raises. *)
Definition event_start_config (w : World) (t : WorkflowTriggerType)
  (filters : value) : res ConfigPayload :=
  if str_takes_member w
  then Ok (EventStartConfig (Stored (trigger_value t)) filters)
  else Raise (validation_error "trigger_type").

(** In each branch the arguments of the constructor call are evaluated
    first, and the subscripts among them raise KeyError; the validation
    of the fields, the three common ones first, comes with the call. *)
Definition _dict_to_config (w : World) (node_type : NodeType)
  (config_data : value) : res NodeConfig :=
  d ← as_dict config_data;
  let get k := dict_get_default k VNone d in
  let construct (p : res ConfigPayload) : res NodeConfig :=
    timeout ← as_opt_int "timeout" (get "timeout");
    retry ← as_opt_int "retry" (get "retry");
    error_handler ← as_opt_str "error_handler" (get "error_handler");
    p ← p;
    Ok {| timeout := timeout; retry := retry; error_handler := error_handler;
          payload := p; extra := [] |} in
  match node_type with
  | EVENT_START =>
      t ← subscript "trigger_type" d;
      t ← trigger_of_value t;
      construct (event_start_config w t (get "filters"))
  | SCHEDULE_START =>
      cron ← subscript "cron_expression" d;
      construct (cron ← as_str "cron_expression" cron;
                 tz ← as_opt_str "timezone" (dict_get_default "timezone" (VStr "UTC") d);
                 Ok (ScheduleStartConfig cron tz))
  | HTTP_REQUEST =>
      method ← subscript "method" d;
      url ← subscript "url" d;
      construct (method ← as_str "method" method;
                 url ← as_str "url" url;
                 Ok (HttpRequestConfig method url (get "headers") (get "body")
                                       (get "auth")))
  | JSON_PROCESSOR =>
      operation ← subscript "operation" d;
      construct (operation ← as_str "operation" operation;
                 path ← as_opt_str "path" (get "path");
                 Ok (JsonProcessorConfig operation path (get "value")))
  | REPLY_MESSAGE =>
      content ← subscript "content" d;
      construct (content ← as_str "content" content;
                 reply_to ← as_opt_str "reply_to" (get "reply_to");
                 Ok (ReplyMessageConfig content reply_to (get "components")))
  | SET_VARIABLE =>
      n ← subscript "variable_name" d;
      construct (n ← as_str "variable_name" n;
                 Ok (VariableConfig n (get "value") VNone))
  | GET_VARIABLE =>
      n ← subscript "variable_name" d;
      construct (n ← as_str "variable_name" n;
                 Ok (VariableConfig n VNone (get "default")))
  | CONDITION =>
      items ← as_list "conditions" (dict_get_default "conditions" (VList []) d);
      conditions ← mapM _dict_to_condition items;
      construct (default_branch ← as_opt_str "default_branch" (get "default_branch");
                 Ok (ConditionConfig conditions default_branch))
  | TOOL_ACTION =>
      tool_id ← subscript "tool_id" d;
      construct (tool_id ← as_str "tool_id" tool_id;
                 Ok (ToolActionConfig tool_id (get "parameters")))
  | _ => construct (Ok BaseConfig)
  end.

(** [WorkflowNode(..., type=node_type, ...)] stores the value of the
    member. *)
Definition _dict_to_node (w : World) (node_data : value) : res WorkflowNode :=
  d ← as_dict node_data;
  ty ← subscript "type" d;
  node_type ← node_type_of_value ty;
  config ← _dict_to_config w node_type (dict_get_default "config" (VDict []) d);
  id ← subscript "id" d;
  nm ← subscript "name" d;
  id ← as_str "id" id;
  nm ← as_str "name" nm;
  descr ← as_opt_str "description" (dict_get_default "description" VNone d);
  Ok {| node_id := id; type := Stored (node_type_value node_type);
        name := nm; description := descr;
        position := dict_get_default "position" VNone d;
        config := config; status := None; error := None |}.

(** [datetime.fromisoformat(text)] when the field is truthy, else
    [datetime.now()]. *)
Definition timestamp (w : World) (field : string) (v : value) : res string :=
  if truthy v then as_str field v else Ok (now w).

(** [Workflow(..., status=status, trigger_types=trigger_types, ...)]
    stores the values of the members it is given. *)
Definition from_dict (w : World) (workflow_dict : value) : res Workflow :=
  top ← as_dict workflow_dict;
  workflow_data ← as_dict (dict_get_default "workflow" workflow_dict top);
  let get k := dict_get_default k VNone workflow_data in
  metadata ← as_dict (dict_get_default "metadata" (VDict []) workflow_data);
  created_at ← timestamp w "created_at" (dict_get_default "created_at" VNone metadata);
  updated_at ← timestamp w "updated_at" (dict_get_default "updated_at" VNone metadata);
  node_items ← as_list "nodes" (dict_get_default "nodes" (VList []) workflow_data);
  nodes ← mapM (_dict_to_node w) node_items;
  edge_items ← as_list "edges" (dict_get_default "edges" (VList []) workflow_data);
  edges ← mapM _dict_to_edge edge_items;
  trigger_items ← as_list "trigger_types"
                     (dict_get_default "trigger_types" (VList []) workflow_data);
  let trigger_types :=
    omap (fun t => match trigger_of_value t with
                   | Ok t => Some t
                   | Raise _ => None
                   end) trigger_items in
  let status :=
    match status_of_value (dict_get_default "status" (VStr "draft") workflow_data) with
    | Ok s => s
    | Raise _ => DRAFT
    end in
  id ← as_str "id" (get "id");
  nm ← as_str "name" (get "name");
  descr ← as_opt_str "description" (get "description");
  vars ← as_variables (get "variables");
  ver ← as_int "version" (dict_get_default "version" (VInt 1) workflow_data);
  created_by ← as_opt_str "created_by" (dict_get_default "created_by" VNone metadata);
  bot ← as_opt_str "bot_id" (get "bot_id");
  tag_items ← as_list "tags" (dict_get_default "tags" (VList []) workflow_data);
  tags ← mapM (as_str "tags") tag_items;
  cat ← as_opt_str "category" (get "category");
  Ok {| wf_id := id; wf_name := nm; wf_description := descr;
        nodes := nodes; edges := edges;
        wf_status := Stored (status_value status);
        trigger_types := map (fun t => Stored (trigger_value t)) trigger_types;
        wf_variables := vars;
        version := ver; created_at := created_at; updated_at := updated_at;
        created_by := created_by; bot_id := bot; tags := tags;
        category := cat; wf_extra := [] |}.

Definition from_yaml (w : World) (yaml_content : value) : res Workflow :=
  from_dict w yaml_content.

End WorkflowDeserializer.

(** ** api/http/service/workflow.py

    The table [workflows] is a finite map from [uuid] to a row; a row and
    the dict [workflow_data] are finite maps from column names to values.
    The UPDATE statement writes the columns named in the dict it is
    given, and [updated_at] when the dict does not name it. *)

Module WorkflowService.

(** [if 'metadata' in d: d['workflow_metadata'] = d.pop('metadata')] *)
Definition rename_metadata (d : gmap string value) : gmap string value :=
  match d !! "metadata" with
  | Some m => <[ "workflow_metadata" := m ]> (delete "metadata" d)
  | None => d
  end.

(** [trigger_types] is popped, and its first element, when there is
    one, becomes [trigger_type]. *)
Definition first_trigger (d : gmap string value) : gmap string value :=
  match d !! "trigger_types" with
  | Some tts =>
      let d := delete "trigger_types" d in
      match tts with
      | VList (t :: _) => <[ "trigger_type" := t ]> d
      | _ => d
      end
  | None => d
  end.

(** [update_workflow(workflow_uuid, workflow_data)]: the table after the
    UPDATE statement, or the exception raised on the way. *)
Definition update_workflow (w : World) (workflow_uuid : string)
  (workflow_data : gmap string value) (db : gmap string (gmap string value))
  : res (gmap string (gmap string value)) :=
  let data := delete "uuid" workflow_data in
  let data := delete "id" data in
  let data := delete "created_at" data in
  let data := rename_metadata data in
  let data := first_trigger data in
  (* SELECT version WHERE uuid = workflow_uuid *)
  let current := row ← db !! workflow_uuid; Some (default VNone (row !! "version")) in
  data ← match current with
         | Some (VInt v) => Ok (<[ "version" := VInt (v + 1) ]> data)
         | Some (VBool b) => Ok (<[ "version" := VInt ((if b then 1 else 0) + 1) ]> data)
         | Some other =>
             Raise (TypeError ("unsupported operand type(s) for +: '"
                               +:+ type_name other +:+ "' and 'int'"))
         | None => Ok data
         end;
  (* UPDATE workflows SET ... WHERE uuid = workflow_uuid *)
  Ok (alter (fun row => data ∪ {[ "updated_at" := VStr (now w) ]} ∪ row)
            workflow_uuid db).

(** The version column of a row. *)
Definition stored_version (db : gmap string (gmap string value))
  (workflow_uuid : string) : option value :=
  row ← db !! workflow_uuid; row !! "version".

End WorkflowService.

(** ** executor.py: WorkflowDebugger, and manager.py: debug_workflow *)

Module WorkflowDebugger.

(** [__init__] stores whatever it is given as [executor]; the manager
    gives it a [Workflow]. *)
Record t : Type := {
  executor : Workflow + WorkflowExecutor.t;
  breakpoints : gset string;
  step_mode : bool;
  paused : bool;
  dbg_current_node : option string
}.

Definition __init__ (executor : Workflow + WorkflowExecutor.t) : t :=
  {| executor := executor; breakpoints := ∅; step_mode := false;
     paused := false; dbg_current_node := None |}.

Definition add_breakpoint (self : t) (node_id : string) : t :=
  {| executor := executor self; breakpoints := {[ node_id ]} ∪ breakpoints self;
     step_mode := step_mode self; paused := paused self;
     dbg_current_node := dbg_current_node self |}.

Definition remove_breakpoint (self : t) (node_id : string) : t :=
  {| executor := executor self; breakpoints := breakpoints self ∖ {[ node_id ]};
     step_mode := step_mode self; paused := paused self;
     dbg_current_node := dbg_current_node self |}.

Definition set_step_mode (b : bool) (self : t) : t :=
  {| executor := executor self; breakpoints := breakpoints self;
     step_mode := b; paused := paused self;
     dbg_current_node := dbg_current_node self |}.

Definition enable_step_mode (self : t) : t := set_step_mode true self.
Definition disable_step_mode (self : t) : t := set_step_mode false self.

Definition continue_execution (self : t) : t :=
  {| executor := executor self; breakpoints := breakpoints self;
     step_mode := step_mode self; paused := false;
     dbg_current_node := dbg_current_node self |}.

(** A method call on a debugger: the methods the class defines, taking a
    node id where they take one and returning the debugger after the
    call together with the value returned.  Any other name raises
    AttributeError. *)
Definition call (self : t) (method : string) (arg : option string)
  : res (t * option WorkflowExecutionResult) :=
  match method, arg with
  | "add_breakpoint"%string, Some n => Ok (add_breakpoint self n, None)
  | "remove_breakpoint"%string, Some n => Ok (remove_breakpoint self n, None)
  | "enable_step_mode"%string, None => Ok (enable_step_mode self, None)
  | "disable_step_mode"%string, None => Ok (disable_step_mode self, None)
  | "continue_execution"%string, None => Ok (continue_execution self, None)
  | ("add_breakpoint" | "remove_breakpoint" | "enable_step_mode"
     | "disable_step_mode" | "continue_execution" | "get_context_snapshot")%string, _ =>
      Raise (TypeError (method +:+ "() called with the wrong arguments"))
  | _, _ =>
      Raise (AttributeError
               ("'WorkflowDebugger' object has no attribute '" +:+ method +:+ "'"))
  end.

End WorkflowDebugger.

Module WorkflowManager.

Record t : Type := {
  workflows : gmap string Workflow;
  executors : gmap string WorkflowExecutor.t;
  debuggers : gmap string WorkflowDebugger.t
}.

Definition set_debugger (workflow_id : string) (d : WorkflowDebugger.t)
  (self : t) : t :=
  {| workflows := workflows self; executors := executors self;
     debuggers := <[ workflow_id := d ]> (debuggers self) |}.

(** [for node_id in breakpoints: debugger.set_breakpoint(node_id)] *)
Fixpoint set_breakpoints (d : WorkflowDebugger.t) (breakpoints : list string)
  : res WorkflowDebugger.t :=
  match breakpoints with
  | [] => Ok d
  | node_id :: rest =>
      '(d, _) ← WorkflowDebugger.call d "set_breakpoint" (Some node_id);
      set_breakpoints d rest
  end.

(** [debug_workflow]: the manager afterwards, and either the value
    returned or the exception that left the method. *)
Definition debug_workflow (self : t) (workflow_id : string)
  (trigger : WorkflowTriggerType) (trigger_data : option dict)
  (breakpoints : option (list string)) (step_mode : bool)
  : t * res (option WorkflowExecutionResult) :=
  match workflows self !! workflow_id with
  | None => (self, Ok None)
  | Some workflow =>
      let self :=
        match debuggers self !! workflow_id with
        | Some _ => self
        | None => set_debugger workflow_id (WorkflowDebugger.__init__ (inl workflow)) self
        end in
      let debugger :=
        default (WorkflowDebugger.__init__ (inl workflow))
                (debuggers self !! workflow_id) in
      match set_breakpoints debugger (default [] breakpoints) with
      | Raise e => (self, Raise e)
      | Ok debugger =>
          let self := set_debugger workflow_id debugger self in
          let debugger :=
            if step_mode then WorkflowDebugger.enable_step_mode debugger
            else debugger in
          let self := set_debugger workflow_id debugger self in
          (* try: result = await debugger.debug_execute(...); return result
             except Exception: return None *)
          match WorkflowDebugger.call debugger "debug_execute" None with
          | Ok (debugger, result) => (set_debugger workflow_id debugger self, Ok result)
          | Raise _ => (self, Ok None)
          end
      end
  end.

End WorkflowManager.

(** ** Workflows used as test inputs *)

Module Scenarios.

(** A world in which every HTTP request fails to connect; [float] accepts
    integers only and the JSON codec is not exercised. *)
Definition world0 : World :=
  {| now := "2025-01-01T00:00:00";
     http := fun _ _ _ _ _ => HttpFailure (RuntimeError "Cannot connect to host");
     float_gt := fun a b =>
       match a, b with
       | VInt x, VInt y => Ok (y <? x)
       | _, _ => Raise (TypeError "float() argument must be a string or a real number")
       end;
     float_lt := fun a b =>
       match a, b with
       | VInt x, VInt y => Ok (x <? y)
       | _, _ => Raise (TypeError "float() argument must be a string or a real number")
       end;
     json_dumps := fun v => Ok (py_repr v);
     json_loads := fun _ => Raise (ValueError "Expecting value");
     str_takes_member := true |}.

Definition cfg (handler : option string) (p : ConfigPayload) : NodeConfig :=
  {| timeout := None; retry := None; error_handler := handler;
     payload := p; extra := [] |}.

Definition node (id : string) (ty : NodeType) (c : NodeConfig) : WorkflowNode :=
  {| node_id := id; type := ty; name := id; description := None;
     position := VNone; config := c; status := None; error := None |}.

Definition edge (id src tgt : string) (lbl : option string) : WorkflowEdge :=
  {| edge_id := id; source := src; target := tgt; condition := None; label := lbl |}.

Definition workflow_of (ns : list WorkflowNode) (es : list WorkflowEdge)
  (vars : option (list (string * dict))) : Workflow :=
  {| wf_id := "wf"; wf_name := "scenario"; wf_description := None;
     nodes := ns; edges := es; wf_status := ACTIVE;
     trigger_types := [PERSON_MESSAGE]; wf_variables := vars; version := 1;
     created_at := "2025-01-01T00:00:00"; updated_at := "2025-01-01T00:00:00";
     created_by := None; bot_id := None; tags := []; category := None;
     wf_extra := [] |}.

Definition start : WorkflowNode :=
  node "start" EVENT_START (cfg None (EventStartConfig (Member PERSON_MESSAGE) VNone)).

Definition reply (id content : string) : WorkflowNode :=
  node id REPLY_MESSAGE (cfg None (ReplyMessageConfig content None VNone)).

Definition http_node (handler : string) : WorkflowNode :=
  node "http" HTTP_REQUEST
       (cfg (Some handler) (HttpRequestConfig "GET" "http://bad.invalid/" VNone VNone VNone)).

(** S1: event_start -> reply_message("hi {{name}}"), name defaults to "world". *)
Definition S1 : Workflow :=
  workflow_of [start; reply "reply" "hi {{name}}"]
              [edge "e1" "start" "reply" None]
              (Some [("name", [("default", VStr "world")])]).

(** S2: event_start -> chat_command_branch, edges labelled "command" and
    "chat" to two reply nodes.  The configuration of the branch node is
    the dict its handler reads with [.get]. *)
Definition S2 : Workflow :=
  workflow_of
    [start;
     node "branch" CHAT_COMMAND_BRANCH
          {| timeout := None; retry := None; error_handler := None;
             payload := PlainDict [("command_prefix", VStr "/")]; extra := [] |};
     reply "R1" "cmd:{{cmd}}"; reply "R2" "echo"]
    [edge "e1" "start" "branch" None;
     edge "e2" "branch" "R1" (Some "command");
     edge "e3" "branch" "R2" (Some "chat")]
    None.

(** event_start -> condition, edges labelled "true" and "false". *)
Definition branching : Workflow :=
  workflow_of
    [start;
     node "cond" CONDITION (cfg None (ConditionConfig [] None));
     reply "T" "yes"; reply "F" "no"]
    [edge "e1" "start" "cond" None;
     edge "e2" "cond" "T" (Some "true");
     edge "e3" "cond" "F" (Some "false")]
    None.

(** S3 and S4: event_start -> http_request(url=bad) -> reply, with
    error_handler stop and skip. *)
Definition S3 : Workflow :=
  workflow_of [start; http_node "stop"; reply "reply" "done"]
              [edge "e1" "start" "http" None; edge "e2" "http" "reply" None] None.

Definition S4 : Workflow :=
  workflow_of [start; http_node "skip"; reply "reply" "done"]
              [edge "e1" "start" "http" None; edge "e2" "http" "reply" None] None.

(** S4 with a node that raises: its type has no handler in the registry. *)
Definition S4_raising : Workflow :=
  workflow_of [start; node "loop" LOOP (cfg (Some "skip") BaseConfig);
               reply "reply" "done"]
              [edge "e1" "start" "loop" None; edge "e2" "loop" "reply" None] None.

(** S5: B is reached from A and also has an incoming edge from C, which
    is not a node of the workflow. *)
Definition S5 : Workflow :=
  workflow_of [node "A" EVENT_START
                    (cfg None (EventStartConfig (Member PERSON_MESSAGE) VNone));
               reply "B" "b"]
              [edge "e1" "A" "B" None; edge "e2" "C" "B" None] None.

Definition run (wf : Workflow) (fuel : nat) (content : string)
  : option (res WorkflowExecutionResult) :=
  WorkflowExecutor.execute world0 (WorkflowExecutor.__init__ wf "exec-1") fuel
    PERSON_MESSAGE (Some [("content", VStr content)]).

End Scenarios.

(** The states the loop passes through on S5 and on the raising variant
    of S4: the state after the first iteration, and the one after the
    second. *)
Module Stuck.
Import Scenarios.

Definition after (n : nat) (wf : Workflow) : WorkflowExecutor.LoopState :=
  let self := WorkflowExecutor.__init__ wf "exec-1" in
  let ctx := WorkflowExecutor.initial_context world0 self PERSON_MESSAGE
               (Some [("content", VStr "x")]) in
  Nat.iter n
    (fun st => match WorkflowExecutor.step world0 self st with
               | WorkflowExecutor.Next st' => st'
               | _ => st
               end)
    {| WorkflowExecutor.queue := WorkflowExecutor._find_start_nodes self ctx;
       WorkflowExecutor.executed := ∅;
       WorkflowExecutor.skipped := ∅;
       WorkflowExecutor.context := ctx |}.

End Stuck.

(** ** The template grammar as the specification words it

    One pass over the template, left to right: where the text reads
    [{{NAME}}] for a declared NAME, the stringified value is written and
    reading goes on after the token, so what a value brings in is never
    read again; everything else is copied. *)
Fixpoint spec_interpolate_from (vars : list (string * WorkflowVariable))
  (skip : nat) (s : string) : string :=
  match s with
  | EmptyString => EmptyString
  | String c rest =>
      match skip with
      | S k => spec_interpolate_from vars k rest
      | O =>
          match List.find (fun kv => String.prefix (token (fst kv)) s) vars with
          | Some (n, v) =>
              py_str (var_value v)
              +:+ spec_interpolate_from vars (String.length (token n) - 1) rest
          | None => String c (spec_interpolate_from vars 0 rest)
          end
      end
  end.

Definition spec_interpolate (vars : list (string * WorkflowVariable))
  (template : string) : string :=
  spec_interpolate_from vars 0 template.

(** The text has no opening brace. *)
Fixpoint no_open_brace (s : string) : bool :=
  match s with
  | EmptyString => true
  | String c rest => negb (Ascii.eqb c "{") && no_open_brace rest
  end.

(** A variable of the pool holding a string. *)
Definition str_var (n v : string) : string * WorkflowVariable :=
  (n, {| var_name := n; var_value := VStr v;
         var_type := VStr "Any"; var_scope := VStr "workflow" |}).

(** ** Predicates used in the statements *)

(** A handler leaves the list of executed nodes and the undeclared
    attributes of the context as it found them. *)
Definition keeps_trace (h : Handler) : Prop :=
  forall w node ctx st out ctx',
    h w node ctx = Ok (st, out, ctx') ->
    executed_nodes ctx' = executed_nodes ctx
    /\ ctx_extra ctx' = ctx_extra ctx.

(** Every queued node is waiting: it has not run, was not skipped, and
    is not ready. *)
Definition starved (self : WorkflowExecutor.t) (st : WorkflowExecutor.LoopState)
  : Prop :=
  WorkflowExecutor.queue st <> []
  /\ Forall (fun n =>
               (node_id n ∉ WorkflowExecutor.executed st)
               /\ (node_id n ∉ WorkflowExecutor.skipped st)
               /\ WorkflowExecutor._are_dependencies_satisfied self n
                    (WorkflowExecutor.executed st) = false)
            (WorkflowExecutor.queue st).

(** Every entry of the list has the sources of all its incoming edges
    before it. *)
Definition respects_dependencies (wf : Workflow) (trace : list string) : Prop :=
  forall before n after,
    trace = before ++ n :: after ->
    forall e, In e (edges wf) -> target e = n -> In (source e) before.

(** The loop invariant: the set [executed] and the list
    [context.executed_nodes] hold the same ids, and the list respects
    the dependencies. *)
Definition loop_invariant (wf : Workflow) (st : WorkflowExecutor.LoopState) : Prop :=
  (forall x, x ∈ WorkflowExecutor.executed st
             <-> In x (executed_nodes (WorkflowExecutor.context st)))
  /\ respects_dependencies wf (executed_nodes (WorkflowExecutor.context st)).

(** ** Further predicates used in the statements *)

(** A handler keeps every slot of [node_outputs] that was there. *)
Definition keeps_outputs (h : Handler) : Prop :=
  forall w node ctx st out ctx' k,
    h w node ctx = Ok (st, out, ctx') ->
    dict_mem k (node_outputs ctx) = true ->
    dict_mem k (node_outputs ctx') = true.

(** The node types whose handler reads the configuration with [.get]. *)
Definition reads_with_get (ty : NodeType) : bool :=
  match ty with
  | SCHEDULE_START | JSON_PROCESSOR | SET_VARIABLE | GET_VARIABLE
  | CHAT_COMMAND_BRANCH | TOOL_ACTION => true
  | _ => false
  end.

(** The configuration is an object of a configuration class, as
    validation leaves it, and not a plain dict. *)
Definition is_object (c : NodeConfig) : bool :=
  match payload c with
  | PlainDict _ => false
  | _ => true
  end.

(** The handler of the node can return: the node is not one of those
    read with [.get] whose configuration is an object. *)
Definition can_return (n : WorkflowNode) : bool :=
  negb (reads_with_get (type n) && is_object (config n)).

(** The node types without a handler class in the registry. *)
Definition unregistered (ty : NodeType) : bool :=
  match ty with
  | BRANCH | LOOP | BINARY_STORAGE | FILE_STORAGE => true
  | _ => false
  end.

(** What the traversal keeps true of its state: the queue holds nodes of
    the workflow, and so does the list of executed nodes, which has no
    repetition and a stored output for each entry. *)
Definition run_invariant (wf : Workflow) (st : WorkflowExecutor.LoopState)
  : Prop :=
  Forall (fun n => In n (nodes wf)) (WorkflowExecutor.queue st)
  /\ Forall (fun id => exists n, In n (nodes wf) /\ node_id n = id)
            (executed_nodes (WorkflowExecutor.context st))
  /\ NoDup (executed_nodes (WorkflowExecutor.context st))
  /\ Forall (fun id => dict_mem id (node_outputs (WorkflowExecutor.context st)) = true)
            (executed_nodes (WorkflowExecutor.context st)).

(** Inputs on which the node handlers are run. *)
Module HandlerInputs.

(** A world whose HTTP server answers every request with status 500. *)
Definition answering : World :=
  {| now := now Scenarios.world0;
     http := fun _ _ _ _ _ => HttpResponse 500 (VDict []) "Internal Server Error";
     float_gt := float_gt Scenarios.world0;
     float_lt := float_lt Scenarios.world0;
     json_dumps := json_dumps Scenarios.world0;
     json_loads := json_loads Scenarios.world0;
     str_takes_member := str_takes_member Scenarios.world0 |}.

Definition empty_context : WorkflowContext :=
  WorkflowExecutor.initial_context Scenarios.world0
    (WorkflowExecutor.__init__ Scenarios.S1 "exec-1") PERSON_MESSAGE None.

(** A node whose configuration is a plain dict. *)
Definition dict_node (id : string) (ty : NodeType) (items : dict)
  : WorkflowNode :=
  Scenarios.node id ty (Scenarios.cfg None (PlainDict items)).

(** A node whose configuration is an object of [JsonProcessorConfig]. *)
Definition json_node (op : string) (path : option string) (v : value)
  : WorkflowNode :=
  Scenarios.node "json" JSON_PROCESSOR
    (Scenarios.cfg None (JsonProcessorConfig op path v)).

(** event_start -> json_processor("extract", "content"), the second
    node configured by an object. *)
Definition extracting : Workflow :=
  Scenarios.workflow_of
    [Scenarios.start; json_node "extract" (Some "content") VNone]
    [Scenarios.edge "e1" "start" "json" None]
    None.

End HandlerInputs.

(** ** api/http/service/workflow.py: the other operations

    The database holds two tables, each a finite map from the primary
    key [uuid] to a row.  An INSERT under a key already present raises;
    the other constraints of the tables (the set of columns, NOT NULL,
    the column types) are not checked, so the tables accept rows the
    database refuses, and the properties proved of these operations
    speak of calls that returned.  [serialize_model] is taken to return
    the columns of the row. *)

Module WorkflowServiceDb.

Record Db : Type := {
  workflow_rows : gmap string (gmap string value);
  execution_rows : gmap string (gmap string value)
}.

(** [if k not in d: d[k] = v] *)
Definition set_default (k : string) (v : value) (d : gmap string value)
  : gmap string value :=
  match d !! k with
  | Some _ => d
  | None => <[ k := v ]> d
  end.

(** [tts[0] if tts and len(tts) > 0 else 'MANUAL'] *)
Definition main_trigger (tts : value) : res value :=
  match tts with
  | VList (t :: _) => Ok t
  | VStr (String c _) => Ok (VStr (String c EmptyString))
  | VDict (_ :: _) => Raise (KeyError "0")
  | VInt z =>
      if z =? 0 then Ok (VStr "MANUAL")
      else Raise (TypeError "object of type 'int' has no len()")
  | VBool true => Raise (TypeError "object of type 'bool' has no len()")
  | _ => Ok (VStr "MANUAL")
  end.

Definition integrity_error (table : string) : exn :=
  RuntimeError ("IntegrityError: UNIQUE constraint failed: " +:+ table +:+ ".uuid").

(** The dict [create_workflow] hands to the INSERT. *)
Definition prepare_insert (fresh_uuid : string) (workflow_data : gmap string value)
  : res (gmap string value) :=
  let data :=
    match workflow_data !! "uuid" with
    | None | Some VNone => <[ "uuid" := VStr fresh_uuid ]> workflow_data
    | Some _ => workflow_data
    end in
  let data := set_default "status" (VStr "DRAFT") data in
  let data := set_default "version" (VInt 1) data in
  let data := set_default "nodes" (VList []) data in
  let data := set_default "edges" (VList []) data in
  let data := set_default "trigger_config" (VDict []) data in
  let data := set_default "workflow_metadata" (VDict []) data in
  let data :=
    match data !! "id" with
    | Some id => <[ "uuid" := id ]> (delete "id" data)
    | None => data
    end in
  let data := WorkflowService.rename_metadata data in
  match data !! "trigger_types" with
  | Some tts =>
      t ← main_trigger tts;
      Ok (<[ "trigger_type" := t ]> (delete "trigger_types" data))
  | None => Ok (set_default "trigger_type" (VStr "MANUAL") data)
  end.

(** [create_workflow(workflow_data)]: the uuid returned and the database
    after the INSERT; [fresh_uuid] is the uuid drawn when the data names
    none.  The key column is a string: a key of another type is taken to
    be refused by the database. *)
Definition create_workflow (w : World) (fresh_uuid : string)
  (workflow_data : gmap string value) (db : Db) : res (string * Db) :=
  data ← prepare_insert fresh_uuid workflow_data;
  match data !! "uuid" with
  | Some (VStr uuid) =>
      match workflow_rows db !! uuid with
      | Some _ => Raise (integrity_error "workflows")
      | None =>
          let row := data ∪ {[ "created_at" := VStr (now w);
                               "updated_at" := VStr (now w) ]} in
          Ok (uuid, {| workflow_rows := <[ uuid := row ]> (workflow_rows db);
                       execution_rows := execution_rows db |})
      end
  | _ => Raise (RuntimeError "uuid is not a string")
  end.

(** The two renames between a row and the dict the API returns. *)
Definition to_api (row : gmap string value) : gmap string value :=
  let d := match row !! "workflow_metadata" with
           | Some m => <[ "metadata" := m ]> (delete "workflow_metadata" row)
           | None => row
           end in
  match d !! "uuid" with
  | Some u => <[ "id" := u ]> (delete "uuid" d)
  | None => d
  end.

Definition get_workflow (workflow_uuid : string) (db : Db)
  : option (gmap string value) :=
  to_api <$> workflow_rows db !! workflow_uuid.

(** Whether an execution record belongs to the workflow. *)
Definition references (workflow_uuid : string) (record : gmap string value)
  : bool :=
  match record !! "workflow_uuid" with
  | Some (VStr u) => String.eqb u workflow_uuid
  | _ => false
  end.

(** [delete_workflow]: the execution records first, then the workflow. *)
Definition delete_workflow (workflow_uuid : string) (db : Db) : Db :=
  {| workflow_rows := delete workflow_uuid (workflow_rows db);
     execution_rows :=
       filter (fun kv => references workflow_uuid (snd kv) = false) (execution_rows db) |}.

(** An empty database and the data of a new workflow. *)
Definition empty_db : Db := {| workflow_rows := ∅; execution_rows := ∅ |}.

Definition new_workflow : gmap string value :=
  {[ "id" := VStr "wf-9"; "uuid" := VStr "other"; "name" := VStr "n";
     "description" := VStr "" ]}.

(** A table with one row, and an update that names another uuid and
    another creation time. *)
Definition stored_row : gmap string value :=
  {[ "uuid" := VStr "wf-1"; "created_at" := VStr "2024"; "version" := VInt 7 ]}.

Definition stored_table : gmap string (gmap string value) :=
  {[ "wf-1" := stored_row ]}.

Definition hijacking_update : gmap string value :=
  {[ "uuid" := VStr "hijack"; "created_at" := VStr "1999"; "name" := VStr "new" ]}.

End WorkflowServiceDb.

(** ** manager.py: the indices of the manager

    The manager keeps the workflows by id, the executors and debuggers
    made for them, the list of workflow ids of each bot, the scheduled
    tasks, and the persistence service when it has one.  The operations
    below add and remove entries of these indices and never read an
    executor or a debugger. *)

Module WorkflowManagerIndex.

Record t : Type := {
  workflows : gmap string Workflow;
  executors : gmap string WorkflowExecutor.t;
  debuggers : gmap string WorkflowDebugger.t;
  bot_workflows : gmap string (list string);
  scheduled_tasks : gset string;
  workflow_service : option WorkflowServiceDb.Db
}.

(** [workflow.bot_id = b; workflow.updated_at = datetime.now()] and the
    like: a workflow with three of its fields replaced. *)
Definition with_fields (st : WorkflowStatus) (bot : option string)
  (updated : string) (wf : Workflow) : Workflow :=
  {| wf_id := wf_id wf; wf_name := wf_name wf;
     wf_description := wf_description wf;
     nodes := nodes wf; edges := edges wf; wf_status := st;
     trigger_types := trigger_types wf; wf_variables := wf_variables wf;
     version := version wf; created_at := created_at wf;
     updated_at := updated; created_by := created_by wf; bot_id := bot;
     tags := tags wf; category := category wf; wf_extra := wf_extra wf |}.

(** [l.remove(x)]: without the first [x]; ValueError when there is none. *)
Fixpoint list_remove (x : string) (l : list string) : res (list string) :=
  match l with
  | [] => Raise (ValueError "list.remove(x): x not in list")
  | y :: rest =>
      if String.eqb x y then Ok rest
      else rest' ← list_remove x rest; Ok (y :: rest')
  end.

(** [if workflow.bot_id and workflow.bot_id in self.bot_workflows:
       self.bot_workflows[workflow.bot_id].remove(workflow_id)] *)
Definition remove_from_bot (wf : Workflow) (workflow_id : string)
  (index : gmap string (list string)) : res (gmap string (list string)) :=
  match bot_id wf with
  | Some b =>
      if truthy_str (Some b) then
        match index !! b with
        | Some l => l' ← list_remove workflow_id l; Ok (<[ b := l' ]> index)
        | None => Ok index
        end
      else Ok index
  | None => Ok index
  end.

Definition get_bot_workflows (self : t) (bot : string) : list Workflow :=
  omap (fun wid => workflows self !! wid) (default [] (bot_workflows self !! bot)).

(** Each operation returns the manager afterwards and what the call
    returned or raised. *)
Definition bind_workflow_to_bot (w : World) (self : t)
  (workflow_id bot : string) : t * res bool :=
  match workflows self !! workflow_id with
  | None => (self, Ok false)
  | Some wf =>
      match remove_from_bot wf workflow_id (bot_workflows self) with
      | Raise e => (self, Raise e)
      | Ok index =>
          let index := <[ bot := default [] (index !! bot) ++ [workflow_id] ]> index in
          ({| workflows :=
                <[ workflow_id := with_fields (wf_status wf) (Some bot) (now w) wf ]>
                  (workflows self);
              executors := executors self; debuggers := debuggers self;
              bot_workflows := index;
              scheduled_tasks := scheduled_tasks self;
              workflow_service := workflow_service self |}, Ok true)
      end
  end.

Definition unbind_workflow_from_bot (w : World) (self : t)
  (workflow_id : string) : t * res bool :=
  match workflows self !! workflow_id with
  | None => (self, Ok false)
  | Some wf =>
      if negb (truthy_str (bot_id wf)) then (self, Ok false)
      else
        match remove_from_bot wf workflow_id (bot_workflows self) with
        | Raise e => (self, Raise e)
        | Ok index =>
            ({| workflows :=
                  <[ workflow_id := with_fields (wf_status wf) None (now w) wf ]>
                    (workflows self);
                executors := executors self; debuggers := debuggers self;
                bot_workflows := index;
                scheduled_tasks := scheduled_tasks self;
                workflow_service := workflow_service self |}, Ok true)
        end
  end.

Definition delete_workflow (self : t) (workflow_id : string) : t * res bool :=
  match workflows self !! workflow_id with
  | None => (self, Ok false)
  | Some wf =>
      (* the scheduled task is cancelled first *)
      let tasks := scheduled_tasks self ∖ {[ workflow_id ]} in
      match remove_from_bot wf workflow_id (bot_workflows self) with
      | Raise e =>
          ({| workflows := workflows self; executors := executors self;
              debuggers := debuggers self; bot_workflows := bot_workflows self;
              scheduled_tasks := tasks;
              workflow_service := workflow_service self |}, Raise e)
      | Ok index =>
          ({| workflows := delete workflow_id (workflows self);
              executors := delete workflow_id (executors self);
              debuggers := delete workflow_id (debuggers self);
              bot_workflows := index;
              scheduled_tasks := tasks;
              workflow_service :=
                WorkflowServiceDb.delete_workflow workflow_id
                  <$> workflow_service self |}, Ok true)
      end
  end.

(** A manager holding S1 bound to no bot. *)
Definition sample : t :=
  {| workflows := {[ "wf" := Scenarios.S1 ]}; executors := ∅; debuggers := ∅;
     bot_workflows := ∅; scheduled_tasks := ∅; workflow_service := None |}.

(** A manager in which S1 names a bot whose list holds another id. *)
Definition stale : t :=
  {| workflows :=
       {[ "wf" := with_fields ACTIVE (Some "bot-1") "2025-01-02T00:00:00"
                    Scenarios.S1 ]};
     executors := ∅; debuggers := ∅;
     bot_workflows := {[ "bot-1" := ["other"] ]};
     scheduled_tasks := {[ "wf" ]}; workflow_service := None |}.

End WorkflowManagerIndex.

(** ** executor.py: WorkflowScheduler

    [scheduled_workflows] maps a key to the task started for it; the
    tasks are not observed, the keys are. *)

Module WorkflowScheduler.

Definition task_key (workflow_id node : string) : string :=
  workflow_id +:+ "_" +:+ node.

Definition schedules (n : WorkflowNode) : bool :=
  bool_decide (type n = SCHEDULE_START) && config_hasattr (config n) "cron_expression".

Definition schedule_workflow (scheduled_workflows : gset string) (wf : Workflow)
  : gset string :=
  foldl (fun keys n =>
           if schedules n then keys ∪ {[ task_key (wf_id wf) (node_id n) ]}
           else keys)
        scheduled_workflows (nodes wf).

Definition cancel_scheduled_workflow (scheduled_workflows : gset string)
  (workflow_id : string) : gset string :=
  filter (fun key => startswith key (workflow_id +:+ "_") = false)
         scheduled_workflows.

(** A workflow started by two schedules. *)
Definition nightly (id : string) : Workflow :=
  let schedule n :=
    Scenarios.node n SCHEDULE_START
      (Scenarios.cfg None (ScheduleStartConfig "0 3 * * *" None)) in
  {| wf_id := id; wf_name := "nightly"; wf_description := None;
     nodes := [schedule "s1"; Scenarios.reply "r" "report"; schedule "s2"];
     edges := [Scenarios.edge "e1" "s1" "r" None; Scenarios.edge "e2" "s2" "r" None];
     wf_status := ACTIVE; trigger_types := [SCHEDULED]; wf_variables := None;
     version := 1; created_at := "2025-01-01T00:00:00";
     updated_at := "2025-01-01T00:00:00"; created_by := None; bot_id := None;
     tags := []; category := None; wf_extra := [] |}.

End WorkflowScheduler.

(** * Properties *)

(** ** The traversal loop *)

Section Loop.
Import WorkflowExecutor.
Context (w : World) (self : WorkflowExecutor.t).

Lemma iterate_stuck (st : LoopState) :
  step w self st = Next st -> forall fuel, iterate w self fuel st = None.
Proof.
  intros Hstep fuel. induction fuel as [|fuel IH]; simpl.
  - reflexivity.
  - rewrite Hstep. exact IH.
Qed.

Lemma iterate_next (st st' : LoopState) (fuel : nat) :
  step w self st = Next st' ->
  iterate w self (S fuel) st = iterate w self fuel st'.
Proof. intros Hstep. simpl. now rewrite Hstep. Qed.

End Loop.

Section Execute.
Import WorkflowExecutor.
Context (w : World) (self : WorkflowExecutor.t).

(** An execution that finds start nodes and whose loop is still running
    after [fuel] iterations has not returned. *)
Lemma execute_running (fuel : nat) (trig : WorkflowTriggerType)
  (data : option dict) :
  wf_status (workflow self) = ACTIVE ->
  _find_start_nodes self (initial_context w self trig data) <> [] ->
  iterate w self fuel
    {| queue := _find_start_nodes self (initial_context w self trig data);
       executed := ∅; skipped := ∅;
       context := initial_context w self trig data |} = None ->
  execute w self fuel trig data = None.
Proof.
  intros Hactive Hstart Hloop. unfold execute.
  rewrite Hactive. simpl.
  destruct (_find_start_nodes self (initial_context w self trig data)) as [|n ns] eqn:E.
  - congruence.
  - unfold _execute_from_nodes. now rewrite Hloop.
Qed.

(** The wrapper hands back the output whatever the status was. *)
Lemma run_drops_status (h : Handler) (node : WorkflowNode)
  (ctx ctx' : WorkflowContext) (st : NodeStatus) (out : value) :
  h w node ctx = Ok (st, out, ctx') ->
  NodeWrapper.run h w node ctx =
  Ok (out, set_node_outputs (dict_set (node_id node) out (node_outputs ctx')) ctx').
Proof. intros H. unfold NodeWrapper.run. now rewrite H. Qed.

End Execute.

(** ** Scenario runs *)

Section ScenarioRuns.
Import Scenarios WorkflowExecutor.


(** The same happens below a node that raised under the skip policy: the
    node is put in [skipped], never in [executed], so what it leads to is
    queued and never ready. *)
Lemma S4_raising_requeues_forever :
  forall fuel, run S4_raising fuel "x" = None.
Proof.
  intros fuel. unfold run. apply execute_running.
  - reflexivity.
  - vm_compute. discriminate.
  - change (iterate world0 (__init__ S4_raising "exec-1") fuel
              (Stuck.after 0 S4_raising) = None).
    destruct fuel as [|fuel]; [reflexivity|].
    rewrite (iterate_next _ _ _ (Stuck.after 1 S4_raising)) by (vm_compute; reflexivity).
    destruct fuel as [|fuel]; [reflexivity|].
    rewrite (iterate_next _ _ _ (Stuck.after 2 S4_raising)) by (vm_compute; reflexivity).
    apply iterate_stuck. vm_compute. reflexivity.
Qed.





End ScenarioRuns.

(** ** Dependency respect *)

Section EdgeMaps.
Import WorkflowExecutor.

(** The list found under a key is the list of the edges with that key,
    in the order of the workflow. *)
Lemma lookup_add_edges (key : WorkflowEdge -> string) (es : list WorkflowEdge)
  (m : gmap string (list WorkflowEdge)) (k : string) :
  default [] (foldl (add_edge key) m es !! k)
  = default [] (m !! k) ++ List.filter (fun e => String.eqb (key e) k) es.
Proof.
  revert m. induction es as [|e es IH]; intros m; simpl.
  - now rewrite app_nil_r.
  - rewrite IH. unfold add_edge at 1.
    destruct (String.eqb_spec (key e) k) as [->|Hne].
    + rewrite lookup_insert_eq. simpl. now rewrite <- app_assoc.
    + now rewrite lookup_insert_ne.
Qed.

Lemma incoming_edges_spec (wf : Workflow) (uuid : string) (n : string) :
  default [] (reverse_edge_map (__init__ wf uuid) !! n)
  = List.filter (fun e => String.eqb (target e) n) (edges wf).
Proof. simpl. now rewrite lookup_add_edges, lookup_empty. Qed.

(** A node is ready exactly when the source of each of its incoming
    edges is in [executed]. *)
Lemma dependencies_satisfied_spec (wf : Workflow) (uuid : string)
  (node : WorkflowNode) (done : gset string) :
  _are_dependencies_satisfied (__init__ wf uuid) node done = true ->
  forall e, In e (edges wf) -> target e = node_id node -> source e ∈ done.
Proof.
  unfold _are_dependencies_satisfied. rewrite incoming_edges_spec.
  intros H e He Ht.
  assert (Hin : In e (List.filter (fun e => String.eqb (target e) (node_id node)) (edges wf))).
  { apply filter_In. split; [exact He|]. now apply String.eqb_eq. }
  destruct (List.filter _ (edges wf)) as [|e0 l] eqn:E; [destruct Hin|].
  rewrite forallb_forall in H. specialize (H e Hin).
  now apply bool_decide_eq_true in H.
Qed.

End EdgeMaps.

Section Handlers.

Ltac handler_cases :=
  repeat match goal with
    | H : Ok _ = Ok _ |- _ => inversion H; subst; clear H
    | H : Raise _ = Ok _ |- _ => discriminate H
    | H : mbind _ ?m = Ok _ |- _ =>
        let E := fresh "E" in destruct m eqn:E; simpl in H
    | H : (match ?x with _ => _ end) = Ok _ |- _ =>
        let E := fresh "E" in destruct x eqn:E; simpl in H
    | H : (let '(_, _) := ?x in _) = Ok _ |- _ =>
        let E := fresh "E" in destruct x eqn:E; simpl in H
    end.

Lemma set_value_keeps_trace (node : WorkflowNode) (ctx : WorkflowContext) :
  executed_nodes (snd (JsonProcessorNode._set_value node ctx)) = executed_nodes ctx
  /\ ctx_extra (snd (JsonProcessorNode._set_value node ctx)) = ctx_extra ctx.
Proof.
  unfold JsonProcessorNode._set_value.
  destruct (config_get_default _ _ _) as [path|]; [|now split].
  destruct (config_get _ _) as [v|]; [|now split].
  unfold JsonProcessorNode.set_path.
  destruct (negb _); [now split|].
  destruct (JsonProcessorNode.path_parts _); [|now split].
  destruct (JsonProcessorNode.set_in _ _ _ _) as [d' [e|]];
    destruct (match last_executed ctx with Some _ => _ | None => _ end);
    now split.
Qed.

Lemma registry_keeps_trace (node : WorkflowNode) (h : Handler) :
  create_node node = Ok h -> keeps_trace h.
Proof.
  unfold create_node. intros Hh w node' ctx st out ctx' Hrun.
  destruct (type node); simpl in Hh; inversion Hh; subst; clear Hh.
  - unfold EventStartNode.execute in Hrun. handler_cases. now split.
  - unfold ScheduleStartNode.execute in Hrun. handler_cases. now split.
  - unfold ConditionNode.execute in Hrun. handler_cases; now split.
  - unfold HttpRequestNode.execute in Hrun. handler_cases; now split.
  - unfold JsonProcessorNode.execute in Hrun.
    destruct (config_get_default _ _ _) as [operation|]; simpl in Hrun;
      [|discriminate].
    destruct operation; try discriminate.
    pose proof (set_value_keeps_trace node' ctx) as Hset.
    destruct (JsonProcessorNode._set_value node' ctx) as [r c]. simpl in Hset.
    repeat match goal with
           | H : context [if ?b then _ else _] |- _ => destruct b
           end; simpl in Hrun; handler_cases; auto.
  - unfold ReplyMessageNode.execute in Hrun. handler_cases; now split.
  - unfold ToolActionNode.execute in Hrun. handler_cases; now split.
  - unfold SetVariableNode.execute in Hrun. handler_cases; now split.
  - unfold GetVariableNode.execute in Hrun. handler_cases; now split.
  - unfold ChatCommandBranchNode.execute in Hrun. handler_cases; now split.
  - unfold EndNode.execute in Hrun. handler_cases. now split.
Qed.

End Handlers.

Section DependencyRespect.
Import WorkflowExecutor.
Context (w : World) (wf : Workflow) (uuid : string).
Local Abbreviation self := (__init__ wf uuid).
Local Abbreviation loop_invariant := (loop_invariant wf).

Lemma respects_dependencies_snoc (trace : list string) (n : string) :
  respects_dependencies wf trace ->
  (forall e, In e (edges wf) -> target e = n -> In (source e) trace) ->
  respects_dependencies wf (trace ++ [n]).
Proof.
  intros Htrace Hn before m after Hsplit e He Ht.
  destruct after as [|a after _] using rev_ind.
  - apply app_inj_tail in Hsplit as [-> ->]. now apply (Hn e).
  - rewrite app_comm_cons, app_assoc in Hsplit.
    apply app_inj_tail in Hsplit as [-> _].
    now apply (Htrace before m after eq_refl e).
Qed.

Lemma try_node_invariant (node : WorkflowNode) (st : LoopState) :
  loop_invariant st ->
  _are_dependencies_satisfied self node (executed st) = true ->
  loop_invariant (fst (try_node w self node st)).
Proof.
  intros [Hset Htrace] Hready. unfold try_node.
  destruct (create_node node) as [h|e] eqn:Hh; [|now split].
  destruct (NodeWrapper.run h w node _) as [[result ctx]|e] eqn:Hrun; [|now split].
  assert (Hkeep : executed_nodes ctx = executed_nodes (context st)).
  { unfold NodeWrapper.run in Hrun.
    destruct (h w node _) as [[[s out] ctx']|] eqn:Hexec; simpl in Hrun; [|discriminate].
    inversion Hrun; subst; clear Hrun. simpl.
    now rewrite (proj1 (registry_keeps_trace node h Hh _ _ _ _ _ _ Hexec)). }
  assert (Hnew : loop_invariant
            {| queue := queue st; executed := {[ node_id node ]} ∪ executed st;
               skipped := skipped st;
               context := append_executed (node_id node) ctx |}).
  { split; simpl; rewrite Hkeep.
    - intros x. rewrite elem_of_union, elem_of_singleton, in_app_iff, Hset.
      simpl. intuition.
    - apply respects_dependencies_snoc; [exact Htrace|].
      intros e He Ht. apply Hset.
      now apply (dependencies_satisfied_spec wf uuid node). }
  destruct (next_edges_of self node result) as [next|e]; [|exact Hnew].
  destruct (enqueue self next result (queue st)) as [q oe]. exact Hnew.
Qed.

Lemma handle_error_invariant (node : WorkflowNode) (e : exn) (st : LoopState) :
  loop_invariant st ->
  match handle_error w self node e st with
  | Drained st' | Next st' | Escaped _ st' => loop_invariant st'
  end.
Proof.
  intros Hinv. unfold handle_error.
  destruct (config_error_handler (config node)) as [s|]; [|exact Hinv].
  repeat (destruct s as [|[[] [] [] [] [] [] [] []] s]; try exact Hinv).
Qed.

Lemma step_invariant (st : LoopState) :
  loop_invariant st ->
  match step w self st with
  | Drained st' | Next st' | Escaped _ st' => loop_invariant st'
  end.
Proof.
  intros Hinv. unfold step.
  destruct (queue st) as [|node q]; [exact Hinv|].
  destruct (_ || _); [exact Hinv|].
  simpl. destruct (_are_dependencies_satisfied self node (executed st)) eqn:Hready;
    simpl; [|exact Hinv].
  pose proof (try_node_invariant node
                {| queue := q; executed := executed st; skipped := skipped st;
                   context := context st |} Hinv Hready) as Htry.
  destruct (try_node w self node _) as [st' [e|]]; simpl in Htry; [|exact Htry].
  now apply handle_error_invariant.
Qed.

Lemma iterate_invariant (fuel : nat) (st st' : LoopState) (oe : option exn) :
  loop_invariant st ->
  iterate w self fuel st = Some (st', oe) ->
  loop_invariant st'.
Proof.
  revert st. induction fuel as [|fuel IH]; intros st Hinv Hrun; simpl in Hrun.
  - discriminate.
  - pose proof (step_invariant st Hinv) as Hstep.
    destruct (step w self st) as [s|s|e s].
    + now inversion Hrun; subst.
    + now apply (IH s).
    + now inversion Hrun; subst.
Qed.

Lemma initial_invariant (start : list WorkflowNode) (ctx : WorkflowContext) :
  executed_nodes ctx = [] ->
  loop_invariant {| queue := start; executed := ∅; skipped := ∅; context := ctx |}.
Proof.
  intros Hnil. split; simpl; rewrite Hnil.
  - intros x. split; [intros H; now apply not_elem_of_empty in H | intros []].
  - intros [|b before] n after Hsplit; discriminate.
Qed.

End DependencyRespect.



(** ** Variable interpolation *)

Section Replace.

Lemma prefix_app (p s : string) : String.prefix p (p +:+ s) = true.
Proof.
  induction p as [|c p IH]; simpl.
  - now destruct s.
  - rewrite IH. now destruct (Ascii.ascii_dec c c).
Qed.

Lemma replace_from_skip (old new r s : string) :
  replace_from old new (String.length r) (r +:+ s) = replace_from old new 0 s.
Proof.
  induction r as [|c r IH]; simpl.
  - now destruct s.
  - exact IH.
Qed.

(** An occurrence at the front is replaced, and the scan goes on behind it. *)
Lemma replace_from_head (old new s : string) :
  old <> EmptyString ->
  replace_from old new 0 (old +:+ s) = new +:+ replace_from old new 0 s.
Proof.
  intros Hne. destruct old as [|c old]; [congruence|].
  change (String c old +:+ s) with (String c (old +:+ s)).
  cbn [replace_from].
  change (String c (old +:+ s)) with (String c old +:+ s).
  rewrite prefix_app.
  cbn [String.length]. rewrite Nat.sub_succ, Nat.sub_0_r.
  now rewrite replace_from_skip.
Qed.

(** Text without an occurrence is copied. *)
Lemma replace_from_absent (old new s : string) :
  occurs old s = false -> replace_from old new 0 s = s.
Proof.
  induction s as [|c s IH]; intros Hocc; [reflexivity|].
  cbn [occurs] in Hocc. apply orb_false_iff in Hocc as [Hp Hrest].
  cbn [replace_from]. rewrite Hp. now rewrite IH.
Qed.

Lemma token_cons (n : string) : token n = String "{" (String "{" (n +:+ "}}")).
Proof. reflexivity. Qed.

Lemma replace_token (n new s : string) :
  replace (token n) new s = replace_from (token n) new 0 s.
Proof. reflexivity. Qed.

(** Text without an opening brace holds no token. *)
Lemma replace_token_past (n new pre s : string) :
  no_open_brace pre = true ->
  replace_from (token n) new 0 (pre +:+ s)
  = pre +:+ replace_from (token n) new 0 s.
Proof.
  induction pre as [|c pre IH]; intros Hpre; [reflexivity|].
  cbn [no_open_brace] in Hpre. apply andb_true_iff in Hpre as [Hc Hpre].
  change (String c pre +:+ s) with (String c (pre +:+ s)).
  cbn [replace_from]. rewrite token_cons. cbn [String.prefix].
  destruct (Ascii.ascii_dec "{" c) as [<-|Hne].
  - now rewrite Ascii.eqb_refl in Hc.
  - rewrite <- token_cons. now rewrite IH.
Qed.

End Replace.




(** ** Persistence: the version of a stored workflow *)

Section Version.
Import WorkflowService.



End Version.

(** ** The debugger entry point of the manager *)

Section Debug.
Import WorkflowManager.

Lemma set_breakpoints_raises (d : WorkflowDebugger.t) (n : string)
  (rest : list string) :
  set_breakpoints d (n :: rest)
  = Raise (AttributeError
             "'WorkflowDebugger' object has no attribute 'set_breakpoint'").
Proof. reflexivity. Qed.

(** C10, as the code has it.  [debug_workflow] never returns a result.
    For an unknown workflow, and for a known one debugged without
    breakpoints, it returns None (in the second case because
    [debug_execute] does not exist and the AttributeError is caught).
    With a non-empty list of breakpoints the AttributeError of
    [set_breakpoint] is raised before the [try] and leaves the method. *)
Theorem debug_workflow_outcome
  (self : WorkflowManager.t) (workflow_id : string)
  (trigger : WorkflowTriggerType) (trigger_data : option dict)
  (breakpoints : option (list string)) (step_mode : bool) :
  snd (debug_workflow self workflow_id trigger trigger_data breakpoints step_mode)
  = match workflows self !! workflow_id, default [] breakpoints with
    | None, _ => Ok None
    | Some _, [] => Ok None
    | Some _, _ :: _ =>
        Raise (AttributeError
                 "'WorkflowDebugger' object has no attribute 'set_breakpoint'")
    end.
Proof.
  unfold debug_workflow.
  destruct (workflows self !! workflow_id) as [wf|]; [|reflexivity].
  destruct (default [] breakpoints) as [|n rest].
  - reflexivity.
  - now rewrite set_breakpoints_raises.
Qed.

(** C10 as stated fails: with one breakpoint the call does not return
    None, it raises. *)
Lemma debug_workflow_raises_with_breakpoints :
  snd (debug_workflow
         {| workflows := {[ "wf" := Scenarios.S1 ]}; executors := ∅; debuggers := ∅ |}
         "wf" PERSON_MESSAGE None (Some ["reply"%string]) false)
  <> Ok None.
Proof. vm_compute. discriminate. Qed.

End Debug.

(** ** Serialization round trip *)

Section RoundTrip.
Import Objects WorkflowSerializer WorkflowDeserializer.

Lemma bind_Ok {A B} (m : res A) (k : A -> res B) (y : B) :
  (x ← m; k x) = Ok y -> exists x, m = Ok x /\ k x = Ok y.
Proof. destruct m as [x|e]; simpl; [now exists x|discriminate]. Qed.

Lemma status_value_nonempty (s : WorkflowStatus) :
  String.eqb (status_value s) "" = false.
Proof. now destruct s. Qed.

(** The constructor call at the end of [from_dict] is given a member for
    [status], and stores its value. *)
Lemma from_dict_status (w : World) (doc : value) (wf : Workflow) :
  from_dict w doc = Ok wf -> exists s, wf_status wf = Stored (status_value s).
Proof.
  unfold from_dict. intros H.
  repeat (apply bind_Ok in H as (? & _ & H)).
  inversion H; subst; clear H. cbn [wf_status]. now eexists.
Qed.

(** [workflow.status.value] on such a field. *)
Lemma to_dict_of_stored_status (wf : Workflow) (s : WorkflowStatus) :
  wf_status wf = Stored (status_value s) ->
  to_dict wf = Raise (AttributeError "'str' object has no attribute 'value'").
Proof.
  intros Hs. unfold to_dict. rewrite Hs. cbn [held_truthy].
  now rewrite status_value_nonempty.
Qed.

End RoundTrip.

(** C4.  No workflow is read back from its serialized form.  The
    deserializer builds its result with the constructor of [Workflow],
    which stores the value of the status it is given, and the
    serializer reads [.value] from that field: every workflow the
    deserializer returns makes the serializer raise AttributeError, and
    a workflow the serializer accepts differs, in its status, from what
    the deserializer makes of its document.  S3 as the executor takes it
    is serialized, read back as another workflow, and that one cannot
    be serialized again. *)
Theorem serialized_workflow_is_not_read_back :
  (forall w doc wf,
      WorkflowDeserializer.from_yaml w doc = Ok wf ->
      WorkflowSerializer.to_yaml wf
      = Raise (AttributeError "'str' object has no attribute 'value'"))
  /\ (forall w wf doc wf',
        WorkflowSerializer.to_yaml wf = Ok doc ->
        WorkflowDeserializer.from_yaml w doc = Ok wf' ->
        Objects.wf_status wf' <> Objects.wf_status wf)
  /\ (exists doc wf',
        WorkflowSerializer.to_yaml (Objects.of_members Scenarios.S3) = Ok doc
        /\ WorkflowDeserializer.from_yaml Scenarios.world0 doc = Ok wf'
        /\ wf' <> Objects.of_members Scenarios.S3
        /\ WorkflowSerializer.to_yaml wf'
           = Raise (AttributeError "'str' object has no attribute 'value'")).
Proof.
  unfold WorkflowSerializer.to_yaml, WorkflowDeserializer.from_yaml.
  split; [|split].
  - intros w doc wf Hfrom. apply from_dict_status in Hfrom as [s Hs].
    exact (to_dict_of_stored_status wf s Hs).
  - intros w wf doc wf' Hto Hfrom Heq.
    apply from_dict_status in Hfrom as [s Hs]. rewrite Heq in Hs.
    rewrite (to_dict_of_stored_status wf s Hs) in Hto. discriminate.
  - eexists. eexists. split; [vm_compute; reflexivity|].
    split; [vm_compute; reflexivity|]. split; [|vm_compute; reflexivity].
    intros Heq. apply (f_equal Objects.wf_status) in Heq. discriminate.
Qed.

(** ** What no run can do *)

Section NeverReported.
Import WorkflowExecutor.
Context (w : World) (self : WorkflowExecutor.t).

Lemma try_node_keeps_extra (node : WorkflowNode) (st : LoopState) :
  ctx_extra (context (fst (try_node w self node st))) = ctx_extra (context st).
Proof.
  unfold try_node.
  destruct (create_node node) as [h|e] eqn:Hh; [|reflexivity].
  destruct (NodeWrapper.run h w node _) as [[result ctx]|e] eqn:Hrun; [|reflexivity].
  assert (Hkeep : ctx_extra ctx = ctx_extra (context st)).
  { unfold NodeWrapper.run in Hrun.
    destruct (h w node _) as [[[s out] ctx']|] eqn:Hexec; simpl in Hrun; [|discriminate].
    inversion Hrun; subst; clear Hrun. simpl.
    now rewrite (proj2 (registry_keeps_trace node h Hh _ _ _ _ _ _ Hexec)). }
  destruct (next_edges_of self node result) as [next|e]; [|exact Hkeep].
  destruct (enqueue self next result (queue st)) as [q oe]. exact Hkeep.
Qed.

Lemma step_keeps_extra (st : LoopState) :
  match step w self st with
  | Drained st' | Next st' | Escaped _ st' =>
      ctx_extra (context st') = ctx_extra (context st)
  end.
Proof.
  unfold step. destruct (queue st) as [|node q]; [reflexivity|].
  destruct (_ || _); [reflexivity|].
  destruct (negb _); [reflexivity|].
  pose proof (try_node_keeps_extra node
                {| queue := q; executed := executed st; skipped := skipped st;
                   context := context st |}) as Htry.
  destruct (try_node w self node _) as [st' [e|]]; simpl in Htry; [|exact Htry].
  unfold handle_error.
  destruct (config_error_handler (config node)) as [s|]; [|exact Htry].
  repeat (destruct s as [|[[] [] [] [] [] [] [] []] s]; try exact Htry).
Qed.

Lemma iterate_keeps_extra (fuel : nat) (st st' : LoopState) (oe : option exn) :
  iterate w self fuel st = Some (st', oe) ->
  ctx_extra (context st') = ctx_extra (context st).
Proof.
  revert st. induction fuel as [|fuel IH]; intros st Hrun; simpl in Hrun.
  - discriminate.
  - pose proof (step_keeps_extra st) as Hstep.
    destruct (step w self st) as [s|s|e s].
    + now inversion Hrun; subst.
    + rewrite <- Hstep. now apply IH.
    + now inversion Hrun; subst.
Qed.

(** No run reports a message sent, and none reports a skipped node. *)
Lemma result_reports_nothing_sent_or_skipped (fuel : nat)
  (trig : WorkflowTriggerType) (data : option dict)
  (r : WorkflowExecutionResult) :
  execute w self fuel trig data = Some (Ok r) ->
  messages_sent r = VList [] /\ skipped_nodes r = [].
Proof.
  unfold execute. intros Hrun.
  destruct (negb _); [discriminate|].
  set (ctx := initial_context _ _ _ _) in *.
  destruct (_find_start_nodes _ ctx) as [|s ss].
  - now inversion Hrun; subst.
  - unfold _execute_from_nodes in Hrun.
    destruct (iterate _ _ _ _) as [[st oe]|] eqn:Hloop; [|discriminate].
    apply iterate_keeps_extra in Hloop. simpl in Hloop.
    destruct oe; inversion Hrun; subst; clear Hrun;
      unfold failed_result, build_result; simpl; rewrite Hloop; now split.
Qed.

(** A queue of waiting nodes only is turned round and round: the loop
    never ends from such a state. *)
Lemma starved_step (st : LoopState) :
  starved self st ->
  exists st', step w self st = Next st' /\ starved self st'.
Proof.
  intros [Hne Hall]. unfold step.
  destruct (queue st) as [|node q] eqn:Hq; [congruence|].
  inversion Hall as [|? ? [Hexec [Hskip Hready]] Hrest]; subst.
  rewrite (bool_decide_eq_false_2 _ Hexec), (bool_decide_eq_false_2 _ Hskip).
  simpl. rewrite Hready. simpl.
  eexists. split; [reflexivity|]. split; simpl.
  - now destruct q.
  - apply Forall_app. split; [exact Hrest|]. now repeat constructor.
Qed.

Lemma starved_queue_never_drains (st : LoopState) :
  starved self st -> forall fuel, iterate w self fuel st = None.
Proof.
  intros Hst fuel. revert st Hst.
  induction fuel as [|fuel IH]; intros st Hst; simpl; [reflexivity|].
  destruct (starved_step st Hst) as [st' [Hstep Hst']].
  rewrite Hstep. now apply IH.
Qed.

End NeverReported.

(** * Further properties of the code *)

(** ** The node registry *)

(** X1.  [create_node] finds a handler for a node exactly when its type
    is not one of branch, loop, binary_storage and file_storage; for
    these four it raises ValueError naming the type. *)
Theorem create_node_registered (node : WorkflowNode) :
  (unregistered (type node) = false -> exists h, create_node node = Ok h)
  /\ (unregistered (type node) = true ->
      create_node node
      = Raise (ValueError ("Unknown node type: " +:+ node_type_value (type node)))).
Proof.
  unfold create_node.
  split; intros H; destruct (type node); try discriminate H;
    simpl; eexists + idtac; reflexivity.
Qed.

Lemma create_node_registered_witness :
  (exists h, create_node Scenarios.start = Ok h)
  /\ create_node (Scenarios.node "l" LOOP (Scenarios.cfg None BaseConfig))
     = Raise (ValueError "Unknown node type: loop").
Proof.
  split.
  - apply (proj1 (create_node_registered Scenarios.start)). reflexivity.
  - apply (proj2 (create_node_registered
                    (Scenarios.node "l" LOOP (Scenarios.cfg None BaseConfig)))).
    reflexivity.
Defined.

(** ** What every run keeps *)

Section Dicts.
Context {A : Type}.

Lemma dict_get_set_eq (k : string) (v : A) (d : list (string * A)) :
  dict_get k (dict_set k v d) = Some v.
Proof.
  induction d as [|[k' v'] d IH]; simpl.
  - now rewrite String.eqb_refl.
  - destruct (String.eqb k k') eqn:E; simpl.
    + now rewrite String.eqb_refl.
    + now rewrite E.
Qed.

Lemma dict_get_set_ne (k k' : string) (v : A) (d : list (string * A)) :
  k <> k' -> dict_get k (dict_set k' v d) = dict_get k d.
Proof.
  intros Hne. induction d as [|[k0 v0] d IH]; simpl.
  - apply String.eqb_neq in Hne. now rewrite Hne.
  - destruct (String.eqb k' k0) eqn:E; simpl.
    + apply String.eqb_eq in E. subst k0.
      apply String.eqb_neq in Hne. now rewrite Hne.
    + now rewrite IH.
Qed.

Lemma dict_mem_set (k k' : string) (v : A) (d : list (string * A)) :
  dict_mem k d = true -> dict_mem k (dict_set k' v d) = true.
Proof.
  unfold dict_mem. destruct (String.eqb_spec k k') as [->|Hne].
  - now rewrite dict_get_set_eq.
  - now rewrite dict_get_set_ne.
Qed.

End Dicts.

Section RunInvariant.
Import WorkflowExecutor.

Ltac handler_cases :=
  repeat match goal with
    | H : Ok _ = Ok _ |- _ => inversion H; subst; clear H
    | H : Raise _ = Ok _ |- _ => discriminate H
    | H : mbind _ ?m = Ok _ |- _ =>
        let E := fresh "E" in destruct m eqn:E; simpl in H
    | H : (match ?x with _ => _ end) = Ok _ |- _ =>
        let E := fresh "E" in destruct x eqn:E; simpl in H
    | H : (let '(_, _) := ?x in _) = Ok _ |- _ =>
        let E := fresh "E" in destruct x eqn:E; simpl in H
    end.

Lemma set_value_keeps_outputs (node : WorkflowNode) (ctx : WorkflowContext)
  (k : string) :
  dict_mem k (node_outputs ctx) = true ->
  dict_mem k (node_outputs (snd (JsonProcessorNode._set_value node ctx))) = true.
Proof.
  intros Hk. unfold JsonProcessorNode._set_value.
  destruct (config_get_default _ _ _) as [path|]; [|exact Hk].
  destruct (config_get _ _) as [v|]; [|exact Hk].
  unfold JsonProcessorNode.set_path.
  destruct (negb _); [exact Hk|].
  destruct (JsonProcessorNode.path_parts _); [|exact Hk].
  destruct (JsonProcessorNode.set_in _ _ _ _) as [d' [e|]];
    destruct (match last_executed ctx with Some _ => _ | None => _ end);
    simpl; try exact Hk; now apply dict_mem_set.
Qed.

Lemma registry_keeps_outputs (node : WorkflowNode) (h : Handler) :
  create_node node = Ok h -> keeps_outputs h.
Proof.
  unfold create_node. intros Hh w node' ctx st out ctx' k Hrun Hk.
  destruct (type node); simpl in Hh; inversion Hh; subst; clear Hh.
  - unfold EventStartNode.execute in Hrun. handler_cases. exact Hk.
  - unfold ScheduleStartNode.execute in Hrun. handler_cases. exact Hk.
  - unfold ConditionNode.execute in Hrun. handler_cases; exact Hk.
  - unfold HttpRequestNode.execute in Hrun. handler_cases; exact Hk.
  - unfold JsonProcessorNode.execute in Hrun.
    destruct (config_get_default _ _ _) as [operation|]; simpl in Hrun;
      [|discriminate].
    destruct operation; try discriminate.
    pose proof (set_value_keeps_outputs node' ctx k Hk) as Hset.
    destruct (JsonProcessorNode._set_value node' ctx) as [r c]. simpl in Hset.
    repeat match goal with
           | H : context [if ?b then _ else _] |- _ => destruct b
           end; simpl in Hrun; handler_cases; auto.
  - unfold ReplyMessageNode.execute in Hrun. handler_cases; exact Hk.
  - unfold ToolActionNode.execute in Hrun. handler_cases; exact Hk.
  - unfold SetVariableNode.execute in Hrun. handler_cases; exact Hk.
  - unfold GetVariableNode.execute in Hrun. handler_cases; exact Hk.
  - unfold ChatCommandBranchNode.execute in Hrun. handler_cases; exact Hk.
  - unfold EndNode.execute in Hrun. handler_cases. exact Hk.
Qed.

Context (w : World) (wf : Workflow) (uuid : string).
Local Abbreviation self := (__init__ wf uuid).

(** What [node_map] holds is a node of the workflow. *)
Lemma node_map_in (k : string) (n : WorkflowNode) :
  node_map self !! k = Some n -> In n (nodes wf).
Proof.
  simpl.
  assert (Hgen : forall l (m : gmap string WorkflowNode),
             (forall k n, m !! k = Some n -> In n (nodes wf)) ->
             (forall n, In n l -> In n (nodes wf)) ->
             forall k n,
               foldl (fun m n => <[ node_id n := n ]> m) m l !! k = Some n ->
               In n (nodes wf)).
  { induction l as [|x l IH]; intros m Hm Hl k' n' Hk; simpl in Hk.
    - now apply (Hm k').
    - apply (IH (<[ node_id x := x ]> m)) with (k := k'); auto.
      + intros k0 n0 H0. destruct (decide (node_id x = k0)) as [Heq|Hne].
        * subst k0. rewrite lookup_insert_eq in H0. inversion H0; subst. apply Hl. now left.
        * rewrite lookup_insert_ne in H0 by exact Hne. now apply (Hm k0).
      + intros n0 Hn0. apply Hl. now right. }
  apply Hgen; auto. intros k0 n0 H0. now rewrite lookup_empty in H0.
Qed.

Lemma enqueue_in (next : list WorkflowEdge) (result : value)
  (q : list WorkflowNode) :
  Forall (fun n => In n (nodes wf)) q ->
  Forall (fun n => In n (nodes wf)) (fst (enqueue self next result q)).
Proof.
  revert q. induction next as [|e next IH]; intros q Hq; [exact Hq|].
  cbn [enqueue].
  destruct (node_map self !! target e) as [n|] eqn:Hn; [|now apply IH].
  assert (Hq' : Forall (fun n => In n (nodes wf)) (q ++ [n])).
  { apply Forall_app. split; [exact Hq|]. constructor; [|constructor].
    now apply (node_map_in (target e)). }
  destruct (condition e) as [c|]; [|now apply IH].
  destruct (_evaluate_edge_condition c result) as [[|]|x]; auto.
Qed.

Lemma skip_targets_in (edges : list WorkflowEdge) :
  Forall (fun n => In n (nodes wf))
         (omap (fun edge => node_map self !! target edge) edges).
Proof.
  induction edges as [|e edges IH]; [constructor|].
  cbn [omap list_omap].
  destruct (node_map self !! target e) as [n|] eqn:Hn; [|exact IH].
  constructor; [now apply (node_map_in (target e))|exact IH].
Qed.

Lemma try_node_run_invariant (node : WorkflowNode) (st : LoopState) :
  run_invariant wf st ->
  In node (nodes wf) ->
  ~ In (node_id node) (executed_nodes (context st)) ->
  run_invariant wf (fst (try_node w self node st)).
Proof.
  intros (Hq & Hex & Hnd & Hout) Hnode Hfresh. unfold try_node.
  destruct (create_node node) as [h|e] eqn:Hh; [|now repeat split].
  destruct (NodeWrapper.run h w node _) as [[result ctx]|e] eqn:Hrun;
    [|now repeat split].
  unfold NodeWrapper.run in Hrun.
  destruct (h w node _) as [[[s out] ctx']|] eqn:Hexec; simpl in Hrun; [|discriminate].
  inversion Hrun; subst; clear Hrun.
  destruct (registry_keeps_trace node h Hh _ _ _ _ _ _ Hexec) as [Htrace _].
  simpl in Htrace.
  assert (Hnew : forall q, Forall (fun n => In n (nodes wf)) q ->
            run_invariant wf
              {| queue := q; executed := {[ node_id node ]} ∪ executed st;
                 skipped := skipped st;
                 context := append_executed (node_id node)
                              (set_node_outputs
                                 (dict_set (node_id node) result (node_outputs ctx'))
                                 ctx') |}).
  { intros q Hq'. unfold run_invariant. simpl. rewrite Htrace.
    split; [exact Hq'|]. split; [|split].
    - apply Forall_app. split; [exact Hex|]. constructor; [|constructor].
      now exists node.
    - apply NoDup_app. split; [exact Hnd|]. split.
      + intros x Hx Hin. apply list_elem_of_singleton in Hin. subst x.
        apply Hfresh. now apply list_elem_of_In.
      + apply NoDup_singleton.
    - apply Forall_app. split.
      + eapply Forall_impl; [exact Hout|]. intros id Hid. apply dict_mem_set.
        apply (registry_keeps_outputs node h Hh _ _ _ _ _ _ id Hexec). exact Hid.
      + constructor; [|constructor]. unfold dict_mem. now rewrite dict_get_set_eq. }
  destruct (next_edges_of self node result) as [next|e]; [|now apply Hnew].
  pose proof (enqueue_in next result (queue st) Hq) as Henq.
  destruct (enqueue self next result (queue st)) as [q oe]. now apply Hnew.
Qed.

Lemma handle_error_run_invariant (node : WorkflowNode) (e : exn) (st : LoopState) :
  run_invariant wf st ->
  match handle_error w self node e st with
  | Drained st' | Next st' | Escaped _ st' => run_invariant wf st'
  end.
Proof.
  intros Hinv. unfold handle_error.
  assert (Hskip : run_invariant wf
            {| queue := queue st ++
                        omap (fun edge => node_map self !! target edge)
                             (default [] (edge_map self !! node_id node));
               executed := executed st;
               skipped := {[ node_id node ]} ∪ skipped st;
               context := append_error
                            (VDict [("node_id", VStr (node_id node));
                                    ("error", VStr (exn_str e));
                                    ("timestamp", VStr (now w))]) (context st) |}).
  { destruct Hinv as (Hq & Hrest). split; [|exact Hrest]. simpl.
    apply Forall_app. split; [exact Hq|apply skip_targets_in]. }
  destruct (config_error_handler (config node)) as [s|]; [|exact Hinv].
  repeat (destruct s as [|[[] [] [] [] [] [] [] []] s]; try exact Hinv).
  exact Hskip.
Qed.

Lemma step_run_invariant (st : LoopState) :
  loop_invariant wf st ->
  run_invariant wf st ->
  match step w self st with
  | Drained st' | Next st' | Escaped _ st' => run_invariant wf st'
  end.
Proof.
  intros [Hset _] Hinv. unfold step.
  destruct (queue st) as [|node q] eqn:Hq; [exact Hinv|].
  assert (Hnode : In node (nodes wf) /\ Forall (fun n => In n (nodes wf)) q).
  { destruct Hinv as (Hqueue & _). rewrite Hq in Hqueue.
    now inversion Hqueue; subst. }
  destruct Hnode as [Hnode Htail].
  assert (Hpop : run_invariant wf
            {| queue := q; executed := executed st; skipped := skipped st;
               context := context st |}).
  { destruct Hinv as (_ & Hrest). now split. }
  cbv zeta. cbn [executed skipped queue context].
  destruct (bool_decide (node_id node ∈ executed st)) eqn:Hdone; simpl;
    [exact Hpop|].
  destruct (bool_decide (node_id node ∈ skipped st)); simpl; [exact Hpop|].
  destruct (_are_dependencies_satisfied self node (executed st)); simpl.
  - apply bool_decide_eq_false in Hdone.
    pose proof (try_node_run_invariant node _ Hpop Hnode) as Htry.
    simpl in Htry.
    assert (Hfresh : ~ In (node_id node) (executed_nodes (context st))).
    { intros Hin. apply Hdone. now apply Hset. }
    specialize (Htry Hfresh).
    destruct (try_node w self node _) as [st' [e|]]; simpl in Htry; [|exact Htry].
    now apply handle_error_run_invariant.
  - destruct Hpop as (_ & Hrest). split; [|exact Hrest]. simpl.
    apply Forall_app. split; [exact Htail|]. now repeat constructor.
Qed.

Lemma iterate_run_invariant (fuel : nat) (st st' : LoopState) (oe : option exn) :
  loop_invariant wf st ->
  run_invariant wf st ->
  iterate w self fuel st = Some (st', oe) ->
  run_invariant wf st'.
Proof.
  revert st. induction fuel as [|fuel IH]; intros st Hloop Hinv Hrun;
    simpl in Hrun; [discriminate|].
  pose proof (step_invariant w wf uuid st Hloop) as Hl.
  pose proof (step_run_invariant st Hloop Hinv) as Hr.
  destruct (step w self st) as [s|s|e s].
  - now inversion Hrun; subst.
  - now apply (IH s).
  - now inversion Hrun; subst.
Qed.

(** The context a result is built from, for a run that returned. *)
Lemma execute_run_invariant (fuel : nat) (trig : WorkflowTriggerType)
  (data : option dict) (r : WorkflowExecutionResult) :
  execute w self fuel trig data = Some (Ok r) ->
  Forall (fun id => exists n, In n (nodes wf) /\ node_id n = id) (r_executed_nodes r)
  /\ NoDup (r_executed_nodes r)
  /\ Forall (fun id => dict_mem id (outputs r) = true) (r_executed_nodes r).
Proof.
  unfold execute. intros Hrun.
  destruct (negb _); [discriminate|].
  set (ctx := initial_context _ _ _ _) in *.
  destruct (_find_start_nodes _ ctx) as [|s ss] eqn:Hstart.
  - inversion Hrun; subst; clear Hrun. simpl.
    repeat split; constructor.
  - unfold _execute_from_nodes in Hrun.
    destruct (iterate _ _ _ _) as [[st oe]|] eqn:Hloop; [|discriminate].
    apply iterate_run_invariant in Hloop as (_ & Hex & Hnd & Hout).
    + destruct oe; inversion Hrun; subst; clear Hrun; simpl; now repeat split.
    + now apply initial_invariant.
    + split; [|simpl; repeat split; constructor]. simpl.
      rewrite <- Hstart. unfold _find_start_nodes.
      apply Forall_forall. intros n Hn. apply list_elem_of_In in Hn.
      now apply filter_In in Hn as [Hn _].
Qed.

End RunInvariant.



(** X3.  Every id in the list of executed nodes of a result is the id of
    a node of the workflow: an edge whose target is not a node adds
    nothing to the run. *)
Theorem executed_nodes_are_workflow_nodes
  (w : World) (wf : Workflow) (uuid : string) (fuel : nat)
  (trig : WorkflowTriggerType) (data : option dict)
  (r : WorkflowExecutionResult) (id : string) :
  WorkflowExecutor.execute w (WorkflowExecutor.__init__ wf uuid) fuel trig data
  = Some (Ok r) ->
  In id (r_executed_nodes r) ->
  exists n, In n (nodes wf) /\ node_id n = id.
Proof.
  intros Hrun Hin. apply execute_run_invariant in Hrun as (Hex & _).
  rewrite Forall_forall in Hex. apply Hex. now apply list_elem_of_In.
Qed.

Lemma executed_nodes_are_workflow_nodes_witness :
  exists n, In n (nodes Scenarios.S2) /\ node_id n = "R2"%string.
Proof.
  assert (Hrun : exists r,
             WorkflowExecutor.execute Scenarios.world0
               (WorkflowExecutor.__init__ Scenarios.S2 "exec-1") 20 PERSON_MESSAGE
               (Some [("content"%string, VStr "/run x")]) = Some (Ok r)
             /\ In "R2"%string (r_executed_nodes r)).
  { eexists. split; [vm_compute; reflexivity|]. simpl. tauto. }
  destruct Hrun as [r [Hrun Hin]].
  exact (executed_nodes_are_workflow_nodes Scenarios.world0 Scenarios.S2 "exec-1" 20
           PERSON_MESSAGE (Some [("content"%string, VStr "/run x")]) r "R2" Hrun Hin).
Defined.



(** ** Termination without edges *)

Section Edgeless.
Import WorkflowExecutor.
Context (w : World) (wf : Workflow) (uuid : string).
Local Abbreviation self := (__init__ wf uuid).
Hypothesis no_edges : edges wf = [].

Lemma edgeless_maps :
  edge_map self = ∅ /\ reverse_edge_map self = ∅.
Proof using no_edges. simpl. now rewrite no_edges. Qed.

Lemma edgeless_try_node (node : WorkflowNode) (st : LoopState) :
  queue (fst (try_node w self node st)) = queue st.
Proof using no_edges.
  unfold try_node.
  destruct (create_node node) as [h|e]; [|reflexivity].
  destruct (NodeWrapper.run h w node _) as [[result ctx]|e]; [|reflexivity].
  unfold next_edges_of. rewrite (proj1 edgeless_maps), lookup_empty. simpl.
  destruct (type node); try reflexivity.
  destruct result; reflexivity.
Qed.

(** Without edges every iteration takes one node off the queue. *)
Lemma edgeless_step (st : LoopState) :
  match step w self st with
  | Drained _ | Escaped _ _ => True
  | Next st' => S (length (queue st')) = length (queue st)
  end.
Proof using no_edges.
  unfold step. destruct (queue st) as [|node q] eqn:Hq; [exact I|].
  cbv zeta. cbn [executed skipped queue context].
  destruct (_ || _); [reflexivity|].
  unfold _are_dependencies_satisfied.
  rewrite (proj2 edgeless_maps), lookup_empty. simpl.
  pose proof (edgeless_try_node node
                {| queue := q; executed := executed st; skipped := skipped st;
                   context := context st |}) as Hq'.
  destruct (try_node w self node _) as [st' [e|]]; simpl in Hq'.
  - unfold handle_error. rewrite (proj1 edgeless_maps), lookup_empty. simpl.
    rewrite app_nil_r, Hq'.
    destruct (config_error_handler (config node)) as [s|]; [|reflexivity].
    repeat (destruct s as [|[[] [] [] [] [] [] [] []] s]; try reflexivity); exact I.
  - now rewrite Hq'.
Qed.

Lemma edgeless_iterate (fuel : nat) (st : LoopState) :
  (length (queue st) < fuel)%nat ->
  exists out, iterate w self fuel st = Some out.
Proof using no_edges.
  revert st. induction fuel as [|fuel IH]; intros st Hlen; [lia|].
  simpl. pose proof (edgeless_step st) as Hstep.
  destruct (step w self st) as [s|s|e s]; [now eexists| |now eexists].
  apply IH. lia.
Qed.

End Edgeless.

(** X5.  A workflow without edges always ends: with more loop iterations
    allowed than the workflow has nodes, [execute] returns (a result, or
    the error of a workflow that is not active). *)
Theorem execute_without_edges_returns
  (w : World) (wf : Workflow) (uuid : string) (fuel : nat)
  (trig : WorkflowTriggerType) (data : option dict) :
  edges wf = [] ->
  (length (nodes wf) < fuel)%nat ->
  exists out,
    WorkflowExecutor.execute w (WorkflowExecutor.__init__ wf uuid) fuel trig data
    = Some out.
Proof.
  intros Hedges Hfuel. unfold WorkflowExecutor.execute.
  destruct (negb _); [now eexists|].
  set (ctx := WorkflowExecutor.initial_context _ _ _ _).
  destruct (WorkflowExecutor._find_start_nodes _ ctx) as [|s ss] eqn:Hstart;
    [now eexists|].
  unfold WorkflowExecutor._execute_from_nodes.
  destruct (edgeless_iterate w wf uuid Hedges fuel
              {| WorkflowExecutor.queue := s :: ss;
                 WorkflowExecutor.executed := ∅;
                 WorkflowExecutor.skipped := ∅;
                 WorkflowExecutor.context := ctx |}) as [[st oe] Hrun].
  - cbn [WorkflowExecutor.queue]. rewrite <- Hstart.
    unfold WorkflowExecutor._find_start_nodes.
    eapply Nat.le_lt_trans; [apply List.filter_length_le|exact Hfuel].
  - rewrite Hrun. destruct oe; now eexists.
Qed.

Lemma execute_without_edges_returns_witness :
  exists out,
    WorkflowExecutor.execute Scenarios.world0
      (WorkflowExecutor.__init__
         (Scenarios.workflow_of [Scenarios.start; Scenarios.reply "r" "hi"] [] None)
         "exec-1")
      3 PERSON_MESSAGE None
    = Some out.
Proof.
  apply (execute_without_edges_returns Scenarios.world0
           (Scenarios.workflow_of [Scenarios.start; Scenarios.reply "r" "hi"] [] None)
           "exec-1" 3 PERSON_MESSAGE None).
  - reflexivity.
  - simpl. lia.
Defined.

(** ** The node handlers *)

Section HandlerFacts.

(** X6.  The http_request handler judges a request by whether it raised,
    not by the status code: when the server answers, whatever the
    status, the handler never returns FAILED. *)
Theorem http_response_is_success
  (w : World) (node : WorkflowNode) (ctx ctx' : WorkflowContext)
  (st : NodeStatus) (out : value) :
  (forall m u h b t, exists status hs body,
       http w m u h b t = HttpResponse status hs body) ->
  HttpRequestNode.execute w node ctx = Ok (st, out, ctx') ->
  st = SUCCESS
  /\ exists status hs body,
       out = VDict [("status", VInt status); ("headers", hs); ("body", VStr body)].
Proof.
  intros Hanswer. unfold HttpRequestNode.execute. intros Hrun.
  destruct (config_attr (config node) "method") as [m|]; simpl in Hrun; [|discriminate].
  destruct (config_attr (config node) "url") as [u|]; simpl in Hrun; [|discriminate].
  destruct (HttpRequestNode.substitute_url_body _ _ _) as [[u' b']|];
    simpl in Hrun; [|discriminate].
  match type of Hrun with
  | context [http w ?a ?b ?c ?d ?e] =>
      destruct (Hanswer a b c d e) as (status & hs & body & Hhttp); rewrite Hhttp in Hrun
  end.
  inversion Hrun; subst. split; [reflexivity|]. now exists status, hs, body.
Qed.

Lemma http_response_is_success_witness :
  SUCCESS = SUCCESS
  /\ exists status hs body,
       VDict [("status", VInt 500); ("headers", VDict []);
              ("body", VStr "Internal Server Error")]
       = VDict [("status", VInt status); ("headers", hs); ("body", VStr body)].
Proof.
  apply (http_response_is_success HandlerInputs.answering
           (Scenarios.http_node "stop") HandlerInputs.empty_context
           HandlerInputs.empty_context SUCCESS
           (VDict [("status", VInt 500); ("headers", VDict []);
                   ("body", VStr "Internal Server Error")])).
  - intros m u h b t. now exists 500, (VDict []), "Internal Server Error"%string.
  - reflexivity.
Defined.

(** The lookup of [get] on a configuration object raises. *)
Lemma config_get_raises (c : NodeConfig) (name : string) (d : value) :
  is_object c = true ->
  exists e,
    config_get_default c name d = Raise e
    /\ (e = AttributeError
              ("'" +:+ class_name (payload c) +:+ "' object has no attribute 'get'")
        \/ exists v,
             dict_get "get" (extra c) = Some v
             /\ e = TypeError ("'" +:+ type_name v +:+ "' object is not callable")).
Proof.
  unfold is_object, config_get_default. intros Hobject.
  destruct (payload c); try discriminate;
    (destruct (dict_get "get" (extra c)) as [v|];
     [eexists; split; [reflexivity|right; now exists v]
     |eexists; split; [reflexivity|now left]]).
Qed.

(** X7.  A json_processor node raises on every configuration object,
    whatever class it is of: [config.get] is called before the [try]
    block, and the object has no such method.  On a plain dict whose
    operation is a string, or absent, the node never raises: whatever
    the operation, the path, the input and the JSON codec do, [execute]
    returns a status and an output. *)
Theorem json_processor_raises_only_on_objects
  (w : World) (node : WorkflowNode) (ctx : WorkflowContext) :
  (is_object (config node) = true ->
   exists e,
     JsonProcessorNode.execute w node ctx = Raise e
     /\ (e = AttributeError
               ("'" +:+ class_name (payload (config node))
                +:+ "' object has no attribute 'get'")
         \/ exists v,
              dict_get "get" (extra (config node)) = Some v
              /\ e = TypeError ("'" +:+ type_name v +:+ "' object is not callable")))
  /\ (forall items op,
        payload (config node) = PlainDict items ->
        dict_get_default "operation" (VStr "extract") items = VStr op ->
        exists st out ctx', JsonProcessorNode.execute w node ctx = Ok (st, out, ctx')).
Proof.
  split.
  - intros Hobject. unfold JsonProcessorNode.execute.
    destruct (config_get_raises (config node) "operation" (VStr "extract") Hobject)
      as (e & -> & He).
    now exists e.
  - intros items op Hp Hop. unfold JsonProcessorNode.execute, config_get_default.
    rewrite Hp, Hop. simpl.
    destruct (String.eqb (lower op) "extract").
    { destruct (JsonProcessorNode._extract_value node ctx); now repeat eexists. }
    destruct (String.eqb (lower op) "set").
    { destruct (JsonProcessorNode._set_value node ctx) as [[r|e] c]; now repeat eexists. }
    destruct (String.eqb (lower op) "serialize").
    { destruct (JsonProcessorNode._serialize w ctx); now repeat eexists. }
    destruct (String.eqb (lower op) "deserialize").
    { destruct (JsonProcessorNode._deserialize w ctx); now repeat eexists. }
    now repeat eexists.
Qed.

Lemma json_processor_raises_only_on_objects_witness :
  (exists e,
     JsonProcessorNode.execute Scenarios.world0
       (HandlerInputs.json_node "extract" (Some "user.name") VNone)
       HandlerInputs.empty_context = Raise e)
  /\ (exists st out ctx',
        JsonProcessorNode.execute Scenarios.world0
          (HandlerInputs.dict_node "json" JSON_PROCESSOR
             [("operation", VStr "frobnicate")])
          HandlerInputs.empty_context = Ok (st, out, ctx')).
Proof.
  split.
  - destruct (proj1 (json_processor_raises_only_on_objects Scenarios.world0
                       (HandlerInputs.json_node "extract" (Some "user.name") VNone)
                       HandlerInputs.empty_context) eq_refl) as (e & He & _).
    now exists e.
  - apply (proj2 (json_processor_raises_only_on_objects Scenarios.world0
                    (HandlerInputs.dict_node "json" JSON_PROCESSOR
                       [("operation", VStr "frobnicate")])
                    HandlerInputs.empty_context)
             [("operation", VStr "frobnicate")] "frobnicate"); reflexivity.
Defined.

(** The loop of [_set_value] and the loop of [_extract_value] agree:
    where the writes went through, the same path reads the value back. *)
Lemma walk_set_in (parts : list string) (last : string) (v current current' : value) :
  JsonProcessorNode.set_in parts last v current = (current', None) ->
  JsonProcessorNode.walk (parts ++ [last]) current' = Ok v.
Proof.
  revert current current'. induction parts as [|part rest IH];
    intros current current' Hset; cbn [JsonProcessorNode.set_in] in Hset.
  - destruct current; inversion Hset; subst. cbn.
    unfold dict_get_default. now rewrite dict_get_set_eq.
  - destruct current as [|b|z|s|l|d]; try (inversion Hset; fail).
    destruct (JsonProcessorNode.set_in rest last v _) as [child e] eqn:Hchild.
    inversion Hset; subst. cbn.
    unfold dict_get_default at 1. rewrite dict_get_set_eq.
    now apply (IH _ _ Hchild).
Qed.

Lemma split_on_parts (p : string) :
  removelast (split_on "." p) ++ [List.last (split_on "." p) ""%string]
  = split_on "." p.
Proof.
  symmetry. apply app_removelast_last.
  destruct p as [|c p]; cbn; [discriminate|].
  destruct (Ascii.eqb c "."); [discriminate|].
  destruct (split_on "." p); discriminate.
Qed.

Lemma last_executed_append (id : string) (ctx : WorkflowContext) :
  last_executed (WorkflowExecutor.append_executed id ctx) = Some id.
Proof.
  unfold last_executed, WorkflowExecutor.append_executed. cbn [executed_nodes].
  rewrite map_app. apply last_last.
Qed.

Lemma split_on_result (p : string) :
  split_on "." ("result." +:+ p) = "result"%string :: split_on "." p.
Proof. reflexivity. Qed.





(** X10.  A condition node without clauses answers false, under "and" as
    under "or" or any other value of [logic]. *)
Theorem condition_without_clauses_is_false
  (w : World) (node : WorkflowNode) (ctx : WorkflowContext)
  (default_branch : option string) :
  payload (config node) = ConditionConfig [] default_branch ->
  ConditionNode.execute w node ctx
  = Ok (SUCCESS, VDict [("result", VBool false)], ctx).
Proof.
  intros Hp. unfold ConditionNode.execute, config_attr, config_fields.
  rewrite Hp. cbn.
  now destruct (py_eq _ _).
Qed.

Lemma condition_without_clauses_is_false_witness :
  ConditionNode.execute Scenarios.world0
    (Scenarios.node "cond" CONDITION
       {| timeout := None; retry := None; error_handler := None;
          payload := ConditionConfig [] None;
          extra := [("logic", VStr "or")] |})
    HandlerInputs.empty_context
  = Ok (SUCCESS, VDict [("result", VBool false)], HandlerInputs.empty_context).
Proof.
  apply (condition_without_clauses_is_false Scenarios.world0 _ _ None).
  reflexivity.
Defined.



End HandlerFacts.

(** ** The persistence service *)

Section ServiceFacts.
Import WorkflowServiceDb.

(** X12.  Deleting a workflow removes its row and every execution record
    that references it, and nothing else: the other workflows and the
    records of other workflows stay as they were. *)
Theorem delete_workflow_cascades (workflow_uuid : string) (db : Db) :
  get_workflow workflow_uuid (delete_workflow workflow_uuid db) = None
  /\ (forall k record,
        execution_rows (delete_workflow workflow_uuid db) !! k = Some record ->
        references workflow_uuid record = false)
  /\ (forall other,
        other <> workflow_uuid ->
        get_workflow other (delete_workflow workflow_uuid db) = get_workflow other db)
  /\ (forall k record,
        execution_rows db !! k = Some record ->
        references workflow_uuid record = false ->
        execution_rows (delete_workflow workflow_uuid db) !! k = Some record).
Proof.
  unfold get_workflow, delete_workflow. cbn [workflow_rows execution_rows].
  repeat split.
  - now rewrite lookup_delete_eq.
  - intros k record Hk. apply map_lookup_filter_Some in Hk as [_ Hk]. exact Hk.
  - intros other Hne. now rewrite lookup_delete_ne.
  - intros k record Hk Href. apply map_lookup_filter_Some. now split.
Qed.

Lemma delete_workflow_cascades_witness :
  WorkflowServiceDb.get_workflow "wf-1"
    (WorkflowServiceDb.delete_workflow "wf-1"
       {| WorkflowServiceDb.workflow_rows := {[ "wf-1" := {[ "name" := VStr "n" ]} ]};
          WorkflowServiceDb.execution_rows :=
            {[ "ex-1" := {[ "workflow_uuid" := VStr "wf-1" ]} ]} |})
  = None.
Proof.
  exact (proj1 (delete_workflow_cascades _ _)).
Defined.

Lemma set_default_lookup (k k' : string) (v : value) (d : gmap string value) :
  set_default k v d !! k'
  = if decide (k = k') then Some (default v (d !! k)) else d !! k'.
Proof.
  unfold set_default. destruct (d !! k) as [x|] eqn:E; case_decide; subst;
    simpl; rewrite ?E, ?lookup_insert_eq, ?lookup_insert_ne; auto.
Qed.

Lemma to_api_id (row : gmap string value) (u : value) :
  row !! "uuid" = Some u ->
  to_api row !! "id" = Some u /\ to_api row !! "uuid" = None.
Proof.
  intros Hu. unfold to_api.
  destruct (row !! "workflow_metadata") as [m|].
  - rewrite lookup_insert_ne, lookup_delete_ne, Hu by discriminate.
    split; [apply lookup_insert_eq|].
    rewrite lookup_insert_ne by discriminate. apply lookup_delete_eq.
  - rewrite Hu. split; [apply lookup_insert_eq|].
    rewrite lookup_insert_ne by discriminate. apply lookup_delete_eq.
Qed.

(** X13.  A workflow that was created is found again under the uuid
    [create_workflow] returned, and the dict read back names that uuid
    as [id] and has no key [uuid]. *)
Theorem create_then_get_workflow
  (w : World) (fresh_uuid : string) (workflow_data : gmap string value)
  (db db' : Db) (uuid : string) :
  create_workflow w fresh_uuid workflow_data db = Ok (uuid, db') ->
  exists d,
    get_workflow uuid db' = Some d
    /\ d !! "id" = Some (VStr uuid)
    /\ d !! "uuid" = None.
Proof.
  unfold create_workflow. intros Hcreate.
  destruct (prepare_insert fresh_uuid workflow_data) as [data|]; simpl in Hcreate;
    [|discriminate].
  destruct (data !! "uuid") as [[| | |u| |]|] eqn:Hu; try discriminate.
  destruct (workflow_rows db !! u); [discriminate|].
  inversion Hcreate; subst; clear Hcreate.
  unfold get_workflow. cbn [workflow_rows]. rewrite lookup_insert_eq. simpl.
  eexists. split; [reflexivity|].
  apply to_api_id. erewrite lookup_union_Some_l; [reflexivity|exact Hu].
Qed.

Lemma create_then_get_workflow_witness :
  exists db' d,
    create_workflow Scenarios.world0 "fresh" new_workflow empty_db
    = Ok ("wf-9"%string, db')
    /\ get_workflow "wf-9" db' = Some d
    /\ d !! "id" = Some (VStr "wf-9")
    /\ d !! "uuid" = None.
Proof.
  assert (Hrun : exists db',
             create_workflow Scenarios.world0 "fresh" new_workflow empty_db
             = Ok ("wf-9"%string, db')).
  { eexists. vm_compute. reflexivity. }
  destruct Hrun as [db' Hrun].
  destruct (create_then_get_workflow Scenarios.world0 "fresh" new_workflow empty_db
              db' "wf-9" Hrun) as [d Hd].
  exists db', d. split; [exact Hrun|exact Hd].
Defined.

Lemma prepare_insert_uuid (fresh_uuid id : string)
  (workflow_data data : gmap string value) :
  workflow_data !! "id" = Some (VStr id) ->
  prepare_insert fresh_uuid workflow_data = Ok data ->
  data !! "uuid" = Some (VStr id).
Proof.
  intros Hid. unfold prepare_insert.
  set (d0 := match workflow_data !! "uuid" with
             | None | Some VNone => <[ "uuid" := VStr fresh_uuid ]> workflow_data
             | Some _ => workflow_data
             end).
  assert (Hid0 : d0 !! "id" = Some (VStr id)).
  { subst d0. destruct (workflow_data !! "uuid") as [[]|];
      rewrite ?lookup_insert_ne by discriminate; exact Hid. }
  clearbody d0.
  set (d6 := set_default "workflow_metadata" _ _).
  assert (Hid6 : d6 !! "id" = Some (VStr id)).
  { subst d6. rewrite !set_default_lookup. repeat case_decide; try discriminate.
    exact Hid0. }
  clearbody d6. rewrite Hid6.
  set (d7 := <[ "uuid" := VStr id ]> (delete "id" d6)).
  assert (Hu7 : WorkflowService.rename_metadata d7 !! "uuid" = Some (VStr id)).
  { unfold WorkflowService.rename_metadata.
    destruct (d7 !! "metadata");
      rewrite ?lookup_insert_ne, ?lookup_delete_ne by discriminate;
      subst d7; now rewrite lookup_insert_eq. }
  clearbody d7. revert Hu7.
  generalize (WorkflowService.rename_metadata d7). intros d8 Hu8.
  destruct (d8 !! "trigger_types") as [tts|].
  - destruct (main_trigger tts) as [t|]; simpl; [|discriminate].
    intros [= <-]. now rewrite lookup_insert_ne, lookup_delete_ne by discriminate.
  - intros [= <-]. rewrite set_default_lookup. now case_decide.
Qed.

(** X14.  The [id] of the data decides the key of the row: when the data
    names an [id] that is a string, [create_workflow] stores the
    workflow under it, whatever [uuid] the data names or the service
    drew. *)
Theorem create_workflow_uses_id
  (w : World) (fresh_uuid : string) (workflow_data : gmap string value)
  (db db' : Db) (uuid id : string) :
  workflow_data !! "id" = Some (VStr id) ->
  create_workflow w fresh_uuid workflow_data db = Ok (uuid, db') ->
  uuid = id.
Proof.
  intros Hid. unfold create_workflow.
  destruct (prepare_insert fresh_uuid workflow_data) as [data|e] eqn:Hdata;
    simpl; [|discriminate].
  rewrite (prepare_insert_uuid _ _ _ _ Hid Hdata).
  destruct (workflow_rows db !! id); [discriminate|]. now intros [= <- _].
Qed.

Lemma create_workflow_uses_id_witness :
  exists uuid db',
    create_workflow Scenarios.world0 "fresh" new_workflow empty_db = Ok (uuid, db')
    /\ uuid = "wf-9"%string.
Proof.
  assert (Hrun : exists db',
             create_workflow Scenarios.world0 "fresh" new_workflow empty_db
             = Ok ("wf-9"%string, db')).
  { eexists. vm_compute. reflexivity. }
  destruct Hrun as [db' Hrun].
  exists "wf-9"%string, db'. split; [exact Hrun|].
  apply (create_workflow_uses_id Scenarios.world0 "fresh" new_workflow empty_db
           db' "wf-9" "wf-9"); [reflexivity|exact Hrun].
Defined.

(** X15.  Updating a uuid that has no row changes nothing in the table:
    the service does not create the workflow. *)
Theorem update_of_missing_workflow_is_noop
  (w : World) (workflow_uuid : string) (workflow_data : gmap string value)
  (db db' : gmap string (gmap string value)) :
  db !! workflow_uuid = None ->
  WorkflowService.update_workflow w workflow_uuid workflow_data db = Ok db' ->
  db' = db.
Proof.
  intros Hmissing. unfold WorkflowService.update_workflow.
  rewrite Hmissing. simpl. intros Hupdate. inversion Hupdate; subst.
  apply map_eq. intros k. rewrite lookup_alter.
  case_decide; [subst k; now rewrite Hmissing|reflexivity].
Qed.

Lemma update_of_missing_workflow_is_noop_witness :
  exists db',
    WorkflowService.update_workflow Scenarios.world0 "wf-2" hijacking_update
      stored_table = Ok db'
    /\ db' = stored_table.
Proof.
  assert (Hrun : WorkflowService.update_workflow Scenarios.world0 "wf-2"
                   hijacking_update stored_table = Ok stored_table).
  { reflexivity. }
  exists stored_table. split; [exact Hrun|].
  exact (update_of_missing_workflow_is_noop Scenarios.world0 "wf-2" hijacking_update
           stored_table stored_table eq_refl Hrun).
Defined.

Lemma rename_metadata_keeps_absent (k : string) (d : gmap string value) :
  k <> "workflow_metadata"%string -> d !! k = None ->
  WorkflowService.rename_metadata d !! k = None.
Proof.
  intros Hk Hd. unfold WorkflowService.rename_metadata.
  destruct (d !! "metadata"); [|exact Hd].
  rewrite lookup_insert_ne by congruence.
  destruct (decide (k = "metadata"%string)) as [->|Hne].
  - apply lookup_delete_eq.
  - now rewrite lookup_delete_ne by congruence.
Qed.

Lemma first_trigger_keeps_absent (k : string) (d : gmap string value) :
  k <> "trigger_type"%string -> d !! k = None ->
  WorkflowService.first_trigger d !! k = None.
Proof.
  intros Hk Hd. unfold WorkflowService.first_trigger.
  destruct (d !! "trigger_types") as [tts|]; [|exact Hd].
  assert (Hdel : delete "trigger_types" d !! k = None).
  { destruct (decide (k = "trigger_types"%string)) as [->|Hne].
    - apply lookup_delete_eq.
    - now rewrite lookup_delete_ne by congruence. }
  destruct tts as [| | | |[|t l]|]; try exact Hdel.
  now rewrite lookup_insert_ne by congruence.
Qed.

Lemma update_workflow_returns
  (w : World) (workflow_uuid : string) (workflow_data : gmap string value)
  (db : gmap string (gmap string value)) (row : gmap string value) (v : Z) :
  db !! workflow_uuid = Some row ->
  row !! "version" = Some (VInt v) ->
  exists db', WorkflowService.update_workflow w workflow_uuid workflow_data db = Ok db'.
Proof.
  intros Hrow Hver. unfold WorkflowService.update_workflow.
  rewrite Hrow. simpl. rewrite Hver. simpl. now eexists.
Qed.

(** X16.  An update writes one row only, and never its [uuid] or its
    [created_at]: the other rows of the table are as before, and the
    updated row keeps both columns even when the data names them. *)
Theorem update_keeps_identity
  (w : World) (workflow_uuid : string) (workflow_data : gmap string value)
  (db db' : gmap string (gmap string value)) :
  WorkflowService.update_workflow w workflow_uuid workflow_data db = Ok db' ->
  (forall other, other <> workflow_uuid -> db' !! other = db !! other)
  /\ (forall row,
        db !! workflow_uuid = Some row ->
        exists row',
          db' !! workflow_uuid = Some row'
          /\ row' !! "uuid" = row !! "uuid"
          /\ row' !! "created_at" = row !! "created_at").
Proof.
  unfold WorkflowService.update_workflow. intros Hupdate.
  set (d0 := delete "created_at" (delete "id" (delete "uuid" workflow_data))) in *.
  set (d2 := WorkflowService.first_trigger (WorkflowService.rename_metadata d0)) in *.
  assert (Huuid : d2 !! "uuid" = None).
  { apply first_trigger_keeps_absent, rename_metadata_keeps_absent; try discriminate.
    subst d0. rewrite !lookup_delete_ne by discriminate. apply lookup_delete_eq. }
  assert (Hcreated : d2 !! "created_at" = None).
  { apply first_trigger_keeps_absent, rename_metadata_keeps_absent; try discriminate.
    subst d0. apply lookup_delete_eq. }
  match type of Hupdate with
  | mbind _ ?m = _ => destruct m as [data|] eqn:Hdata; simpl in Hupdate; [|discriminate]
  end.
  assert (Hkeep : data !! "uuid" = None /\ data !! "created_at" = None).
  { destruct (db !! workflow_uuid) as [row|]; simpl in Hdata.
    - destruct (default VNone (row !! "version")); inversion Hdata; subst;
        now rewrite !lookup_insert_ne by discriminate.
    - now inversion Hdata; subst. }
  destruct Hkeep as [Hu Hc].
  inversion Hupdate; subst; clear Hupdate. split.
  - intros other Hne. now rewrite lookup_alter_ne.
  - intros row Hrow. rewrite lookup_alter_eq, Hrow. simpl.
    eexists. split; [reflexivity|].
    rewrite !lookup_union, Hu, Hc.
    rewrite !lookup_singleton_ne by discriminate.
    split; [now destruct (row !! "uuid")|now destruct (row !! "created_at")].
Qed.

Lemma update_keeps_identity_witness :
  exists db',
    WorkflowService.update_workflow Scenarios.world0 "wf-1" hijacking_update
      stored_table = Ok db'
    /\ exists row',
         db' !! "wf-1" = Some row'
         /\ row' !! "uuid" = stored_row !! "uuid"
         /\ row' !! "created_at" = stored_row !! "created_at".
Proof.
  destruct (update_workflow_returns Scenarios.world0 "wf-1" hijacking_update
              stored_table stored_row 7 eq_refl eq_refl) as [db' Hrun].
  exists db'. split; [exact Hrun|].
  exact (proj2 (update_keeps_identity Scenarios.world0 "wf-1" hijacking_update
                  stored_table db' Hrun) stored_row eq_refl).
Defined.

End ServiceFacts.

(** ** The indices of the manager *)

Section ManagerFacts.
Import WorkflowManagerIndex.

Lemma list_remove_absent (x : string) (l : list string) :
  x ∉ l -> list_remove x l = Raise (ValueError "list.remove(x): x not in list").
Proof.
  induction l as [|y l IH]; intros Hx; [reflexivity|].
  apply not_elem_of_cons in Hx as [Hne Hx]. simpl.
  destruct (String.eqb_spec x y) as [->|_]; [contradiction|].
  now rewrite (IH Hx).
Qed.

Lemma list_remove_last (x : string) (l : list string) :
  x ∉ l -> list_remove x (l ++ [x]) = Ok l.
Proof.
  induction l as [|y l IH]; intros Hx; simpl.
  - now rewrite String.eqb_refl.
  - apply not_elem_of_cons in Hx as [Hne Hx].
    destruct (String.eqb_spec x y) as [->|_]; [contradiction|].
    now rewrite (IH Hx).
Qed.

Lemma truthy_str_Some (b : string) : b <> ""%string -> truthy_str (Some b) = true.
Proof.
  intros Hb. unfold truthy_str. now destruct (String.eqb_spec b "").
Qed.

(** X17.  When [bind_workflow_to_bot] returns True the workflow carries
    the bot's id and [get_bot_workflows] of that bot lists it. *)
Theorem bound_workflow_is_listed
  (w : World) (self self' : t) (workflow_id bot : string) :
  bind_workflow_to_bot w self workflow_id bot = (self', Ok true) ->
  exists wf,
    workflows self' !! workflow_id = Some wf
    /\ bot_id wf = Some bot
    /\ In wf (get_bot_workflows self' bot).
Proof.
  unfold bind_workflow_to_bot.
  destruct (workflows self !! workflow_id) as [wf|] eqn:Hwf; [|discriminate].
  destruct (remove_from_bot wf workflow_id (bot_workflows self)) as [index|e];
    [|discriminate].
  intros [= <-]. eexists. split; [apply lookup_insert_eq|]. split; [reflexivity|].
  unfold get_bot_workflows. cbn [workflows bot_workflows].
  rewrite lookup_insert_eq. cbn [default].
  apply list_elem_of_In, list_elem_of_omap. exists workflow_id. split.
  - apply elem_of_app. right. apply list_elem_of_singleton. reflexivity.
  - apply lookup_insert_eq.
Qed.

Lemma bound_workflow_is_listed_witness :
  exists self' wf,
    bind_workflow_to_bot Scenarios.world0 sample "wf" "bot-1" = (self', Ok true)
    /\ workflows self' !! "wf" = Some wf
    /\ bot_id wf = Some "bot-1"%string
    /\ In wf (get_bot_workflows self' "bot-1").
Proof.
  assert (Hrun : exists self',
             bind_workflow_to_bot Scenarios.world0 sample "wf" "bot-1"
             = (self', Ok true)).
  { eexists. vm_compute. reflexivity. }
  destruct Hrun as [self' Hrun].
  destruct (bound_workflow_is_listed Scenarios.world0 sample self' "wf" "bot-1" Hrun)
    as [wf Hwf].
  exists self', wf. split; [exact Hrun|exact Hwf].
Defined.

(** X18.  The index of a bot is trusted to hold every workflow that
    names the bot: when a workflow names a bot whose list does not hold
    the workflow's id, binding it and unbinding it raise the ValueError
    of [list.remove] and leave the manager as it was. *)
Theorem bind_raises_on_stale_index
  (w : World) (self : t) (workflow_id bot b : string) (wf : Workflow)
  (l : list string) :
  workflows self !! workflow_id = Some wf ->
  bot_id wf = Some b ->
  b <> ""%string ->
  bot_workflows self !! b = Some l ->
  workflow_id ∉ l ->
  bind_workflow_to_bot w self workflow_id bot
  = (self, Raise (ValueError "list.remove(x): x not in list"))
  /\ unbind_workflow_from_bot w self workflow_id
     = (self, Raise (ValueError "list.remove(x): x not in list")).
Proof.
  intros Hwf Hbot Hb Hl Hnot.
  unfold bind_workflow_to_bot, unbind_workflow_from_bot, remove_from_bot.
  rewrite Hwf, Hbot, (truthy_str_Some b Hb), Hl, (list_remove_absent _ _ Hnot).
  split; reflexivity.
Qed.

Lemma bind_raises_on_stale_index_witness :
  bind_workflow_to_bot Scenarios.world0 stale "wf" "bot-2"
  = (stale, Raise (ValueError "list.remove(x): x not in list"))
  /\ unbind_workflow_from_bot Scenarios.world0 stale "wf"
     = (stale, Raise (ValueError "list.remove(x): x not in list")).
Proof.
  apply (bind_raises_on_stale_index Scenarios.world0 stale "wf" "bot-2" "bot-1"
           (with_fields ACTIVE (Some "bot-1"%string) "2025-01-02T00:00:00" Scenarios.S1)
           ["other"%string]).
  - vm_compute. reflexivity.
  - reflexivity.
  - discriminate.
  - vm_compute. reflexivity.
  - apply not_elem_of_cons. split; [discriminate|apply not_elem_of_nil].
Defined.

(** X19.  In the same situation [delete_workflow] raises after it has
    cancelled the scheduled task: the workflow, its executor and its row
    in the database all stay. *)
Theorem delete_raises_on_stale_index
  (self : t) (workflow_id b : string) (wf : Workflow) (l : list string) :
  workflows self !! workflow_id = Some wf ->
  bot_id wf = Some b ->
  b <> ""%string ->
  bot_workflows self !! b = Some l ->
  workflow_id ∉ l ->
  exists self',
    delete_workflow self workflow_id
    = (self', Raise (ValueError "list.remove(x): x not in list"))
    /\ workflows self' = workflows self
    /\ executors self' = executors self
    /\ workflow_service self' = workflow_service self
    /\ (workflow_id ∉ scheduled_tasks self').
Proof.
  intros Hwf Hbot Hb Hl Hnot.
  unfold delete_workflow, remove_from_bot.
  rewrite Hwf, Hbot, (truthy_str_Some b Hb), Hl, (list_remove_absent _ _ Hnot).
  eexists. split; [reflexivity|]. cbn. repeat split.
  apply not_elem_of_difference. right. now apply elem_of_singleton.
Qed.

Lemma delete_raises_on_stale_index_witness :
  exists self',
    delete_workflow stale "wf"
    = (self', Raise (ValueError "list.remove(x): x not in list"))
    /\ workflows self' = workflows stale
    /\ executors self' = executors stale
    /\ workflow_service self' = workflow_service stale
    /\ ("wf"%string ∉ scheduled_tasks self').
Proof.
  apply (delete_raises_on_stale_index stale "wf" "bot-1"
           (with_fields ACTIVE (Some "bot-1"%string) "2025-01-02T00:00:00" Scenarios.S1)
           ["other"%string]).
  - vm_compute. reflexivity.
  - reflexivity.
  - discriminate.
  - vm_compute. reflexivity.
  - apply not_elem_of_cons. split; [discriminate|apply not_elem_of_nil].
Defined.



(** X21.  Binding a workflow that names no bot and then unbinding it
    gives back the lists of every bot, provided the bot's id is not the
    empty string and its list did not hold the workflow already. *)
Theorem bind_then_unbind
  (w : World) (self : t) (workflow_id bot : string) (wf : Workflow) :
  workflows self !! workflow_id = Some wf ->
  truthy_str (bot_id wf) = false ->
  bot <> ""%string ->
  workflow_id ∉ default [] (bot_workflows self !! bot) ->
  exists self1 self2,
    bind_workflow_to_bot w self workflow_id bot = (self1, Ok true)
    /\ unbind_workflow_from_bot w self1 workflow_id = (self2, Ok true)
    /\ (forall b, default [] (bot_workflows self2 !! b)
                  = default [] (bot_workflows self !! b))
    /\ (bot_id <$> workflows self2 !! workflow_id) = Some None.
Proof.
  intros Hwf Hunbound Hbot Hnot.
  assert (Hremove : remove_from_bot wf workflow_id (bot_workflows self)
                    = Ok (bot_workflows self)).
  { unfold remove_from_bot. destruct (bot_id wf) as [b|]; [|reflexivity].
    now rewrite Hunbound. }
  unfold bind_workflow_to_bot. rewrite Hwf, Hremove.
  eexists. eexists. split; [reflexivity|].
  unfold unbind_workflow_from_bot, remove_from_bot.
  cbn [workflows bot_workflows executors debuggers scheduled_tasks workflow_service].
  rewrite lookup_insert_eq. cbn [bot_id with_fields].
  rewrite (truthy_str_Some bot Hbot). cbn [negb].
  rewrite lookup_insert_eq, (list_remove_last _ _ Hnot). cbn [mbind res_bind].
  split; [reflexivity|].
  cbn [workflows bot_workflows]. split.
  - intros b. rewrite insert_insert_eq.
    destruct (decide (b = bot)) as [->|Hne].
    + now rewrite lookup_insert_eq.
    + now rewrite lookup_insert_ne.
  - now rewrite insert_insert_eq, lookup_insert_eq.
Qed.

Lemma bind_then_unbind_witness :
  exists self1 self2,
    bind_workflow_to_bot Scenarios.world0 sample "wf" "bot-1" = (self1, Ok true)
    /\ unbind_workflow_from_bot Scenarios.world0 self1 "wf" = (self2, Ok true)
    /\ (forall b, default [] (bot_workflows self2 !! b)
                  = default [] (bot_workflows sample !! b))
    /\ (bot_id <$> workflows self2 !! "wf") = Some None.
Proof.
  apply (bind_then_unbind Scenarios.world0 sample "wf" "bot-1" Scenarios.S1).
  - vm_compute. reflexivity.
  - reflexivity.
  - discriminate.
  - vm_compute. intros H. inversion H.
Defined.

(** X22.  The empty string is accepted as a bot id by
    [bind_workflow_to_bot] and taken for no bot afterwards: the workflow
    cannot be unbound, and binding it to another bot leaves it in the
    list of the empty id. *)
Theorem empty_bot_id_is_not_undone
  (w : World) (self self1 : t) (workflow_id : string) :
  bind_workflow_to_bot w self workflow_id "" = (self1, Ok true) ->
  unbind_workflow_from_bot w self1 workflow_id = (self1, Ok false)
  /\ forall bot self2,
       bind_workflow_to_bot w self1 workflow_id bot = (self2, Ok true) ->
       bot <> ""%string ->
       workflow_id ∈ default [] (bot_workflows self2 !! "").
Proof.
  unfold bind_workflow_to_bot at 1.
  destruct (workflows self !! workflow_id) as [wf|] eqn:Hwf; [|discriminate].
  destruct (remove_from_bot wf workflow_id (bot_workflows self)) as [index|e];
    [|discriminate].
  intros [= <-]. split.
  - unfold unbind_workflow_from_bot. cbn [workflows]. now rewrite lookup_insert_eq.
  - intros bot self2. unfold bind_workflow_to_bot, remove_from_bot.
    cbn [workflows bot_workflows]. rewrite lookup_insert_eq. cbn [bot_id with_fields].
    cbn [truthy_str String.eqb negb]. intros [= <-] Hbot. cbn [bot_workflows].
    rewrite lookup_insert_ne by congruence. rewrite lookup_insert_eq. cbn [default].
    apply elem_of_app. right. now apply list_elem_of_singleton.
Qed.

Lemma empty_bot_id_is_not_undone_witness :
  exists self1,
    bind_workflow_to_bot Scenarios.world0 sample "wf" "" = (self1, Ok true)
    /\ unbind_workflow_from_bot Scenarios.world0 self1 "wf" = (self1, Ok false).
Proof.
  assert (Hrun : exists self1,
             bind_workflow_to_bot Scenarios.world0 sample "wf" "" = (self1, Ok true)).
  { eexists. vm_compute. reflexivity. }
  destruct Hrun as [self1 Hrun]. exists self1. split; [exact Hrun|].
  exact (proj1 (empty_bot_id_is_not_undone Scenarios.world0 sample self1 "wf" Hrun)).
Defined.

End ManagerFacts.

(** ** The scheduler *)

Section SchedulerFacts.
Import WorkflowScheduler.

Lemma append_assoc (a b c : string) : (a +:+ b) +:+ c = a +:+ b +:+ c.
Proof.
  induction a as [|x a IH]; [reflexivity|].
  change (String x ((a +:+ b) +:+ c) = String x (a +:+ b +:+ c)). now f_equal.
Qed.

Lemma task_key_prefix (workflow_id node : string) :
  startswith (task_key workflow_id node) (workflow_id +:+ "_") = true.
Proof.
  unfold startswith, task_key. rewrite <- append_assoc. apply prefix_app.
Qed.

Lemma schedule_workflow_keys (wf : Workflow) :
  forall (ns : list WorkflowNode) (keys : gset string) (key : string),
    key ∈ foldl (fun keys n =>
                   if schedules n
                   then keys ∪ {[ task_key (wf_id wf) (node_id n) ]}
                   else keys) keys ns
    <-> key ∈ keys
        \/ exists n, In n ns /\ schedules n = true
                     /\ key = task_key (wf_id wf) (node_id n).
Proof.
  induction ns as [|n ns IH]; intros keys key; simpl.
  - split; [now left|]. intros [H|(n & [] & _)]. exact H.
  - rewrite IH. destruct (schedules n) eqn:Hn.
    + rewrite elem_of_union, elem_of_singleton. split.
      * intros [[H| ->]|(m & Hm & Hs & Hk)]; [now left| |].
        -- right. exists n. auto.
        -- right. exists m. auto.
      * intros [H|(m & [<-|Hm] & Hs & Hk)]; [now left; left| |].
        -- left. now right.
        -- right. exists m. auto.
    + split.
      * intros [H|(m & Hm & Hs & Hk)]; [now left|]. right. exists m. auto.
      * intros [H|(m & [<-|Hm] & Hs & Hk)]; [now left|congruence|].
        right. exists m. auto.
Qed.

(** X23.  Cancelling a workflow removes every task that
    [schedule_workflow] started for it, one per schedule_start node with
    a cron expression: scheduling and then cancelling leaves what
    cancelling alone leaves. *)
Theorem schedule_then_cancel (scheduled_workflows : gset string) (wf : Workflow) :
  cancel_scheduled_workflow (schedule_workflow scheduled_workflows wf) (wf_id wf)
  = cancel_scheduled_workflow scheduled_workflows (wf_id wf).
Proof.
  apply set_eq. intros key. unfold cancel_scheduled_workflow, schedule_workflow.
  rewrite !elem_of_filter, schedule_workflow_keys. split.
  - intros [Hkey [H|(n & _ & _ & ->)]]; [now split|].
    now rewrite task_key_prefix in Hkey.
  - intros [Hkey H]. split; [exact Hkey|now left].
Qed.

(** X24.  The keys of the tasks are matched by prefix: cancelling a
    workflow also cancels the tasks of every workflow whose id starts
    with the cancelled id followed by an underscore. *)
Theorem cancel_reaches_longer_ids
  (scheduled_workflows : gset string) (wf : Workflow) (workflow_id rest : string)
  (n : WorkflowNode) :
  wf_id wf = workflow_id +:+ "_" +:+ rest ->
  In n (nodes wf) ->
  schedules n = true ->
  task_key (wf_id wf) (node_id n) ∈ schedule_workflow scheduled_workflows wf
  /\ task_key (wf_id wf) (node_id n)
     ∉ cancel_scheduled_workflow (schedule_workflow scheduled_workflows wf)
         workflow_id.
Proof.
  intros Hid Hn Hs. split.
  - unfold schedule_workflow. apply schedule_workflow_keys. right. exists n. auto.
  - unfold cancel_scheduled_workflow. rewrite elem_of_filter. intros [Hkey _].
    rewrite Hid in Hkey. unfold startswith, task_key in Hkey.
    replace ((workflow_id +:+ "_" +:+ rest) +:+ "_" +:+ node_id n)
      with ((workflow_id +:+ "_") +:+ rest +:+ "_" +:+ node_id n) in Hkey
      by now rewrite !append_assoc.
    now rewrite prefix_app in Hkey.
Qed.

Lemma cancel_reaches_longer_ids_witness :
  task_key "a_b" "s1" ∈ schedule_workflow ∅ (nightly "a_b")
  /\ task_key "a_b" "s1"
     ∉ cancel_scheduled_workflow (schedule_workflow ∅ (nightly "a_b")) "a".
Proof.
  apply (cancel_reaches_longer_ids ∅ (nightly "a_b") "a" "b"
           (Scenarios.node "s1" SCHEDULE_START
              (Scenarios.cfg None (ScheduleStartConfig "0 3 * * *" None)))).
  - reflexivity.
  - left. reflexivity.
  - reflexivity.
Defined.

End SchedulerFacts.

(** ** Nodes that cannot run *)

Section ObjectConfigurations.
Import WorkflowExecutor.

(** A handler that returned was not one of the six run on a
    configuration object. *)
Lemma returned_can_return (w : World) (node : WorkflowNode) (ctx : WorkflowContext)
  (h : Handler) (r : HandlerReturn) :
  create_node node = Ok h -> h w node ctx = Ok r -> can_return node = true.
Proof.
  unfold can_return. intros Hh Hrun.
  destruct (is_object (config node)) eqn:Hobject;
    [|now rewrite andb_false_r].
  rewrite andb_true_r.
  assert (Hget : forall name d, exists e,
             config_get_default (config node) name d = Raise e).
  { intros name d.
    destruct (config_get_raises (config node) name d Hobject) as (e & He & _).
    now exists e. }
  unfold create_node in Hh.
  destruct (type node); simpl in Hh; inversion Hh; subst; clear Hh;
    try reflexivity; exfalso.
  - unfold ScheduleStartNode.execute in Hrun.
    destruct (Hget "cron_expression"%string (VStr "0 * * * *")) as [e He].
    now rewrite He in Hrun.
  - unfold JsonProcessorNode.execute in Hrun.
    destruct (Hget "operation"%string (VStr "extract")) as [e He].
    now rewrite He in Hrun.
  - unfold ToolActionNode.execute, config_get in Hrun.
    destruct (Hget "tool_id"%string VNone) as [e He].
    now rewrite He in Hrun.
  - unfold SetVariableNode.execute, config_get in Hrun.
    destruct (Hget "variable_name"%string VNone) as [e He].
    now rewrite He in Hrun.
  - unfold GetVariableNode.execute, config_get in Hrun.
    destruct (Hget "variable_name"%string VNone) as [e He].
    now rewrite He in Hrun.
  - unfold ChatCommandBranchNode.execute in Hrun.
    destruct (Hget "command_prefix"%string (VStr "/")) as [e He].
    now rewrite He in Hrun.
Qed.

Context (w : World) (wf : Workflow) (uuid : string).
Local Abbreviation self := (__init__ wf uuid).

(** The queue holds nodes of the workflow, and every executed id is the
    id of a node of the workflow whose handler can return. *)
Local Abbreviation returned st :=
  (Forall (fun n => In n (nodes wf)) (queue st)
   /\ Forall (fun id => exists n, In n (nodes wf) /\ node_id n = id
                                  /\ can_return n = true)
             (executed_nodes (context st))).

Lemma try_node_returned (node : WorkflowNode) (st : LoopState) :
  returned st -> In node (nodes wf) -> returned (fst (try_node w self node st)).
Proof.
  intros [Hq Hex] Hnode. unfold try_node.
  destruct (create_node node) as [h|e] eqn:Hh; [|now split].
  destruct (NodeWrapper.run h w node _) as [[result ctx]|e] eqn:Hrun; [|now split].
  unfold NodeWrapper.run in Hrun.
  destruct (h w node _) as [[[s out] ctx']|] eqn:Hexec; simpl in Hrun; [|discriminate].
  inversion Hrun; subst; clear Hrun.
  destruct (registry_keeps_trace node h Hh _ _ _ _ _ _ Hexec) as [Htrace _].
  simpl in Htrace.
  assert (Hnew : Forall (fun id => exists n, In n (nodes wf) /\ node_id n = id
                                             /\ can_return n = true)
                        (executed_nodes ctx' ++ [node_id node])).
  { rewrite Htrace. apply Forall_app. split; [exact Hex|].
    constructor; [|constructor]. exists node. split; [exact Hnode|].
    split; [reflexivity|]. exact (returned_can_return _ _ _ _ _ Hh Hexec). }
  destruct (next_edges_of self node result) as [next|e]; [|now split].
  pose proof (enqueue_in wf uuid next result (queue st) Hq) as Henq.
  destruct (enqueue self next result (queue st)) as [q oe]. now split.
Qed.

Lemma handle_error_returned (node : WorkflowNode) (e : exn) (st : LoopState) :
  returned st ->
  match handle_error w self node e st with
  | Drained st' | Next st' | Escaped _ st' => returned st'
  end.
Proof.
  intros [Hq Hex]. unfold handle_error.
  destruct (config_error_handler (config node)) as [s|]; [|now split].
  repeat (destruct s as [|[[] [] [] [] [] [] [] []] s]; try now split).
  split; [|exact Hex]. simpl.
  apply Forall_app. split; [exact Hq|apply (skip_targets_in wf uuid)].
Qed.

Lemma step_returned (st : LoopState) :
  returned st ->
  match step w self st with
  | Drained st' | Next st' | Escaped _ st' => returned st'
  end.
Proof.
  intros [Hq Hex]. unfold step.
  destruct (queue st) as [|node q] eqn:Hqueue; [split; [now rewrite Hqueue|exact Hex]|].
  inversion Hq as [|? ? Hnode Htail]; subst.
  cbv zeta. cbn [executed skipped queue context].
  destruct (bool_decide (node_id node ∈ executed st)); simpl; [now split|].
  destruct (bool_decide (node_id node ∈ skipped st)); simpl; [now split|].
  destruct (_are_dependencies_satisfied self node (executed st)); simpl.
  - pose proof (try_node_returned node
                  {| queue := q; executed := executed st; skipped := skipped st;
                     context := context st |} (conj Htail Hex) Hnode) as Htry.
    destruct (try_node w self node _) as [st' [e|]]; simpl in Htry; [|exact Htry].
    now apply handle_error_returned.
  - split; [|exact Hex]. simpl. apply Forall_app. split; [exact Htail|].
    now repeat constructor.
Qed.

Lemma iterate_returned (fuel : nat) (st st' : LoopState) (oe : option exn) :
  returned st -> iterate w self fuel st = Some (st', oe) -> returned st'.
Proof.
  revert st. induction fuel as [|fuel IH]; intros st Hinv Hrun;
    simpl in Hrun; [discriminate|].
  pose proof (step_returned st Hinv) as Hstep.
  destruct (step w self st) as [s|s|e s].
  - now inversion Hrun; subst.
  - now apply (IH s).
  - now inversion Hrun; subst.
Qed.

Lemma execute_returned (fuel : nat) (trig : WorkflowTriggerType)
  (data : option dict) (r : WorkflowExecutionResult) :
  execute w self fuel trig data = Some (Ok r) ->
  Forall (fun id => exists n, In n (nodes wf) /\ node_id n = id
                              /\ can_return n = true)
         (r_executed_nodes r).
Proof.
  unfold execute. intros Hrun.
  destruct (negb _); [discriminate|].
  set (ctx := initial_context _ _ _ _) in *.
  destruct (_find_start_nodes _ ctx) as [|s ss] eqn:Hstart.
  - inversion Hrun; subst; clear Hrun. constructor.
  - unfold _execute_from_nodes in Hrun.
    destruct (iterate _ _ _ _) as [[st oe]|] eqn:Hloop; [|discriminate].
    apply iterate_returned in Hloop as [_ Hex].
    + destruct oe; inversion Hrun; subst; clear Hrun; exact Hex.
    + split; [|constructor]. simpl.
      rewrite <- Hstart. unfold _find_start_nodes.
      apply Forall_forall. intros n Hn. apply list_elem_of_In in Hn.
      now apply filter_In in Hn as [Hn _].
Qed.

End ObjectConfigurations.

(** X25.  A node of one of the six types whose handler reads the
    configuration with [config.get] (schedule_start, json_processor,
    set_variable, get_variable, chat_command_branch, tool_action) does
    not run when its configuration is an object of a configuration
    class, as validation leaves it: in no result is its id among the
    executed nodes. *)
Theorem object_configured_nodes_never_run
  (w : World) (wf : Workflow) (uuid : string) (fuel : nat)
  (trig : WorkflowTriggerType) (data : option dict)
  (r : WorkflowExecutionResult) (id : string) :
  WorkflowExecutor.execute w (WorkflowExecutor.__init__ wf uuid) fuel trig data
  = Some (Ok r) ->
  (forall n, In n (nodes wf) -> node_id n = id ->
             reads_with_get (type n) = true /\ is_object (config n) = true) ->
  ~ In id (r_executed_nodes r).
Proof.
  intros Hrun Hid Hin. apply execute_returned in Hrun.
  rewrite Forall_forall in Hrun. apply list_elem_of_In, Hrun in Hin.
  destruct Hin as (n & Hn & Hnid & Hcan).
  destruct (Hid n Hn Hnid) as [Hget Hobject].
  unfold can_return in Hcan. now rewrite Hget, Hobject in Hcan.
Qed.

Lemma object_configured_nodes_never_run_witness :
  exists r,
    Scenarios.run HandlerInputs.extracting 20 "x" = Some (Ok r)
    /\ r_status r = SUCCESS
    /\ ~ In "json"%string (r_executed_nodes r).
Proof.
  assert (Hrun : exists r,
             WorkflowExecutor.execute Scenarios.world0
               (WorkflowExecutor.__init__ HandlerInputs.extracting "exec-1") 20
               PERSON_MESSAGE (Some [("content"%string, VStr "x")]) = Some (Ok r)
             /\ r_status r = SUCCESS).
  { eexists. split; [vm_compute; reflexivity|reflexivity]. }
  destruct Hrun as [r [Hrun Hstatus]]. exists r.
  split; [exact Hrun|]. split; [exact Hstatus|].
  apply (object_configured_nodes_never_run Scenarios.world0 HandlerInputs.extracting
           "exec-1" 20 PERSON_MESSAGE (Some [("content"%string, VStr "x")]) r "json"
           Hrun).
  intros n [<-|[<-|[]]] Hid; [discriminate Hid|now split].
Defined.
